(** * CryptoGap+ : the arbitrage computation core

    A shallow embedding of [utils/arbitrage_calculator.py] together with the
    parts of [data/binance_fetcher.py], [data/kraken_fetcher.py] and
    [config/config.py] it depends on.

    Prices are Python / numpy binary64 numbers and are modelled with the
    primitive IEEE-754 floats of the Standard Library, so every arithmetic
    step rounds exactly as the program does. *)

From Stdlib Require Import Floats ZArith List String Bool.
From Stdlib Require Import Permutation Sorted Lia.
From stdpp Require Import gmap strings.
Import ListNotations.
Open Scope string_scope.
Open Scope list_scope.

(** ** Python floats *)

Module PyFloat.

(** [pd.isna] on a float, and [x != x]. *)
Definition is_nan (x : float) : bool := PrimFloat.is_nan x.

(** Exceptions the calculator can meet; all of them are caught by the
    [except Exception] handlers. *)
Inductive exn : Type :=
| ZeroDivisionError
| TypeError
| KeyError
| IndexError.

(** Result of a Python computation: a value or a raised exception. *)
Inductive res (A : Type) : Type :=
| Ok (a : A)
| Raise (e : exn).
Arguments Ok {A} a.
Arguments Raise {A} e.

Definition bind {A B : Type} (r : res A) (k : A -> res B) : res B :=
  match r with
  | Ok a => k a
  | Raise e => Raise e
  end.

(** [for x in l: s = body(s, x)], stopping at the first exception. *)
Fixpoint for_each {A S : Type} (body : S -> A -> res S) (l : list A) (s : S)
  : res S :=
  match l with
  | [] => Ok s
  | x :: l' =>
      match body s x with
      | Ok s' => for_each body l' s'
      | Raise e => Raise e
      end
  end.

(** [a / b] on Python floats: a zero divisor raises. *)
Definition truediv (a b : float) : res float :=
  if (b =? 0)%float then Raise ZeroDivisionError else Ok (a / b)%float.

(** [min(a, b)], the builtin: the first argument unless the second is
    strictly smaller. *)
Definition min (a b : float) : float := if (b <? a)%float then b else a.

(** [abs(a)], the builtin. *)
Definition abs (a : float) : float := PrimFloat.abs a.

End PyFloat.

Notation "'let*' x ':=' r 'in' k" := (PyFloat.bind r (fun x => k))
  (at level 10, x name, r at level 100, k at level 200).

(** ** config/config.py *)

Module Config.
Definition TOP_CRYPTOS : list string :=
  ["BTC"; "ETH"; "SOL"; "BNB"; "XRP"; "ADA"; "DOGE"; "DOT"; "LINK"; "LTC"].
Definition MARKETS : list string := ["USDT"; "BTC"].
End Config.

(** ** The part of pandas the program uses *)

Module Pandas.
Import PyFloat.

(** A value read out of a price table: a binary64 number or Python's
    [None]. *)
Inductive cell : Type :=
| PyNone
| F64 (f : float).

Definition isna (c : cell) : bool :=
  match c with
  | PyNone => true
  | F64 f => is_nan f
  end.

(** [pd.DataFrame(data)] on records whose values are floats or [None]
    types every column as [float64] (a [None] or a missing key becomes
    NaN) unless every record holds [None] there, which leaves an [object]
    column of [None]. *)
Inductive dtype : Type :=
| float64
| object.

(** One record of a price table.  [price m] is the content of the
    ["<m>_price"] column when that column is [float64]. *)
Record Row : Type := { Symbol : string; price : string -> float }.

(** A price table: the [Symbol] column and one ["<m>_price"] column for
    every market [m] listed in [columns]. *)
Record DataFrame : Type :=
  { columns : list (string * dtype); rows : list Row }.

(** [pd.DataFrame()] *)
Definition empty_frame : DataFrame := {| columns := []; rows := [] |}.

(** [df.empty] *)
Definition empty (df : DataFrame) : bool :=
  match rows df with
  | [] => true
  | _ :: _ => false
  end.

Fixpoint assoc {V : Type} (k : string) (d : list (string * V)) : option V :=
  match d with
  | [] => None
  | (k', v) :: d' => if String.eqb k k' then Some v else assoc k d'
  end.

(** The cell of row [r] in column ["<m>_price"]; [None] when the table has
    no such column. *)
Definition at_col (df : DataFrame) (r : Row) (m : string) : option cell :=
  match assoc m (columns df) with
  | Some float64 => Some (F64 (price r m))
  | Some object => Some PyNone
  | None => None
  end.

(** [pd.merge(left, right, on='Symbol', suffixes=...)]: the inner join,
    in the order of the left keys.  A merged row is kept as the pair of
    the rows it joins. *)
Definition merge (left right : DataFrame) : list (Row * Row) :=
  flat_map
    (fun l =>
       map (fun r => (l, r))
           (List.filter (fun r => String.eqb (Symbol l) (Symbol r))
                        (rows right)))
    (rows left).

(** ["<m>_price_binance"] and ["<m>_price_kraken"] exist in the merged
    table exactly when both tables have ["<m>_price"]: the suffixes are
    added to overlapping names only. *)
Definition merged_has (left right : DataFrame) (m : string) : bool :=
  match assoc m (columns left), assoc m (columns right) with
  | Some _, Some _ => true
  | _, _ => false
  end.

(** [row.get("<m>_price_binance")] on a merged row: [None] when the
    column is missing. *)
Definition get_left (left right : DataFrame) (row : Row * Row) (m : string)
  : cell :=
  if merged_has left right m then
    match at_col left row.1 m with
    | Some c => c
    | None => PyNone
    end
  else PyNone.

Definition get_right (left right : DataFrame) (row : Row * Row) (m : string)
  : cell :=
  if merged_has left right m then
    match at_col right row.2 m with
    | Some c => c
    | None => PyNone
    end
  else PyNone.

(** The order [sort_values(ascending=False)] establishes on a float
    column: larger first, NaN last. *)
Definition desc_na_last (x y : float) : Prop :=
  is_nan y = true \/ (y <=? x)%float = true.

(** [df.sort_values(by=key, ascending=False)].  The call leaves [kind] at
    its default, "quicksort", for which pandas promises the order above
    and nothing about ties; the algorithm belongs to numpy and is taken
    through this contract. *)
Class SortValues : Type :=
  { sort_values : forall A : Type, (A -> float) -> list A -> list A;
    sort_values_perm :
      forall (A : Type) (key : A -> float) (l : list A),
        Permutation l (sort_values A key l);
    sort_values_sorted :
      forall (A : Type) (key : A -> float) (l : list A),
        StronglySorted (fun a b => desc_na_last (key a) (key b))
                       (sort_values A key l) }.

(** *** Building a table from a list of dicts *)

(** A dict [{'Symbol': s, '<m>_price': v, ...}], with its price keys in
    insertion order. *)
Definition record : Type := string * list (string * option float).

(** [row[k] = v] *)
Fixpoint dict_set {V : Type} (k : string) (v : V) (d : list (string * V))
  : list (string * V) :=
  match d with
  | [] => [(k, v)]
  | (k', v') :: d' =>
      if String.eqb k k' then (k, v) :: d' else (k', v') :: dict_set k v d'
  end.

(** Column names, in order of first appearance. *)
Definition union_keys (data : list record) : list string :=
  fold_left
    (fun acc r =>
       fold_left
         (fun acc kv =>
            if List.existsb (String.eqb kv.1) acc then acc else acc ++ [kv.1])
         r.2 acc)
    data [].

Definition infer_dtype (data : list record) (m : string) : dtype :=
  if List.forallb
       (fun r => match assoc m r.2 with
                 | Some None => true
                 | _ => false
                 end)
       data
  then object else float64.

Definition to_row (r : record) : Row :=
  {| Symbol := r.1;
     price := fun m => match assoc m r.2 with
                       | Some (Some f) => f
                       | _ => nan
                       end |}.

(** [pd.DataFrame(data)] *)
Definition from_records (data : list record) : DataFrame :=
  {| columns := map (fun m => (m, infer_dtype data m)) (union_keys data);
     rows := map to_row data |}.

End Pandas.

(** ** data/binance_fetcher.py and data/kraken_fetcher.py *)

Module Fetcher.
Import PyFloat Pandas.

(** One pass of the [for market in markets] loop body; [direct],
    [reverse] and the Kraken alternates are the ticker names tried. *)
Definition lookup_price (all_prices : gmap string float)
           (names : list (string * bool)) : res (option float) :=
  fold_right
    (fun (nb : string * bool) (rest : res (option float)) =>
       match all_prices !! nb.1 with
       | Some p =>
           if nb.2 then let* q := truediv 1 p in Ok (Some q)
           else Ok (Some p)
       | None => rest
       end)
    (Ok None) names.

Section TopCryptoPrices.
(** [names crypto market]: the tickers tried in turn, each with whether
    it is a reverse pair (whose price is inverted). *)
Variable names : string -> string -> list (string * bool).
Variable all_prices : gmap string float.

Definition fill_row (crypto : string) (markets : list string)
  : res record :=
  for_each
    (fun (row : record) (market : string) =>
       if String.eqb crypto market then Ok row
       else
         let* v := lookup_price all_prices (names crypto market) in
         Ok (row.1, dict_set market v row.2))
    markets (crypto, []).

Definition collect (cryptos markets : list string) : res (list record) :=
  for_each
    (fun (data : list record) (crypto : string) =>
       let* row := fill_row crypto markets in
       Ok (data ++ [row]))
    cryptos [].

(** [get_top_crypto_prices]: any exception gives [pd.DataFrame()]. *)
Definition get_top_crypto_prices (cryptos markets : list string)
  : DataFrame :=
  match collect cryptos markets with
  | Ok data => from_records data
  | Raise _ => empty_frame
  end.
End TopCryptoPrices.

Definition binance_names (crypto market : string) : list (string * bool) :=
  [(crypto +:+ market, false); (market +:+ crypto, true)].

Definition kraken_names (crypto market : string) : list (string * bool) :=
  let alt_crypto := if String.eqb crypto "BTC" then "XBT" else crypto in
  let alt_market := if String.eqb market "BTC" then "XBT" else market in
  [(crypto +:+ "/" +:+ market, false);
   (market +:+ "/" +:+ crypto, true);
   (alt_crypto +:+ "/" +:+ alt_market, false);
   (alt_market +:+ "/" +:+ alt_crypto, true)].

Module BinanceFetcher.
Definition get_top_crypto_prices (all_prices : gmap string float)
           (cryptos markets : list string) : DataFrame :=
  Fetcher.get_top_crypto_prices binance_names all_prices cryptos markets.
End BinanceFetcher.

Module KrakenFetcher.
Definition get_top_crypto_prices (all_prices : gmap string float)
           (cryptos markets : list string) : DataFrame :=
  Fetcher.get_top_crypto_prices kraken_names all_prices cryptos markets.

(** One [for m in market_alternatives] loop of [get_detailed_coin_info]:
    the first pair [base/m] the exchange answers for.
    [fetch_ticker i pair] is whether the [i]-th call made to
    [self.exchange.fetch_ticker] returns when asked for [pair]; it raises
    otherwise and the loop goes on.  The result comes with the number of
    calls made so far. *)
Fixpoint first_pair (fetch_ticker : nat -> string -> bool) (calls : nat)
         (base : string) (market_alternatives : list string)
  : option string * nat :=
  match market_alternatives with
  | [] => (None, calls)
  | m :: rest =>
      let try_pair := base +:+ "/" +:+ m in
      if fetch_ticker calls try_pair then (Some try_pair, S calls)
      else first_pair fetch_ticker (S calls) base rest
  end.

(** The pairs [get_detailed_coin_info] asks for, in the order of the
    calls: the Kraken name of the coin against each market alternative,
    then the name it was given against each of them again. *)
Definition pairs_tried (symbol market : string) : list string :=
  let symbol_for_kraken :=
    if String.eqb symbol "BTC" then "XBT" else symbol in
  let market_alternatives :=
    if String.eqb market "USDT" then ["USDT"; "USD"] else [market] in
  map (fun m => symbol_for_kraken +:+ "/" +:+ m) market_alternatives
  ++ map (fun m => symbol +:+ "/" +:+ m) market_alternatives.

(** The trading pair [get_detailed_coin_info] settles on, [None] when it
    logs that no valid pair was found and returns the empty dict. *)
Definition trading_pair (fetch_ticker : nat -> string -> bool)
           (symbol market : string) : option string :=
  let symbol_for_kraken :=
    if String.eqb symbol "BTC" then "XBT" else symbol in
  let market_alternatives :=
    if String.eqb market "USDT" then ["USDT"; "USD"] else [market] in
  match first_pair fetch_ticker 0 symbol_for_kraken market_alternatives with
  | (Some found, _) => Some found
  | (None, calls) =>
      (first_pair fetch_ticker calls symbol market_alternatives).1
  end.
End KrakenFetcher.

(** data/bybit_fetcher.py: the direct pair and the reverse pair, with a
    slash. *)
Definition bybit_names (crypto market : string) : list (string * bool) :=
  [(crypto +:+ "/" +:+ market, false); (market +:+ "/" +:+ crypto, true)].

Module BybitFetcher.
Definition get_top_crypto_prices (all_prices : gmap string float)
           (cryptos markets : list string) : DataFrame :=
  Fetcher.get_top_crypto_prices bybit_names all_prices cryptos markets.
End BybitFetcher.

End Fetcher.

(** ** utils/arbitrage_calculator.py *)

Module Opportunity.
(** One entry of [opportunities]. *)
Record t : Type :=
  { Symbol : string;
    Market : string;
    Buy_Exchange : string;
    Sell_Exchange : string;
    Buy_Price : float;
    Sell_Price : float;
    Price_Diff_Pct : float;
    Timestamp : float }.
End Opportunity.

Module LowPriceGainer.
(** One row of the table [get_low_price_gainers] returns. *)
Record t : Type :=
  { Symbol : string;
    Binance_Price : float;
    Kraken_Price : float;
    Price_Diff_Pct : float;
    Avg_Price : float }.
End LowPriceGainer.

Module TradeSimulation.
(** The dict [calculate_trade_profit] returns. *)
Record t : Type :=
  { symbol : string;
    market : string;
    initial_investment : float;
    buy_exchange : string;
    buy_price : float;
    crypto_amount : float;
    sell_exchange : string;
    sell_price : float;
    sell_amount : float;
    final_amount : float;
    profit : float;
    profit_percentage : float;
    profitable : bool }.
End TradeSimulation.

(** What one call reads from outside the process: the ticker dicts the two
    exchanges answer with ([get_ticker_prices]) and the clock; [time_time i]
    is what the [i]-th call of [time.time()] returns. *)
Record World : Type :=
  { binance_tickers : gmap string float;
    kraken_tickers : gmap string float;
    time_time : nat -> float }.

Module ArbitrageCalculator.
Import PyFloat Pandas Config.

(** The calculator object; its fetchers hold no state of their own. *)
Record t : Type := { last_opportunity : option Opportunity.t }.

(** [__init__] *)
Definition init : t := {| last_opportunity := None |}.

Definition fetch_all_prices (w : World) : DataFrame * DataFrame :=
  (Fetcher.BinanceFetcher.get_top_crypto_prices
     (binance_tickers w) TOP_CRYPTOS MARKETS,
   Fetcher.KrakenFetcher.get_top_crypto_prices
     (kraken_tickers w) TOP_CRYPTOS MARKETS).

Section Scoring.
Variable now : nat -> float.
Variables binance_prices kraken_prices : DataFrame.

(** The body of [for market in MARKETS], for one merged row.  The row
    comes from [iterrows], so its numbers are Python floats and the
    division raises on a zero divisor. *)
Definition score_market (row : Row * Row)
           (opportunities : list Opportunity.t) (market : string)
  : res (list Opportunity.t) :=
  let symbol := Symbol row.1 in
  if String.eqb symbol market then Ok opportunities
  else
    let b := get_left binance_prices kraken_prices row market in
    let k := get_right binance_prices kraken_prices row market in
    if isna b || isna k then Ok opportunities
    else
      match b, k with
      | F64 binance_price, F64 kraken_price =>
          let* q := truediv (abs (binance_price - kraken_price))
                            (min binance_price kraken_price) in
          let price_diff_pct := (q * 100)%float in
          let '(buy_exchange, sell_exchange, buy_price, sell_price) :=
            if (binance_price <? kraken_price)%float
            then ("Binance", "Kraken", binance_price, kraken_price)
            else ("Kraken", "Binance", kraken_price, binance_price) in
          if (0 <? price_diff_pct)%float then
            Ok (opportunities ++
                [ {| Opportunity.Symbol := symbol;
                     Opportunity.Market := market;
                     Opportunity.Buy_Exchange := buy_exchange;
                     Opportunity.Sell_Exchange := sell_exchange;
                     Opportunity.Buy_Price := buy_price;
                     Opportunity.Sell_Price := sell_price;
                     Opportunity.Price_Diff_Pct := price_diff_pct;
                     Opportunity.Timestamp :=
                       now (length opportunities) |} ])
          else Ok opportunities
      | _, _ => Ok opportunities
      end.

(** [for _, row in merged_df.iterrows(): for market in MARKETS: ...] *)
Definition score_rows (merged_df : list (Row * Row))
  : res (list Opportunity.t) :=
  for_each
    (fun opportunities row =>
       for_each (score_market row) MARKETS opportunities)
    merged_df [].
End Scoring.

Section Methods.
Context {S : SortValues}.

(** [calculate_arbitrage_opportunities], from the two fetched tables
    on.  The result is the returned table, row by row, and the
    calculator afterwards. *)
Definition calculate_arbitrage_opportunities_on
           (now : nat -> float) (binance_prices kraken_prices : DataFrame)
           (self : t) : list Opportunity.t * t :=
  if empty binance_prices || empty kraken_prices then ([], self)
  else
    let merged_df := merge binance_prices kraken_prices in
    match score_rows now binance_prices kraken_prices merged_df with
    | Raise _ => ([], self)
    | Ok [] => ([], self)
    | Ok opportunities =>
        let opportunities_df :=
          sort_values _ Opportunity.Price_Diff_Pct opportunities in
        match opportunities_df with
        | best :: _ =>
            (opportunities_df, {| last_opportunity := Some best |})
        | [] => (opportunities_df, self)
        end
    end.

Definition calculate_arbitrage_opportunities (w : World) (self : t)
  : list Opportunity.t * t :=
  let '(binance_prices, kraken_prices) := fetch_all_prices w in
  calculate_arbitrage_opportunities_on
    (time_time w) binance_prices kraken_prices self.

(** [series < 1]: false on a missing value. *)
Definition lt_one (c : cell) : bool :=
  match c with
  | PyNone => false
  | F64 f => (f <? 1)%float
  end.

(** The number held by a cell that passed the [~pd.isna] masks. *)
Definition value (c : cell) : float :=
  match c with
  | PyNone => nan
  | F64 f => f
  end.

(** [df[[a, b]].min(axis=1)] on a row without NaN.  Which of two equal
    numbers comes back matters only for two zeros of different sign, and
    the quotient it divides is NaN then either way. *)
Definition row_min (a b : float) : float :=
  if (a <=? b)%float then a else b.

(** [df[[a, b]].mean(axis=1)] on a row without NaN. *)
Definition row_mean (a b : float) : float := ((a + b) / 2)%float.

(** [get_low_price_gainers], from the two fetched tables on.  The
    columns are numpy arrays here: the division does not raise. *)
Definition get_low_price_gainers_on
           (binance_prices kraken_prices : DataFrame)
  : list LowPriceGainer.t :=
  if empty binance_prices || empty kraken_prices then []
  else
    let merged_df := merge binance_prices kraken_prices in
    if negb (merged_has binance_prices kraken_prices "USDT") then []
    else
      let usdt_binance row :=
        get_left binance_prices kraken_prices row "USDT" in
      let usdt_kraken row :=
        get_right binance_prices kraken_prices row "USDT" in
      let low_price_df :=
        List.filter
          (fun row =>
             (lt_one (usdt_binance row) || lt_one (usdt_kraken row))
             && negb (isna (usdt_binance row))
             && negb (isna (usdt_kraken row)))
          merged_df in
      match low_price_df with
      | [] => []
      | _ :: _ =>
          let result :=
            map (fun row =>
                   let b := value (usdt_binance row) in
                   let k := value (usdt_kraken row) in
                   {| LowPriceGainer.Symbol := Symbol row.1;
                      LowPriceGainer.Binance_Price := b;
                      LowPriceGainer.Kraken_Price := k;
                      LowPriceGainer.Price_Diff_Pct :=
                        (PrimFloat.abs (b - k) / row_min b k * 100)%float;
                      LowPriceGainer.Avg_Price := row_mean b k |})
                low_price_df in
          sort_values _ LowPriceGainer.Price_Diff_Pct result
      end.

Definition get_low_price_gainers (w : World) : list LowPriceGainer.t :=
  let '(binance_prices, kraken_prices) := fetch_all_prices w in
  get_low_price_gainers_on binance_prices kraken_prices.
End Methods.

(** [df[df['Symbol'] == symbol]["<market>_price"].values[0]] *)
Definition price_of (df : DataFrame) (symbol market : string) : res cell :=
  let selected :=
    List.filter (fun r => String.eqb (Symbol r) symbol) (rows df) in
  match assoc market (columns df) with
  | None => Raise KeyError
  | Some _ =>
      match selected with
      | [] => Raise IndexError
      | r :: _ =>
          match at_col df r market with
          | Some c => Ok c
          | None => Raise KeyError
          end
      end
  end.

(** Arithmetic with a value taken from [.values]: a numpy float64 follows
    IEEE-754 and never raises, [None] is a [TypeError]. *)
Definition number (c : cell) : res float :=
  match c with
  | PyNone => Raise TypeError
  | F64 f => Ok f
  end.

Definition trade (symbol market : string) (amount : float)
           (buy_exchange sell_exchange : string)
           (binance_prices kraken_prices : DataFrame)
  : res TradeSimulation.t :=
  let* binance_price := price_of binance_prices symbol market in
  let* kraken_price := price_of kraken_prices symbol market in
  let buy_cell :=
    if String.eqb buy_exchange "Binance"
    then binance_price else kraken_price in
  let sell_cell :=
    if String.eqb sell_exchange "Binance"
    then binance_price else kraken_price in
  let* buy_price := number buy_cell in
  let crypto_amount := (amount / buy_price)%float in
  let* sell_price := number sell_cell in
  let sell_amount := (crypto_amount * sell_price)%float in
  let final_amount := sell_amount in
  let profit := (final_amount - amount)%float in
  let profit_percentage := (profit / amount * 100)%float in
  Ok {| TradeSimulation.symbol := symbol;
        TradeSimulation.market := market;
        TradeSimulation.initial_investment := amount;
        TradeSimulation.buy_exchange := buy_exchange;
        TradeSimulation.buy_price := buy_price;
        TradeSimulation.crypto_amount := crypto_amount;
        TradeSimulation.sell_exchange := sell_exchange;
        TradeSimulation.sell_price := sell_price;
        TradeSimulation.sell_amount := sell_amount;
        TradeSimulation.final_amount := final_amount;
        TradeSimulation.profit := profit;
        TradeSimulation.profit_percentage := profit_percentage;
        TradeSimulation.profitable := (0 <? profit)%float |}.

(** [calculate_trade_profit], from the two fetched tables on; [None] is
    the empty dict. *)
Definition calculate_trade_profit_on
           (binance_prices kraken_prices : DataFrame)
           (symbol market : string) (amount : float)
           (buy_exchange sell_exchange : string)
  : option TradeSimulation.t :=
  if empty binance_prices || empty kraken_prices then None
  else
    match trade symbol market amount buy_exchange sell_exchange
                binance_prices kraken_prices with
    | Ok result => Some result
    | Raise _ => None
    end.

Definition calculate_trade_profit (w : World)
           (symbol market : string) (amount : float)
           (buy_exchange sell_exchange : string)
  : option TradeSimulation.t :=
  let '(binance_prices, kraken_prices) := fetch_all_prices w in
  calculate_trade_profit_on binance_prices kraken_prices
                            symbol market amount buy_exchange sell_exchange.

(** [get_last_opportunity]; [None] is the empty dict.  A stored
    opportunity has eight keys and is never falsy. *)
Definition get_last_opportunity (self : t) : option Opportunity.t :=
  match last_opportunity self with
  | Some o => Some o
  | None => None
  end.

End ArbitrageCalculator.

(** ** Calls in sequence *)

(** The calculator used for one call after another, as the dashboard does
    on every refresh: the tables returned, and the calculator at the end. *)
Fixpoint run_cycles {S : Pandas.SortValues} (ws : list World)
         (self : ArbitrageCalculator.t)
  : list (list Opportunity.t) * ArbitrageCalculator.t :=
  match ws with
  | [] => ([], self)
  | w :: ws' =>
      let '(out, self') :=
        ArbitrageCalculator.calculate_arbitrage_opportunities w self in
      let '(outs, self'') := run_cycles ws' self' in
      (out :: outs, self'')
  end.

(** ** Vocabulary of the statements *)

(** The symbol and market a record is about. *)
Definition pair_of (o : Opportunity.t) : string * string :=
  (Opportunity.Symbol o, Opportunity.Market o).

(** [o] is the record the loop body builds for [row] and [market]:
    both prices are there, the symbol is not the market, and the
    computed gap is positive. *)
Definition scored (binance_prices kraken_prices : Pandas.DataFrame)
           (row : Pandas.Row * Pandas.Row) (market : string)
           (o : Opportunity.t) : Prop :=
  exists binance_price kraken_price : float,
    Pandas.get_left binance_prices kraken_prices row market
    = Pandas.F64 binance_price /\
    Pandas.get_right binance_prices kraken_prices row market
    = Pandas.F64 kraken_price /\
    PyFloat.is_nan binance_price = false /\
    PyFloat.is_nan kraken_price = false /\
    Pandas.Symbol row.1 <> market /\
    (PyFloat.min binance_price kraken_price =? 0)%float = false /\
    Opportunity.Symbol o = Pandas.Symbol row.1 /\
    Opportunity.Market o = market /\
    Opportunity.Price_Diff_Pct o
    = (PyFloat.abs (binance_price - kraken_price)
       / PyFloat.min binance_price kraken_price * 100)%float /\
    (0 <? Opportunity.Price_Diff_Pct o)%float = true /\
    ((binance_price <? kraken_price)%float = true /\
     Opportunity.Buy_Exchange o = "Binance" /\
     Opportunity.Sell_Exchange o = "Kraken" /\
     Opportunity.Buy_Price o = binance_price /\
     Opportunity.Sell_Price o = kraken_price
     \/
     (binance_price <? kraken_price)%float = false /\
     Opportunity.Buy_Exchange o = "Kraken" /\
     Opportunity.Sell_Exchange o = "Binance" /\
     Opportunity.Buy_Price o = kraken_price /\
     Opportunity.Sell_Price o = binance_price).

(** The scan over the merged table ended without an exception. *)
Definition scan_succeeds (now : nat -> float)
           (binance_prices kraken_prices : Pandas.DataFrame) : Prop :=
  exists opportunities,
    ArbitrageCalculator.score_rows
      now binance_prices kraken_prices
      (Pandas.merge binance_prices kraken_prices) = PyFloat.Ok opportunities.

(** The returned table has a record for [row] and [market] with the gap of
    the prices [bp] (Binance) and [kp] (Kraken). *)
Definition emitted {S : Pandas.SortValues} (now : nat -> float)
           (binance_prices kraken_prices : Pandas.DataFrame)
           (self : ArbitrageCalculator.t)
           (row : Pandas.Row * Pandas.Row) (market : string) (bp kp : float)
  : Prop :=
  exists o,
    In o (ArbitrageCalculator.calculate_arbitrage_opportunities_on
            now binance_prices kraken_prices self).1 /\
    Opportunity.Symbol o = Pandas.Symbol row.1 /\
    Opportunity.Market o = market /\
    Opportunity.Price_Diff_Pct o
    = (PyFloat.abs (bp - kp) / PyFloat.min bp kp * 100)%float /\
    Opportunity.Buy_Price o = (if (bp <? kp)%float then bp else kp) /\
    Opportunity.Sell_Price o = (if (bp <? kp)%float then kp else bp).

(** In a table, the cell of a symbol in the column of the market of the
    same name holds no number. *)
Definition skips_self (df : Pandas.DataFrame) : Prop :=
  forall r, In r (Pandas.rows df) ->
            PyFloat.is_nan (Pandas.price r (Pandas.Symbol r)) = true.

(** ** Keys for comparing binary64 numbers *)

(** A specification float that is not NaN, as a triple ordered
    lexicographically the way [SFcompare] orders floats. *)
Definition sf_key (f : spec_float) : Z * Z * Z :=
  match f with
  | S754_nan => (0, 0, 0)%Z
  | S754_zero _ => (0, 0, 0)%Z
  | S754_infinity false => (2, 0, 0)%Z
  | S754_infinity true => (-2, 0, 0)%Z
  | S754_finite false m e => (1, e, Zpos m)%Z
  | S754_finite true m e => (-1, - e, Zneg m)%Z
  end.

(** Lexicographic comparison of two keys. *)
Definition lex3 (a b : Z * Z * Z) : comparison :=
  match (a.1.1 ?= b.1.1)%Z with
  | Eq => match (a.1.2 ?= b.1.2)%Z with
          | Eq => (a.2 ?= b.2)%Z
          | c => c
          end
  | c => c
  end.

Definition sf_is_nan (f : spec_float) : bool :=
  match f with S754_nan => true | _ => false end.

(** The key of a primitive float. *)
Definition fkey (x : float) : Z * Z * Z := sf_key (Prim2SF x).

(** A zero of either sign, or NaN. *)
Definition sf_zero_or_nan (f : spec_float) : bool :=
  match f with
  | S754_zero _ | S754_nan => true
  | _ => false
  end.

(** ** A sorting algorithm *)

Module Sorts.
Import PyFloat Pandas.

(** [a] may stand before [b] in descending order with NaN last. *)
Definition before (x y : float) : bool := is_nan y || (y <=? x)%float.

Section Insertion.
Context {A : Type} (key : A -> float).

Fixpoint insert (a : A) (l : list A) : list A :=
  match l with
  | [] => [a]
  | b :: l' =>
      if before (key a) (key b) then a :: b :: l' else b :: insert a l'
  end.

(** Insertion sort: an element goes in front of the first one it may
    precede, so equal keys keep their order. *)
Definition insertion_sort (l : list A) : list A :=
  fold_right insert [] l.

End Insertion.

End Sorts.

(** ** Concrete ticker data *)

Module Examples.
Import Pandas ArbitrageCalculator.

(** A clock that stands still. *)
Definition clock (_ : nat) : float := 1700000000%float.

(** Exchange A quotes BTC/USDT at 100, exchange B at 102. *)
Definition gap_world : World :=
  {| binance_tickers := {[ "BTCUSDT" := 100%float ]};
     kraken_tickers := {[ "BTC/USDT" := 102%float ]};
     time_time := clock |}.

(** Both exchanges quote BTC/USDT at 100. *)
Definition tie_world : World :=
  {| binance_tickers := {[ "BTCUSDT" := 100%float ]};
     kraken_tickers := {[ "BTC/USDT" := 100%float ]};
     time_time := clock |}.

(** BTC shows 100 against 101 and ETH 100 against 104: the later row has
    the larger gap. *)
Definition two_gaps_world : World :=
  {| binance_tickers :=
       <[ "BTCUSDT" := 100%float ]> {[ "ETHUSDT" := 100%float ]};
     kraken_tickers :=
       <[ "BTC/USDT" := 101%float ]> {[ "ETH/USDT" := 104%float ]};
     time_time := clock |}.

(** BTC/USDT at 50000 on Binance and 50100 on Kraken; BNB/USDT is quoted
    on Binance only. *)
Definition trade_world : World :=
  {| binance_tickers :=
       <[ "BTCUSDT" := 50000%float ]> {[ "BNBUSDT" := 600%float ]};
     kraken_tickers := {[ "XBT/USDT" := 50100%float ]};
     time_time := clock |}.

(** XRP/USDT at 0.5 and 0.25, BTC/USDT at 50000 and 50100. *)
Definition low_price_world : World :=
  {| binance_tickers :=
       <[ "BTCUSDT" := 50000%float ]> {[ "XRPUSDT" := 0.5%float ]};
     kraken_tickers :=
       <[ "XBT/USDT" := 50100%float ]> {[ "XRP/USDT" := 0.25%float ]};
     time_time := clock |}.

(** Binance answers with a zero price for the reverse pair USDT/BTC:
    inverting it raises and [get_top_crypto_prices] gives the empty
    table. *)
Definition outage_world : World :=
  {| binance_tickers := {[ "USDTBTC" := 0%float ]};
     kraken_tickers := {[ "BTC/USDT" := 102%float ]};
     time_time := clock |}.

(** Binance quotes BTC/USDT at zero; ETH/USDT shows 100 against 102. *)
Definition zero_price_world : World :=
  {| binance_tickers :=
       <[ "BTCUSDT" := 0%float ]> {[ "ETHUSDT" := 100%float ]};
     kraken_tickers :=
       <[ "BTC/USDT" := 100%float ]> {[ "ETH/USDT" := 102%float ]};
     time_time := clock |}.

(** Binance does not answer ([get_ticker_prices] gives the empty dict);
    Kraken quotes BTC/USDT at 102. *)
Definition silent_binance_world : World :=
  {| binance_tickers := ∅;
     kraken_tickers := {[ "BTC/USDT" := 102%float ]};
     time_time := clock |}.

(** The two records of [two_gaps_world]. *)
Definition btc_gap_1 : Opportunity.t :=
  {| Opportunity.Symbol := "BTC";
     Opportunity.Market := "USDT";
     Opportunity.Buy_Exchange := "Binance";
     Opportunity.Sell_Exchange := "Kraken";
     Opportunity.Buy_Price := 100;
     Opportunity.Sell_Price := 101;
     Opportunity.Price_Diff_Pct := 1;
     Opportunity.Timestamp := 1700000000 |}.

Definition eth_gap_4 : Opportunity.t :=
  {| Opportunity.Symbol := "ETH";
     Opportunity.Market := "USDT";
     Opportunity.Buy_Exchange := "Binance";
     Opportunity.Sell_Exchange := "Kraken";
     Opportunity.Buy_Price := 100;
     Opportunity.Sell_Price := 104;
     Opportunity.Price_Diff_Pct := 4;
     Opportunity.Timestamp := 1700000000 |}.

(** The first row of the merged table, the one of BTC. *)
Definition btc_row (w : World) : Row * Row :=
  match merge (fetch_all_prices w).1 (fetch_all_prices w).2 with
  | row :: _ => row
  | [] => (to_row ("", []), to_row ("", []))
  end.

(** The record [gap_world] gives. *)
Definition gap_record : Opportunity.t :=
  {| Opportunity.Symbol := "BTC";
     Opportunity.Market := "USDT";
     Opportunity.Buy_Exchange := "Binance";
     Opportunity.Sell_Exchange := "Kraken";
     Opportunity.Buy_Price := 100;
     Opportunity.Sell_Price := 102;
     Opportunity.Price_Diff_Pct := 2;
     Opportunity.Timestamp := 1700000000 |}.

(** A calculator that has seen [gap_record]. *)
Definition seen : ArbitrageCalculator.t :=
  {| last_opportunity := Some gap_record |}.
End Examples.

(** ** app.py, the trade simulator of the dashboard *)

Module App.
(** [sell_exchange = "Kraken" if buy_exchange == "Binance" else "Binance"] *)
Definition sell_exchange (buy_exchange : string) : string :=
  if String.eqb buy_exchange "Binance" then "Kraken" else "Binance".

(** The call of the "Detailed Analysis" tab. *)
Definition trade_result (w : World) (selected_coin selected_market : string)
           (trade_amount : float) (buy_exchange : string)
  : option TradeSimulation.t :=
  ArbitrageCalculator.calculate_trade_profit
    w selected_coin selected_market trade_amount
    buy_exchange (sell_exchange buy_exchange).
End App.

(** * Proofs *)

(** ** Order facts on binary64, through the specification floats *)

Lemma SFcompare_key x y :
  sf_is_nan x = false -> sf_is_nan y = false ->
  SFcompare x y = Some (lex3 (sf_key x) (sf_key y)).
Proof.
  destruct x as [[]|[]| |[] mx ex], y as [[]|[]| |[] my ey];
    try discriminate; intros _ _; try reflexivity.
  unfold lex3; cbn [SFcompare sf_key fst snd].
  rewrite Z.compare_opp, (Z.compare_antisym ex ey).
  destruct (ex ?= ey)%Z; reflexivity.
Qed.

Lemma SFcompare_nan x y :
  SFcompare x y = None <-> sf_is_nan x = true \/ sf_is_nan y = true.
Proof.
  split.
  - destruct (sf_is_nan x) eqn:Hx; [auto|].
    destruct (sf_is_nan y) eqn:Hy; [auto|].
    rewrite SFcompare_key by assumption. discriminate.
  - destruct x as [[]|[]| |[] mx ex], y as [[]|[]| |[] my ey];
      intros [H|H]; try discriminate; reflexivity.
Qed.

Lemma lex3_le_iff a b :
  lex3 a b <> Gt <->
  (a.1.1 < b.1.1 \/
   (a.1.1 = b.1.1 /\ (a.1.2 < b.1.2 \/ (a.1.2 = b.1.2 /\ a.2 <= b.2))))%Z.
Proof.
  unfold lex3.
  destruct (Z.compare_spec a.1.1 b.1.1);
    destruct (Z.compare_spec a.1.2 b.1.2);
    destruct (Z.compare_spec a.2 b.2);
    split; intros; try congruence; try lia.
Qed.

Lemma lex3_lt_iff a b :
  lex3 a b = Lt <->
  (a.1.1 < b.1.1 \/
   (a.1.1 = b.1.1 /\ (a.1.2 < b.1.2 \/ (a.1.2 = b.1.2 /\ a.2 < b.2))))%Z.
Proof.
  unfold lex3.
  destruct (Z.compare_spec a.1.1 b.1.1);
    destruct (Z.compare_spec a.1.2 b.1.2);
    destruct (Z.compare_spec a.2 b.2);
    split; intros; try congruence; try lia.
Qed.

(** ** Comparisons of binary64 numbers *)

Lemma is_nan_spec x : PyFloat.is_nan x = sf_is_nan (Prim2SF x).
Proof.
  unfold PyFloat.is_nan, PrimFloat.is_nan.
  rewrite FloatAxioms.eqb_spec. unfold SFeqb.
  destruct (sf_is_nan (Prim2SF x)) eqn:Hx.
  - assert (H : SFcompare (Prim2SF x) (Prim2SF x) = None)
      by (apply SFcompare_nan; auto).
    rewrite H. reflexivity.
  - rewrite SFcompare_key by assumption.
    assert (H : lex3 (sf_key (Prim2SF x)) (sf_key (Prim2SF x)) = Eq).
    { unfold lex3. rewrite !Z.compare_refl. reflexivity. }
    rewrite H. reflexivity.
Qed.

(** A comparison of two primitive floats, unfolded to [SFcompare], is
    false when either is NaN and otherwise reads off [lex3] of the keys. *)
Ltac by_keys x y :=
  let H := fresh "H" in
  let Hx := fresh "Hx" in
  let Hy := fresh "Hy" in
  destruct (sf_is_nan (Prim2SF x)) eqn:Hx;
  [ assert (H : SFcompare (Prim2SF x) (Prim2SF y) = None)
      by (apply SFcompare_nan; auto);
    rewrite H; split; [discriminate | intros (? & _); discriminate]
  | destruct (sf_is_nan (Prim2SF y)) eqn:Hy;
    [ assert (H : SFcompare (Prim2SF x) (Prim2SF y) = None)
        by (apply SFcompare_nan; auto);
      rewrite H; split; [discriminate | intros (_ & ? & _); discriminate]
    | rewrite SFcompare_key by assumption;
      destruct (lex3 _ _); cbn; intuition congruence ] ].

Lemma leb_true_iff x y :
  (x <=? y)%float = true <->
  PyFloat.is_nan x = false /\ PyFloat.is_nan y = false /\
  lex3 (fkey x) (fkey y) <> Gt.
Proof.
  rewrite FloatAxioms.leb_spec, !is_nan_spec. unfold SFleb, fkey.
  by_keys x y.
Qed.

Lemma ltb_true_iff x y :
  (x <? y)%float = true <->
  PyFloat.is_nan x = false /\ PyFloat.is_nan y = false /\
  lex3 (fkey x) (fkey y) = Lt.
Proof.
  rewrite FloatAxioms.ltb_spec, !is_nan_spec. unfold SFltb, fkey.
  by_keys x y.
Qed.

Lemma eqb_true_iff x y :
  (x =? y)%float = true <->
  PyFloat.is_nan x = false /\ PyFloat.is_nan y = false /\
  lex3 (fkey x) (fkey y) = Eq.
Proof.
  rewrite FloatAxioms.eqb_spec, !is_nan_spec. unfold SFeqb, fkey.
  by_keys x y.
Qed.

Lemma lex3_eq_iff a b :
  lex3 a b = Eq <-> (a.1.1 = b.1.1 /\ a.1.2 = b.1.2 /\ a.2 = b.2)%Z.
Proof.
  unfold lex3.
  destruct (Z.compare_spec a.1.1 b.1.1);
    destruct (Z.compare_spec a.1.2 b.1.2);
    destruct (Z.compare_spec a.2 b.2);
    split; intros; try congruence; try lia.
Qed.

Lemma lex3_gt_iff a b :
  lex3 a b = Gt <->
  (b.1.1 < a.1.1 \/
   (a.1.1 = b.1.1 /\ (b.1.2 < a.1.2 \/ (a.1.2 = b.1.2 /\ b.2 < a.2))))%Z.
Proof.
  unfold lex3.
  destruct (Z.compare_spec a.1.1 b.1.1);
    destruct (Z.compare_spec a.1.2 b.1.2);
    destruct (Z.compare_spec a.2 b.2);
    split; intros; try congruence; try lia.
Qed.

(** Without NaN the order is total: [not (x < y)] gives [y <= x]. *)
Lemma ltb_false_leb x y :
  PyFloat.is_nan x = false -> PyFloat.is_nan y = false ->
  (x <? y)%float = false -> (y <=? x)%float = true.
Proof.
  intros Hx Hy Hlt. apply leb_true_iff. repeat split; try assumption.
  apply lex3_le_iff.
  destruct (lex3 (fkey x) (fkey y)) eqn:E.
  - apply lex3_eq_iff in E. lia.
  - exfalso. assert (H : (x <? y)%float = true)
      by (apply ltb_true_iff; auto). congruence.
  - apply lex3_gt_iff in E. lia.
Qed.

Lemma ltb_leb x y : (x <? y)%float = true -> (x <=? y)%float = true.
Proof.
  rewrite ltb_true_iff, leb_true_iff. intros (Hx & Hy & H).
  repeat split; try assumption. congruence.
Qed.

Lemma leb_trans x y z :
  (x <=? y)%float = true -> (y <=? z)%float = true -> (x <=? z)%float = true.
Proof.
  rewrite !leb_true_iff, !lex3_le_iff.
  intros (Hx & Hy & H1) (_ & Hz & H2). repeat split; try assumption. lia.
Qed.

Lemma leb_refl x : PyFloat.is_nan x = false -> (x <=? x)%float = true.
Proof.
  intros Hx. apply leb_true_iff. repeat split; try assumption.
  apply lex3_le_iff. lia.
Qed.

Lemma ltb_not_nan x y :
  (x <? y)%float = true ->
  PyFloat.is_nan x = false /\ PyFloat.is_nan y = false.
Proof. rewrite ltb_true_iff. tauto. Qed.

Lemma leb_not_nan x y :
  (x <=? y)%float = true ->
  PyFloat.is_nan x = false /\ PyFloat.is_nan y = false.
Proof. rewrite leb_true_iff. tauto. Qed.

Lemma leb_total x y :
  PyFloat.is_nan x = false -> PyFloat.is_nan y = false ->
  (x <=? y)%float = true \/ (y <=? x)%float = true.
Proof.
  intros Hx Hy. rewrite !leb_true_iff, !lex3_le_iff.
  destruct (Z.lt_trichotomy (fkey x).1.1 (fkey y).1.1) as [?|[?|?]];
    destruct (Z.lt_trichotomy (fkey x).1.2 (fkey y).1.2) as [?|[?|?]];
    destruct (Z.le_ge_cases (fkey x).2 (fkey y).2);
    solve [left; repeat split; auto; lia | right; repeat split; auto; lia].
Qed.

(** ** A sort that meets the [sort_values] contract *)

Section SortProofs.
Import PyFloat Pandas Sorts.

Lemma before_iff x y : before x y = true <-> desc_na_last x y.
Proof.
  unfold before, desc_na_last. rewrite orb_true_iff. reflexivity.
Qed.

Lemma before_total x y : before x y = false -> before y x = true.
Proof.
  unfold before. rewrite orb_false_iff, orb_true_iff. intros [Hy Hle].
  destruct (is_nan x) eqn:Hx; [auto|]. right.
  destruct (leb_total x y Hx Hy); congruence.
Qed.

Lemma desc_na_last_trans x y z :
  desc_na_last x y -> desc_na_last y z -> desc_na_last x z.
Proof.
  unfold desc_na_last. intros Hxy [Hz|Hzy]; [auto|].
  destruct (leb_not_nan _ _ Hzy) as [_ Hy].
  destruct Hxy as [Hy'|Hyx]; [congruence|].
  right. eapply leb_trans; eassumption.
Qed.

Section InsertionProofs.
Context {A : Type} (key : A -> float).
Let R (a b : A) : Prop := desc_na_last (key a) (key b).

Lemma insert_perm a l : Permutation (a :: l) (insert key a l).
Proof.
  induction l as [|b l IH]; cbn; [reflexivity|].
  destruct (before (key a) (key b)); [reflexivity|].
  rewrite perm_swap. apply perm_skip, IH.
Qed.

Lemma insertion_sort_perm l : Permutation l (insertion_sort key l).
Proof.
  induction l as [|a l IH]; cbn; [reflexivity|].
  rewrite <- insert_perm. apply perm_skip, IH.
Qed.

Lemma insert_sorted a l :
  StronglySorted R l -> StronglySorted R (insert key a l).
Proof.
  induction 1 as [|b l Hs IH Hb]; cbn.
  - constructor; constructor.
  - destruct (before (key a) (key b)) eqn:E.
    + constructor; [constructor; assumption|].
      apply before_iff in E. constructor; [exact E|].
      eapply List.Forall_impl; [|exact Hb].
      intros c Hc. eapply desc_na_last_trans; eassumption.
    + constructor; [exact IH|].
      apply before_total, before_iff in E.
      rewrite <- (insert_perm a l). constructor; assumption.
Qed.

Lemma insertion_sort_sorted l : StronglySorted R (insertion_sort key l).
Proof.
  induction l as [|a l IH]; cbn; [constructor|].
  apply insert_sorted, IH.
Qed.
End InsertionProofs.

End SortProofs.

(** Insertion sort as [sort_values]: ties keep the input order. *)
Definition stable_sort_values : Pandas.SortValues :=
  {| Pandas.sort_values := @Sorts.insertion_sort;
     Pandas.sort_values_perm := @insertion_sort_perm;
     Pandas.sort_values_sorted := @insertion_sort_sorted |}.

(** ** Loops *)

Section ForEach.
Import PyFloat.
Context {A S : Type} (body : S -> A -> res S).

(** An invariant kept by every iteration holds when the loop ends. *)
Lemma for_each_inv (I : S -> Prop) (l : list A) :
  (forall s x s', In x l -> I s -> body s x = Ok s' -> I s') ->
  forall s s', I s -> for_each body l s = Ok s' -> I s'.
Proof.
  induction l as [|x l IH]; intros Hstep s s' Hs Hrun; cbn in Hrun.
  - congruence.
  - destruct (body s x) as [s1|e] eqn:E; [|discriminate].
    eapply IH; [| |exact Hrun].
    + intros s0 y s0' Hy. apply Hstep. right. exact Hy.
    + eapply Hstep; [left; reflexivity|exact Hs|exact E].
Qed.

(** A loop that ends normally ran the body once for every element. *)
Lemma for_each_split (l1 l2 : list A) (x : A) (s s' : S) :
  for_each body (l1 ++ x :: l2) s = Ok s' ->
  exists s1 s2,
    for_each body l1 s = Ok s1 /\ body s1 x = Ok s2 /\
    for_each body l2 s2 = Ok s'.
Proof.
  revert s. induction l1 as [|y l1 IH]; intros s Hrun; cbn in Hrun.
  - destruct (body s x) as [s2|e] eqn:E; [|discriminate].
    exists s, s2. auto.
  - destruct (body s y) as [s0|e] eqn:E; [|discriminate].
    destruct (IH _ Hrun) as (s1 & s2 & H1 & H2 & H3).
    exists s1, s2. cbn. rewrite E. auto.
Qed.

(** A loop whose body never raises ends normally. *)
Lemma for_each_total (l : list A) :
  (forall s x, In x l -> exists s', body s x = Ok s') ->
  forall s, exists s', for_each body l s = Ok s'.
Proof.
  induction l as [|x l IH]; intros Hbody s; cbn.
  - eauto.
  - destruct (Hbody s x) as [s1 ->]; [left; reflexivity|].
    apply IH. intros s0 y Hy. apply Hbody. right. exact Hy.
Qed.
End ForEach.

(** ** The opportunity scorer *)

Section Scorer.
Import PyFloat Pandas Config ArbitrageCalculator.
Variable now : nat -> float.
Variables binance_prices kraken_prices : DataFrame.

Lemma isna_F64_false c :
  isna c = false -> exists f, c = F64 f /\ is_nan f = false.
Proof. destruct c as [|f]; cbn; [discriminate|]. eauto. Qed.

(** One pass of the body appends nothing or exactly one scored record. *)
Lemma score_market_ok row acc market acc' :
  score_market now binance_prices kraken_prices row acc market = Ok acc' ->
  acc' = acc \/
  exists o, acc' = acc ++ [o] /\
            scored binance_prices kraken_prices row market o /\
            Opportunity.Timestamp o = now (length acc).
Proof.
  unfold score_market.
  destruct (String.eqb (Symbol row.1) market) eqn:Esym;
    [intros [= <-]; auto|].
  destruct (isna (get_left _ _ row market)) eqn:Eb;
    [intros [= <-]; auto|].
  destruct (isna (get_right _ _ row market)) eqn:Ek;
    [intros [= <-]; auto|].
  cbn [orb].
  destruct (isna_F64_false _ Eb) as (bp & Hbe & Hb).
  destruct (isna_F64_false _ Ek) as (kp & Hke & Hk).
  rewrite Hbe, Hke. unfold truediv.
  destruct (min bp kp =? 0)%float eqn:Ez; cbn [bind]; [discriminate|].
  apply String.eqb_neq in Esym.
  destruct (bp <? kp)%float eqn:Elt;
    destruct (0 <? abs (bp - kp) / min bp kp * 100)%float eqn:Epos;
    intros [= <-]; auto; right;
    (eexists; split; [reflexivity|]; split; [|reflexivity]);
    exists bp, kp; cbn;
    repeat (split; [first [assumption|reflexivity]|]);
    [left|right]; repeat split; first [assumption|reflexivity].
Qed.

(** The records already collected are kept. *)
Lemma score_market_prefix row acc market acc' :
  score_market now binance_prices kraken_prices row acc market = Ok acc' ->
  exists new, acc' = acc ++ new.
Proof.
  intros H. destruct (score_market_ok _ _ _ _ H) as [->|(o & -> & _)].
  - exists []. symmetry. apply app_nil_r.
  - eauto.
Qed.

(** Every record of a finished scan was scored for a merged row and a
    configured market. *)
Lemma score_rows_scored merged_df opportunities :
  score_rows now binance_prices kraken_prices merged_df = Ok opportunities ->
  Forall (fun o => exists row market,
              In row merged_df /\ In market MARKETS /\
              scored binance_prices kraken_prices row market o)
         opportunities.
Proof.
  unfold score_rows. apply for_each_inv; [|constructor].
  intros acc row acc' Hrow Hacc.
  apply for_each_inv; [|exact Hacc].
  intros acc1 market acc2 Hm Hacc1 Hstep.
  destruct (score_market_ok _ _ _ _ Hstep) as [->|(o & -> & Ho & _)];
    [exact Hacc1|].
  apply Forall_app. split; [exact Hacc1|].
  constructor; [|constructor]. eauto.
Qed.

End Scorer.

(** ** [calculate_arbitrage_opportunities] as a whole *)

Section Calculate.
Import PyFloat Pandas Config ArbitrageCalculator.
Context {S : SortValues}.
Variable now : nat -> float.
Variables binance_prices kraken_prices : DataFrame.

(** Either nothing is returned and the calculator is as before, or the
    scan ended normally with at least one record, the sorted records are
    returned and the first of them is stored. *)
Lemma calculate_cases self out self' :
  calculate_arbitrage_opportunities_on now binance_prices kraken_prices self
  = (out, self') ->
  (out = [] /\ self' = self) \/
  (exists opportunities best rest,
      empty binance_prices = false /\ empty kraken_prices = false /\
      score_rows now binance_prices kraken_prices
                 (merge binance_prices kraken_prices) = Ok opportunities /\
      opportunities <> [] /\
      out = sort_values _ Opportunity.Price_Diff_Pct opportunities /\
      out = best :: rest /\
      self' = {| last_opportunity := Some best |}).
Proof.
  unfold calculate_arbitrage_opportunities_on.
  destruct (empty binance_prices) eqn:Eb; cbn [orb];
    [intros [= <- <-]; auto|].
  destruct (empty kraken_prices) eqn:Ek; cbn [orb];
    [intros [= <- <-]; auto|].
  destruct (score_rows _ _ _ _) as [[|o opps]|e] eqn:Escan;
    [intros [= <- <-]; auto| |intros [= <- <-]; auto].
  cbv zeta.
  destruct (sort_values _ _ (o :: opps)) as [|best rest] eqn:Esort;
    intros [= <- <-].
  - left. auto.
  - right. exists (o :: opps), best, rest.
    repeat split; auto.
Qed.

Lemma returned_scored self o :
  In o (calculate_arbitrage_opportunities_on
          now binance_prices kraken_prices self).1 ->
  exists row market,
    In row (merge binance_prices kraken_prices) /\ In market MARKETS /\
    scored binance_prices kraken_prices row market o.
Proof.
  destruct (calculate_arbitrage_opportunities_on _ _ _ _) as [out self']
    eqn:E.
  cbn [fst]. intros Ho.
  destruct (calculate_cases _ _ _ E)
    as [[-> _]|(opps & best & rest & _ & _ & Hscan & _ & Hout & _)];
    [destruct Ho|].
  apply score_rows_scored in Hscan.
  rewrite List.Forall_forall in Hscan. apply Hscan.
  eapply Permutation_in; [|exact Ho].
  rewrite Hout. symmetry. apply sort_values_perm.
Qed.
End Calculate.

(** C1: in every record [calculate_arbitrage_opportunities] returns, the buy
    price is at most the sell price, the buy side being the exchange with
    the lower price, and [Price_Diff_Pct] is
    [abs(binance - kraken) / min(binance, kraken) * 100] for the two prices
    the exchanges report for the record's symbol and market. *)
Theorem C1_buy_le_sell_and_gap_formula
        (S : Pandas.SortValues) (now : nat -> float)
        (binance_prices kraken_prices : Pandas.DataFrame)
        (self : ArbitrageCalculator.t) (o : Opportunity.t) :
  In o (ArbitrageCalculator.calculate_arbitrage_opportunities_on
          now binance_prices kraken_prices self).1 ->
  (Opportunity.Buy_Price o <=? Opportunity.Sell_Price o)%float = true /\
  exists (row : Pandas.Row * Pandas.Row) (binance_price kraken_price : float),
    In row (Pandas.merge binance_prices kraken_prices) /\
    Pandas.Symbol row.1 = Opportunity.Symbol o /\
    Pandas.get_left binance_prices kraken_prices row (Opportunity.Market o)
    = Pandas.F64 binance_price /\
    Pandas.get_right binance_prices kraken_prices row (Opportunity.Market o)
    = Pandas.F64 kraken_price /\
    Opportunity.Price_Diff_Pct o
    = (PyFloat.abs (binance_price - kraken_price)
       / PyFloat.min binance_price kraken_price * 100)%float /\
    ((binance_price <? kraken_price)%float = true /\
     Opportunity.Buy_Exchange o = "Binance" /\
     Opportunity.Sell_Exchange o = "Kraken" /\
     Opportunity.Buy_Price o = binance_price /\
     Opportunity.Sell_Price o = kraken_price
     \/
     (binance_price <? kraken_price)%float = false /\
     Opportunity.Buy_Exchange o = "Kraken" /\
     Opportunity.Sell_Exchange o = "Binance" /\
     Opportunity.Buy_Price o = kraken_price /\
     Opportunity.Sell_Price o = binance_price).
Proof.
  intros Ho. apply returned_scored in Ho.
  destruct Ho as (row & market & Hrow & _ & bp & kp & Hl & Hr & Hb & Hk & _
                  & _ & Hsym & Hm & Hpct & _ & Hdir).
  split.
  - destruct Hdir as [(Hlt & _ & _ & -> & ->)|(Hlt & _ & _ & -> & ->)].
    + apply ltb_leb, Hlt.
    + apply ltb_false_leb; assumption.
  - exists row, bp, kp. rewrite Hm. auto 10.
Qed.

(** ** The gap of two equal prices *)

Lemma SFsub_diag x : sf_zero_or_nan (SF64sub x x) = true.
Proof.
  destruct x as [[]|[]| |s m e]; try reflexivity.
  unfold SF64sub, SFsub. rewrite Z.sub_diag. reflexivity.
Qed.

Lemma SFabs_zero_or_nan x :
  sf_zero_or_nan x = true -> sf_zero_or_nan (SFabs x) = true.
Proof. destruct x; cbn; congruence. Qed.

Lemma SFdiv_zero_or_nan x y :
  sf_zero_or_nan x = true -> sf_zero_or_nan (SF64div x y) = true.
Proof. destruct x, y; cbn; congruence. Qed.

Lemma SFmul_zero_or_nan x s m e :
  sf_zero_or_nan x = true ->
  sf_zero_or_nan (SF64mul x (S754_finite s m e)) = true.
Proof. destruct x; cbn; congruence. Qed.

Lemma SFltb_zero_or_nan x :
  sf_zero_or_nan x = true -> SFltb (S754_zero false) x = false.
Proof. destruct x; cbn; congruence. Qed.

Lemma min_diag p : PyFloat.min p p = p.
Proof. unfold PyFloat.min. destruct (p <? p)%float; reflexivity. Qed.

(** Whatever the price, a tie gives a gap that is not above zero: it is a
    zero, or NaN when the price is infinite or zero. *)
Lemma gap_of_tie p :
  (0 <? PyFloat.abs (p - p) / PyFloat.min p p * 100)%float = false.
Proof.
  rewrite min_diag. unfold PyFloat.abs.
  rewrite FloatAxioms.ltb_spec, mul_spec, div_spec, abs_spec, sub_spec.
  change (Prim2SF 0) with (S754_zero false).
  change (Prim2SF 100) with (S754_finite false 7036874417766400 (-46)).
  apply SFltb_zero_or_nan, SFmul_zero_or_nan, SFdiv_zero_or_nan,
    SFabs_zero_or_nan, SFsub_diag.
Qed.

(** ** Which pairs the scan emits *)

Section Emission.
Import PyFloat Pandas Config ArbitrageCalculator.
Variable now : nat -> float.
Variables binance_prices kraken_prices : DataFrame.

(** The body on a pair with both prices present: it raises on a zero
    minimum, appends the record when the gap is above zero, and leaves
    the list alone otherwise. *)
Lemma score_market_present row acc market bp kp :
  Symbol row.1 <> market ->
  get_left binance_prices kraken_prices row market = F64 bp ->
  get_right binance_prices kraken_prices row market = F64 kp ->
  is_nan bp = false -> is_nan kp = false ->
  score_market now binance_prices kraken_prices row acc market
  = if (min bp kp =? 0)%float then Raise ZeroDivisionError
    else if (0 <? abs (bp - kp) / min bp kp * 100)%float
         then Ok (acc ++
                  [ {| Opportunity.Symbol := Symbol row.1;
                       Opportunity.Market := market;
                       Opportunity.Buy_Exchange :=
                         if (bp <? kp)%float then "Binance" else "Kraken";
                       Opportunity.Sell_Exchange :=
                         if (bp <? kp)%float then "Kraken" else "Binance";
                       Opportunity.Buy_Price :=
                         if (bp <? kp)%float then bp else kp;
                       Opportunity.Sell_Price :=
                         if (bp <? kp)%float then kp else bp;
                       Opportunity.Price_Diff_Pct :=
                         (abs (bp - kp) / min bp kp * 100)%float;
                       Opportunity.Timestamp := now (length acc) |} ])
         else Ok acc.
Proof.
  intros Hsym Hl Hr Hb Hk. unfold score_market.
  apply String.eqb_neq in Hsym. rewrite Hsym, Hl, Hr. cbn [isna].
  rewrite Hb, Hk. cbn [orb]. unfold truediv.
  destruct (min bp kp =? 0)%float; cbn [bind]; [reflexivity|].
  destruct (bp <? kp)%float; reflexivity.
Qed.

(** A pair with a price missing, or whose symbol is the market, is
    skipped. *)
Lemma score_market_absent row acc market :
  Symbol row.1 = market \/
  isna (get_left binance_prices kraken_prices row market) = true \/
  isna (get_right binance_prices kraken_prices row market) = true ->
  score_market now binance_prices kraken_prices row acc market = Ok acc.
Proof.
  unfold score_market. intros [H|[H|H]].
  - apply String.eqb_eq in H. rewrite H. reflexivity.
  - rewrite H. destruct (String.eqb _ _); reflexivity.
  - rewrite H, orb_true_r. destruct (String.eqb _ _); reflexivity.
Qed.

Lemma score_market_keeps o row acc market acc' :
  In o acc ->
  score_market now binance_prices kraken_prices row acc market = Ok acc' ->
  In o acc'.
Proof.
  intros Ho H. destruct (score_market_prefix _ _ _ _ _ _ _ H) as [new ->].
  apply in_or_app. auto.
Qed.

Lemma score_markets_keep o row markets acc acc' :
  In o acc ->
  for_each (score_market now binance_prices kraken_prices row) markets acc
  = Ok acc' ->
  In o acc'.
Proof.
  intros Ho. apply for_each_inv; [|exact Ho].
  intros s x s' _. apply score_market_keeps.
Qed.

Lemma score_rows_keep o merged_df markets acc acc' :
  In o acc ->
  for_each
    (fun opportunities row =>
       for_each (score_market now binance_prices kraken_prices row)
                markets opportunities)
    merged_df acc = Ok acc' ->
  In o acc'.
Proof.
  intros Ho. apply for_each_inv; [|exact Ho].
  intros s x s' _ Hs. apply score_markets_keep. exact Hs.
Qed.

(** A finished scan holds the record of every pair with both prices
    present and a gap above zero. *)
Lemma score_rows_complete merged_df opportunities row market bp kp :
  score_rows now binance_prices kraken_prices merged_df = Ok opportunities ->
  In row merged_df -> In market MARKETS ->
  Symbol row.1 <> market ->
  get_left binance_prices kraken_prices row market = F64 bp ->
  get_right binance_prices kraken_prices row market = F64 kp ->
  is_nan bp = false -> is_nan kp = false ->
  (0 <? abs (bp - kp) / min bp kp * 100)%float = true ->
  exists o,
    In o opportunities /\
    Opportunity.Symbol o = Symbol row.1 /\
    Opportunity.Market o = market /\
    Opportunity.Price_Diff_Pct o = (abs (bp - kp) / min bp kp * 100)%float /\
    Opportunity.Buy_Price o = (if (bp <? kp)%float then bp else kp) /\
    Opportunity.Sell_Price o = (if (bp <? kp)%float then kp else bp).
Proof.
  intros Hscan Hrow Hm Hsym Hl Hr Hb Hk Hpos.
  apply in_split in Hrow. destruct Hrow as (l1 & l2 & ->).
  apply in_split in Hm. destruct Hm as (m1 & m2 & Hm).
  unfold score_rows in Hscan.
  apply for_each_split in Hscan.
  destruct Hscan as (s1 & s2 & _ & Hbody & Hrest).
  rewrite Hm in Hbody. apply for_each_split in Hbody.
  destruct Hbody as (t1 & t2 & _ & Hstep & Hafter).
  rewrite (score_market_present _ _ _ bp kp) in Hstep by assumption.
  destruct (min bp kp =? 0)%float; [discriminate|].
  rewrite Hpos in Hstep. injection Hstep as <-.
  eexists. split.
  - eapply score_rows_keep; [|exact Hrest].
    eapply score_markets_keep; [|exact Hafter].
    apply in_or_app. right. left. reflexivity.
  - cbn. auto.
Qed.

(** The scan ends normally exactly when no pair with both prices present
    has a zero as its smaller price. *)
Lemma scan_succeeds_iff_no_zero_price :
  scan_succeeds now binance_prices kraken_prices <->
  (forall row market bp kp,
      In row (merge binance_prices kraken_prices) -> In market MARKETS ->
      Symbol row.1 <> market ->
      get_left binance_prices kraken_prices row market = F64 bp ->
      get_right binance_prices kraken_prices row market = F64 kp ->
      is_nan bp = false -> is_nan kp = false ->
      (min bp kp =? 0)%float = false).
Proof.
  unfold scan_succeeds, score_rows. split.
  - intros [opps Hscan] row market bp kp Hrow Hm Hsym Hl Hr Hb Hk.
    apply in_split in Hrow. destruct Hrow as (l1 & l2 & Hrow).
    apply in_split in Hm. destruct Hm as (m1 & m2 & Hm).
    rewrite Hrow in Hscan. apply for_each_split in Hscan.
    destruct Hscan as (s1 & s2 & _ & Hbody & _).
    rewrite Hm in Hbody. apply for_each_split in Hbody.
    destruct Hbody as (t1 & t2 & _ & Hstep & _).
    rewrite (score_market_present _ _ _ bp kp) in Hstep by assumption.
    destruct (min bp kp =? 0)%float; [discriminate|reflexivity].
  - intros Hzero. apply for_each_total. intros acc row Hrow.
    apply for_each_total. intros acc' market Hm.
    destruct (String.eqb_spec (Symbol row.1) market) as [Hsym|Hsym].
    { rewrite score_market_absent by auto. eauto. }
    destruct (isna (get_left binance_prices kraken_prices row market))
      eqn:Eb.
    { rewrite score_market_absent by auto. eauto. }
    destruct (isna (get_right binance_prices kraken_prices row market))
      eqn:Ek.
    { rewrite score_market_absent by auto. eauto. }
    destruct (isna_F64_false _ Eb) as (bp & Hbe & Hb).
    destruct (isna_F64_false _ Ek) as (kp & Hke & Hk).
    rewrite (score_market_present _ _ _ bp kp) by assumption.
    rewrite (Hzero row market bp kp) by assumption.
    destruct (0 <? _)%float; eauto.
Qed.
End Emission.

Section Returned.
Import PyFloat Pandas Config ArbitrageCalculator.
Context {S : SortValues}.
Variable now : nat -> float.
Variables binance_prices kraken_prices : DataFrame.

Lemma merge_In row :
  In row (merge binance_prices kraken_prices) ->
  In row.1 (rows binance_prices) /\ In row.2 (rows kraken_prices) /\
  Symbol row.1 = Symbol row.2.
Proof.
  unfold merge. rewrite in_flat_map. intros (l & Hl & Hrow).
  apply in_map_iff in Hrow. destruct Hrow as (r & <- & Hr).
  apply filter_In in Hr. destruct Hr as [Hr He].
  apply String.eqb_eq in He. auto.
Qed.

Lemma merge_nonempty row :
  In row (merge binance_prices kraken_prices) ->
  empty binance_prices = false /\ empty kraken_prices = false.
Proof.
  intros H. apply merge_In in H. destruct H as (Hb & Hk & _).
  unfold empty.
  destruct (rows binance_prices); [destruct Hb|].
  destruct (rows kraken_prices); [destruct Hk|]. auto.
Qed.

(** What is returned is a rearrangement of what the scan collected, and
    nothing when the scan raised. *)
Lemma returned_perm self opportunities :
  empty binance_prices = false -> empty kraken_prices = false ->
  score_rows now binance_prices kraken_prices
             (merge binance_prices kraken_prices) = Ok opportunities ->
  Permutation opportunities
    (calculate_arbitrage_opportunities_on
       now binance_prices kraken_prices self).1.
Proof.
  intros Hb Hk Hscan. unfold calculate_arbitrage_opportunities_on.
  rewrite Hb, Hk, Hscan. cbn [orb].
  destruct opportunities as [|o opps]; [reflexivity|]. cbv zeta.
  pose proof (sort_values_perm _ Opportunity.Price_Diff_Pct (o :: opps))
    as Hp.
  destruct (sort_values _ _ (o :: opps)); exact Hp.
Qed.

Lemma returned_nothing_on_raise self e :
  score_rows now binance_prices kraken_prices
             (merge binance_prices kraken_prices) = Raise e ->
  calculate_arbitrage_opportunities_on
    now binance_prices kraken_prices self = ([], self).
Proof.
  intros Hscan. unfold calculate_arbitrage_opportunities_on.
  rewrite Hscan. destruct (empty _ || empty _); reflexivity.
Qed.
End Returned.

Lemma C1_witness :
  let b := (ArbitrageCalculator.fetch_all_prices Examples.gap_world).1 in
  let k := (ArbitrageCalculator.fetch_all_prices Examples.gap_world).2 in
  (Opportunity.Buy_Price Examples.gap_record
   <=? Opportunity.Sell_Price Examples.gap_record)%float = true /\
  exists (row : Pandas.Row * Pandas.Row) (binance_price kraken_price : float),
    In row (Pandas.merge b k) /\
    Pandas.Symbol row.1 = "BTC" /\
    Pandas.get_left b k row "USDT" = Pandas.F64 binance_price /\
    Pandas.get_right b k row "USDT" = Pandas.F64 kraken_price /\
    2%float
    = (PyFloat.abs (binance_price - kraken_price)
       / PyFloat.min binance_price kraken_price * 100)%float /\
    ((binance_price <? kraken_price)%float = true /\
     "Binance" = "Binance" /\ "Kraken" = "Kraken" /\
     100%float = binance_price /\ 102%float = kraken_price
     \/
     (binance_price <? kraken_price)%float = false /\
     "Binance" = "Kraken" /\ "Kraken" = "Binance" /\
     100%float = kraken_price /\ 102%float = binance_price).
Proof.
  apply (C1_buy_le_sell_and_gap_formula
           stable_sort_values Examples.clock
           (ArbitrageCalculator.fetch_all_prices Examples.gap_world).1
           (ArbitrageCalculator.fetch_all_prices Examples.gap_world).2
           ArbitrageCalculator.init Examples.gap_record).
  vm_compute. left. reflexivity.
Defined.

(** C2, as amended: for a symbol and market on which both exchanges report
    a price, a record is returned exactly when the computed gap is above
    zero (and no zero price aborted the scan); two equal prices give no
    record. *)
Theorem C2_emitted_iff_gap_above_zero
        (S : Pandas.SortValues) (now : nat -> float)
        (binance_prices kraken_prices : Pandas.DataFrame)
        (self : ArbitrageCalculator.t)
        (row : Pandas.Row * Pandas.Row) (market : string) (bp kp : float) :
  In row (Pandas.merge binance_prices kraken_prices) ->
  In market Config.MARKETS ->
  Pandas.Symbol row.1 <> market ->
  Pandas.get_left binance_prices kraken_prices row market = Pandas.F64 bp ->
  Pandas.get_right binance_prices kraken_prices row market = Pandas.F64 kp ->
  PyFloat.is_nan bp = false -> PyFloat.is_nan kp = false ->
  (emitted now binance_prices kraken_prices self row market bp kp <->
   (0 <? PyFloat.abs (bp - kp) / PyFloat.min bp kp * 100)%float = true /\
   scan_succeeds now binance_prices kraken_prices) /\
  (bp = kp ->
   ~ emitted now binance_prices kraken_prices self row market bp kp).
Proof.
  intros Hrow Hm Hsym Hl Hr Hb Hk.
  assert (Hiff :
    emitted now binance_prices kraken_prices self row market bp kp ->
    (0 <? PyFloat.abs (bp - kp) / PyFloat.min bp kp * 100)%float = true /\
    scan_succeeds now binance_prices kraken_prices).
  { intros (o & Ho & _ & _ & Hpct & _). split.
    - pose proof (returned_scored _ _ _ _ _ Ho)
        as (row' & market' & _ & _ & Hs).
      destruct Hs as (bp' & kp' & _ & _ & _ & _ & _ & _ & _ & _ & _ & Hpos & _).
      rewrite <- Hpct. exact Hpos.
    - destruct (ArbitrageCalculator.calculate_arbitrage_opportunities_on
                  now binance_prices kraken_prices self) as [out self'] eqn:E.
      destruct (calculate_cases _ _ _ _ _ _ E)
        as [[-> _]|(opps & _ & _ & _ & _ & Hscan & _)]; [destruct Ho|].
      exists opps. exact Hscan. }
  split; [split; [exact Hiff|]|].
  - intros (Hpos & opps & Hscan).
    destruct (score_rows_complete _ _ _ _ _ _ _ _ _ Hscan Hrow Hm Hsym Hl Hr
                                  Hb Hk Hpos) as (o & Ho & Hfields).
    exists o. split; [|exact Hfields].
    destruct (merge_nonempty _ _ _ Hrow) as [Hbe Hke].
    eapply Permutation_in; [|exact Ho].
    apply returned_perm; assumption.
  - intros -> He. apply Hiff in He. destruct He as [Hpos _].
    rewrite gap_of_tie in Hpos. discriminate.
Qed.

Lemma C2_witness :
  let b := (ArbitrageCalculator.fetch_all_prices Examples.gap_world).1 in
  let k := (ArbitrageCalculator.fetch_all_prices Examples.gap_world).2 in
  let row := Examples.btc_row Examples.gap_world in
  (emitted (S := stable_sort_values) Examples.clock b k
           ArbitrageCalculator.init row "USDT" 100 102 <->
   (0 <? PyFloat.abs (100 - 102) / PyFloat.min 100 102 * 100)%float = true /\
   scan_succeeds Examples.clock b k) /\
  (100%float = 102%float ->
   ~ emitted (S := stable_sort_values) Examples.clock b k
             ArbitrageCalculator.init row "USDT" 100 102).
Proof.
  apply (C2_emitted_iff_gap_above_zero
           stable_sort_values Examples.clock
           (ArbitrageCalculator.fetch_all_prices Examples.gap_world).1
           (ArbitrageCalculator.fetch_all_prices Examples.gap_world).2
           ArbitrageCalculator.init
           (Examples.btc_row Examples.gap_world) "USDT" 100%float 102%float).
  - vm_compute. left. reflexivity.
  - left. reflexivity.
  - vm_compute. discriminate.
  - vm_compute. reflexivity.
  - vm_compute. reflexivity.
  - reflexivity.
  - reflexivity.
Defined.

(** C2, as stated, fails: both exchanges report BTC/USDT at 100, the gap is
    0, and nothing is returned. *)
Lemma C2_counterexample :
  let b := (ArbitrageCalculator.fetch_all_prices Examples.tie_world).1 in
  let k := (ArbitrageCalculator.fetch_all_prices Examples.tie_world).2 in
  let row := Examples.btc_row Examples.tie_world in
  In row (Pandas.merge b k) /\
  Pandas.Symbol row.1 = "BTC" /\
  Pandas.get_left b k row "USDT" = Pandas.F64 100 /\
  Pandas.get_right b k row "USDT" = Pandas.F64 100 /\
  (PyFloat.abs (100 - 100) / PyFloat.min 100 100 * 100)%float = 0%float /\
  (ArbitrageCalculator.calculate_arbitrage_opportunities
     (S := stable_sort_values) Examples.tie_world
     ArbitrageCalculator.init).1 = [].
Proof.
  vm_compute. repeat split; try reflexivity. left. reflexivity.
Qed.

(** ** The order of the returned table *)

Lemma merge_empty (left right : Pandas.DataFrame) :
  Pandas.empty left = true \/ Pandas.empty right = true ->
  Pandas.merge left right = [].
Proof.
  unfold Pandas.merge, Pandas.empty. intros [H|H].
  - destruct (Pandas.rows left); [reflexivity|discriminate].
  - destruct (Pandas.rows right); [|discriminate].
    induction (Pandas.rows left) as [|l ls IH]; [reflexivity|].
    cbn [flat_map List.filter map]. exact IH.
Qed.

Lemma StronglySorted_weaken {A : Type} (R R' : A -> A -> Prop) (l : list A) :
  (forall a b, In a l -> In b l -> R a b -> R' a b) ->
  StronglySorted R l -> StronglySorted R' l.
Proof.
  intros Himp Hs. induction Hs as [|a l Hs IH Ha]; constructor.
  - apply IH. intros x y Hx Hy. apply Himp; right; assumption.
  - rewrite List.Forall_forall in *. intros b Hb.
    apply Himp; [left; reflexivity|right; exact Hb|apply Ha, Hb].
Qed.

(** The returned records come in descending order of [Price_Diff_Pct]:
    every gap is a number above zero, so the NaN-last clause of the sort
    never applies. *)
Lemma returned_descending
      (S : Pandas.SortValues) (now : nat -> float)
      (binance_prices kraken_prices : Pandas.DataFrame)
      (self : ArbitrageCalculator.t) :
  StronglySorted
    (fun a b => (Opportunity.Price_Diff_Pct b
                 <=? Opportunity.Price_Diff_Pct a)%float = true)
    (ArbitrageCalculator.calculate_arbitrage_opportunities_on
       now binance_prices kraken_prices self).1.
Proof.
  destruct (ArbitrageCalculator.calculate_arbitrage_opportunities_on
              now binance_prices kraken_prices self) as [out self'] eqn:E.
  cbn [fst].
  assert (Hpos : forall o, In o out ->
                           PyFloat.is_nan (Opportunity.Price_Diff_Pct o)
                           = false).
  { intros o Ho.
    assert (Ho' : In o
                     (ArbitrageCalculator.calculate_arbitrage_opportunities_on
                        now binance_prices kraken_prices self).1)
      by (rewrite E; exact Ho).
    apply returned_scored in Ho'.
    destruct Ho' as (row & market & _ & _ & bp & kp & _ & _ & _ & _ & _ & _
                     & _ & _ & _ & Hgt & _).
    apply ltb_not_nan in Hgt. tauto. }
  destruct (calculate_cases _ _ _ _ _ _ E)
    as [[-> _]|(opps & best & rest & _ & _ & _ & _ & Hout & _)];
    [constructor|].
  eapply StronglySorted_weaken;
    [|rewrite Hout; apply Pandas.sort_values_sorted].
  cbv beta. intros a b _ Hb [Hnan|Hle]; [|exact Hle].
  rewrite (Hpos b Hb) in Hnan. discriminate.
Qed.

(** ** The last seen opportunity *)

Lemma calculate_state (S : Pandas.SortValues) (now : nat -> float)
      (binance_prices kraken_prices : Pandas.DataFrame)
      (self : ArbitrageCalculator.t) :
  match ArbitrageCalculator.calculate_arbitrage_opportunities_on
          now binance_prices kraken_prices self with
  | (best :: _, self') =>
      ArbitrageCalculator.last_opportunity self' = Some best
  | ([], self') => self' = self
  end.
Proof.
  destruct (ArbitrageCalculator.calculate_arbitrage_opportunities_on
              now binance_prices kraken_prices self) as [out self'] eqn:E.
  destruct (calculate_cases _ _ _ _ _ _ E)
    as [[-> ->]|(opps & best & rest & _ & _ & _ & _ & _ & -> & ->)];
    reflexivity.
Qed.

Lemma calculate_world_state (S : Pandas.SortValues) (w : World)
      (self : ArbitrageCalculator.t) :
  match ArbitrageCalculator.calculate_arbitrage_opportunities w self with
  | (best :: _, self') =>
      ArbitrageCalculator.last_opportunity self' = Some best
  | ([], self') => self' = self
  end.
Proof.
  unfold ArbitrageCalculator.calculate_arbitrage_opportunities.
  destruct (ArbitrageCalculator.fetch_all_prices w) as [b k].
  apply calculate_state.
Qed.

(** Calls that return nothing leave the calculator as it was. *)
Lemma run_cycles_quiet (S : Pandas.SortValues) (ws : list World)
      (self : ArbitrageCalculator.t) :
  Forall (fun out => out = []) (run_cycles ws self).1 ->
  (run_cycles ws self).2 = self.
Proof.
  revert self. induction ws as [|w ws IH]; intros self; [reflexivity|].
  cbn [run_cycles].
  pose proof (calculate_world_state S w self) as Hw.
  destruct (ArbitrageCalculator.calculate_arbitrage_opportunities w self)
    as [out self1].
  specialize (IH self1).
  destruct (run_cycles ws self1) as [outs self2].
  cbn [fst snd] in *. intros Hall.
  apply List.Forall_cons_iff in Hall. destruct Hall as [-> Houts].
  rewrite (IH Houts). exact Hw.
Qed.

(** C4: after a call that returns at least one record,
    [get_last_opportunity] gives the highest-ranked record of that call:
    the first record of the returned table, which is one of the records
    the scan collected and whose [Price_Diff_Pct] no record of the call
    exceeds.  On a fresh calculator, and as long as every call so far
    returned an empty table, it gives the empty result. *)
Theorem C4_last_opportunity_is_best (S : Pandas.SortValues) :
  (forall (now : nat -> float)
          (binance_prices kraken_prices : Pandas.DataFrame)
          (self : ArbitrageCalculator.t) (best : Opportunity.t)
          (rest : list Opportunity.t) (self' : ArbitrageCalculator.t),
      ArbitrageCalculator.calculate_arbitrage_opportunities_on
        now binance_prices kraken_prices self = (best :: rest, self') ->
      ArbitrageCalculator.get_last_opportunity self' = Some best /\
      (forall o, In o rest ->
                 (Opportunity.Price_Diff_Pct o
                  <=? Opportunity.Price_Diff_Pct best)%float = true) /\
      exists opportunities,
        ArbitrageCalculator.score_rows
          now binance_prices kraken_prices
          (Pandas.merge binance_prices kraken_prices)
        = PyFloat.Ok opportunities /\
        In best opportunities /\
        forall o, In o opportunities ->
                  (Opportunity.Price_Diff_Pct o
                   <=? Opportunity.Price_Diff_Pct best)%float = true) /\
  ArbitrageCalculator.get_last_opportunity ArbitrageCalculator.init = None /\
  (forall ws : list World,
      Forall (fun out => out = [])
             (run_cycles ws ArbitrageCalculator.init).1 ->
      ArbitrageCalculator.get_last_opportunity
        (run_cycles ws ArbitrageCalculator.init).2 = None).
Proof.
  split; [|split; [reflexivity|]].
  - intros now b k self best rest self' E.
    pose proof (calculate_state S now b k self) as H. rewrite E in H.
    pose proof (returned_descending S now b k self) as Hsorted.
    rewrite E in Hsorted. cbn [fst] in Hsorted.
    apply StronglySorted_inv in Hsorted. destruct Hsorted as [_ Hrest].
    rewrite List.Forall_forall in Hrest.
    assert (Hbest : (Opportunity.Price_Diff_Pct best
                     <=? Opportunity.Price_Diff_Pct best)%float = true).
    { apply leb_refl.
      assert (Hin : In best
                       (ArbitrageCalculator.calculate_arbitrage_opportunities_on
                          now b k self).1)
        by (rewrite E; left; reflexivity).
      apply returned_scored in Hin.
      destruct Hin as (row & market & _ & _ & bp & kp & _ & _ & _ & _ & _
                       & _ & _ & _ & _ & Hgt & _).
      apply ltb_not_nan in Hgt. tauto. }
    split; [|split; [exact Hrest|]].
    { unfold ArbitrageCalculator.get_last_opportunity. rewrite H.
      reflexivity. }
    destruct (calculate_cases _ _ _ _ _ _ E)
      as [[Hnil _]|(opps & best0 & rest0 & _ & _ & Hscan & _ & Hout & _)];
      [discriminate|].
    exists opps. split; [exact Hscan|].
    assert (Hperm : Permutation opps (best :: rest))
      by (rewrite Hout; apply Pandas.sort_values_perm).
    split.
    + eapply Permutation_in; [symmetry; exact Hperm|left; reflexivity].
    + intros o Ho. apply (Permutation_in _ Hperm) in Ho.
      destruct Ho as [<-|Ho]; [exact Hbest|apply Hrest, Ho].
  - intros ws Hall. rewrite (run_cycles_quiet S ws _ Hall). reflexivity.
Qed.

Lemma C4_witness :
  (ArbitrageCalculator.get_last_opportunity
     (ArbitrageCalculator.calculate_arbitrage_opportunities_on
        (S := stable_sort_values) Examples.clock
        (ArbitrageCalculator.fetch_all_prices Examples.two_gaps_world).1
        (ArbitrageCalculator.fetch_all_prices Examples.two_gaps_world).2
        ArbitrageCalculator.init).2
   = Some Examples.eth_gap_4 /\
   (forall o, In o [Examples.btc_gap_1] ->
              (Opportunity.Price_Diff_Pct o
               <=? Opportunity.Price_Diff_Pct Examples.eth_gap_4)%float
              = true) /\
   exists opportunities,
     ArbitrageCalculator.score_rows
       Examples.clock
       (ArbitrageCalculator.fetch_all_prices Examples.two_gaps_world).1
       (ArbitrageCalculator.fetch_all_prices Examples.two_gaps_world).2
       (Pandas.merge
          (ArbitrageCalculator.fetch_all_prices Examples.two_gaps_world).1
          (ArbitrageCalculator.fetch_all_prices Examples.two_gaps_world).2)
     = PyFloat.Ok opportunities /\
     In Examples.eth_gap_4 opportunities /\
     forall o, In o opportunities ->
               (Opportunity.Price_Diff_Pct o
                <=? Opportunity.Price_Diff_Pct Examples.eth_gap_4)%float
               = true) /\
  ArbitrageCalculator.get_last_opportunity
    (run_cycles (S := stable_sort_values)
                [Examples.tie_world; Examples.tie_world]
                ArbitrageCalculator.init).2 = None.
Proof.
  destruct (C4_last_opportunity_is_best stable_sort_values)
    as (Hbest & _ & Hquiet).
  split.
  - apply (Hbest Examples.clock
                 (ArbitrageCalculator.fetch_all_prices
                    Examples.two_gaps_world).1
                 (ArbitrageCalculator.fetch_all_prices
                    Examples.two_gaps_world).2
                 ArbitrageCalculator.init
                 Examples.eth_gap_4 [Examples.btc_gap_1]).
    vm_compute. reflexivity.
  - apply (Hquiet [Examples.tie_world; Examples.tie_world]).
    vm_compute. repeat constructor.
Defined.

(** C5: when either price table is empty, or the join on the symbol has no
    row, the empty table is returned and the stored last opportunity is
    what it was. *)
Theorem C5_empty_input_leaves_state
        (S : Pandas.SortValues) (now : nat -> float)
        (binance_prices kraken_prices : Pandas.DataFrame)
        (self : ArbitrageCalculator.t) :
  Pandas.empty binance_prices = true \/
  Pandas.empty kraken_prices = true \/
  Pandas.merge binance_prices kraken_prices = [] ->
  ArbitrageCalculator.calculate_arbitrage_opportunities_on
    now binance_prices kraken_prices self = ([], self) /\
  ArbitrageCalculator.get_last_opportunity
    (ArbitrageCalculator.calculate_arbitrage_opportunities_on
       now binance_prices kraken_prices self).2
  = ArbitrageCalculator.get_last_opportunity self.
Proof.
  intros H.
  assert (Hm : Pandas.merge binance_prices kraken_prices = []).
  { destruct H as [H|[H|H]]; [apply merge_empty; auto ..|exact H]. }
  assert (E : ArbitrageCalculator.calculate_arbitrage_opportunities_on
                now binance_prices kraken_prices self = ([], self)).
  { unfold ArbitrageCalculator.calculate_arbitrage_opportunities_on.
    rewrite Hm. cbn. destruct (Pandas.empty _ || Pandas.empty _); reflexivity. }
  rewrite E. split; reflexivity.
Qed.

Lemma C5_witness :
  let b := (ArbitrageCalculator.fetch_all_prices Examples.outage_world).1 in
  let k := (ArbitrageCalculator.fetch_all_prices Examples.outage_world).2 in
  ArbitrageCalculator.calculate_arbitrage_opportunities_on
    (S := stable_sort_values) Examples.clock b k Examples.seen
  = ([], Examples.seen) /\
  ArbitrageCalculator.get_last_opportunity
    (ArbitrageCalculator.calculate_arbitrage_opportunities_on
       (S := stable_sort_values) Examples.clock b k Examples.seen).2
  = ArbitrageCalculator.get_last_opportunity Examples.seen.
Proof.
  apply (C5_empty_input_leaves_state
           stable_sort_values Examples.clock
           (ArbitrageCalculator.fetch_all_prices Examples.outage_world).1
           (ArbitrageCalculator.fetch_all_prices Examples.outage_world).2
           Examples.seen).
  left. vm_compute. reflexivity.
Defined.

(** ** The trade simulator *)

Lemma eqb_zero_not_above x :
  (x =? 0)%float = true -> (0 <? x)%float = false.
Proof.
  intros He. destruct (0 <? x)%float eqn:Hl; [|reflexivity].
  apply eqb_true_iff in He. apply ltb_true_iff in Hl.
  destruct He as (_ & _ & He). destruct Hl as (_ & _ & Hl).
  apply lex3_eq_iff in He. apply lex3_lt_iff in Hl. lia.
Qed.

Section Trade.
Import PyFloat Pandas ArbitrageCalculator.
Variables binance_prices kraken_prices : DataFrame.
Variables symbol market : string.
Variable amount : float.
Variables buy_exchange sell_exchange : string.

(** A record is returned exactly when both tables have rows, both
    lookups succeed, and the cells of the two chosen sides are numbers;
    the record is then computed from those two numbers. *)
Lemma trade_profit_some r :
  calculate_trade_profit_on binance_prices kraken_prices
    symbol market amount buy_exchange sell_exchange = Some r ->
  exists binance_price kraken_price buy_price sell_price,
    price_of binance_prices symbol market = Ok binance_price /\
    price_of kraken_prices symbol market = Ok kraken_price /\
    (if String.eqb buy_exchange "Binance"
     then binance_price else kraken_price) = F64 buy_price /\
    (if String.eqb sell_exchange "Binance"
     then binance_price else kraken_price) = F64 sell_price /\
    r = {| TradeSimulation.symbol := symbol;
           TradeSimulation.market := market;
           TradeSimulation.initial_investment := amount;
           TradeSimulation.buy_exchange := buy_exchange;
           TradeSimulation.buy_price := buy_price;
           TradeSimulation.crypto_amount := (amount / buy_price)%float;
           TradeSimulation.sell_exchange := sell_exchange;
           TradeSimulation.sell_price := sell_price;
           TradeSimulation.sell_amount :=
             (amount / buy_price * sell_price)%float;
           TradeSimulation.final_amount :=
             (amount / buy_price * sell_price)%float;
           TradeSimulation.profit :=
             (amount / buy_price * sell_price - amount)%float;
           TradeSimulation.profit_percentage :=
             ((amount / buy_price * sell_price - amount)
              / amount * 100)%float;
           TradeSimulation.profitable :=
             (0 <? amount / buy_price * sell_price - amount)%float |}.
Proof.
  unfold calculate_trade_profit_on, trade.
  destruct (empty binance_prices || empty kraken_prices); [discriminate|].
  destruct (price_of binance_prices symbol market) as [cb|e];
    cbn [bind]; [|discriminate].
  destruct (price_of kraken_prices symbol market) as [ck|e];
    cbn [bind]; [|discriminate].
  destruct (if String.eqb buy_exchange "Binance" then cb else ck)
    as [|pb] eqn:Eb; cbn [number bind]; [discriminate|].
  destruct (if String.eqb sell_exchange "Binance" then cb else ck)
    as [|ps] eqn:Es; cbn [number bind]; [discriminate|].
  intros [= <-]. exists cb, ck, pb, ps. auto.
Qed.

(** With both prices found as numbers a record is always returned,
    whatever the exchange names are. *)
Lemma trade_profit_numbers pb pk :
  empty binance_prices = false -> empty kraken_prices = false ->
  price_of binance_prices symbol market = Ok (F64 pb) ->
  price_of kraken_prices symbol market = Ok (F64 pk) ->
  exists r,
    calculate_trade_profit_on binance_prices kraken_prices
      symbol market amount buy_exchange sell_exchange = Some r /\
    TradeSimulation.buy_exchange r = buy_exchange /\
    TradeSimulation.sell_exchange r = sell_exchange /\
    TradeSimulation.buy_price r
    = (if String.eqb buy_exchange "Binance" then pb else pk) /\
    TradeSimulation.sell_price r
    = (if String.eqb sell_exchange "Binance" then pb else pk).
Proof.
  intros Hb Hk Hpb Hpk. unfold calculate_trade_profit_on, trade.
  rewrite Hb, Hk, Hpb, Hpk. cbn [orb bind].
  destruct (String.eqb buy_exchange "Binance"),
    (String.eqb sell_exchange "Binance"); cbn; eexists; eauto.
Qed.

(** A symbol that is in neither table's rows, or a market without a
    column, gives the empty result. *)
Lemma trade_profit_unresolved :
  (forall r, In r (rows binance_prices) -> Symbol r <> symbol) \/
  (forall r, In r (rows kraken_prices) -> Symbol r <> symbol) \/
  assoc market (columns binance_prices) = None \/
  assoc market (columns kraken_prices) = None ->
  calculate_trade_profit_on binance_prices kraken_prices
    symbol market amount buy_exchange sell_exchange = None.
Proof.
  assert (Hfilter : forall df,
             (forall r, In r (rows df) -> Symbol r <> symbol) ->
             List.filter (fun r => String.eqb (Symbol r) symbol) (rows df)
             = []).
  { intros df Hdf. induction (rows df) as [|r l IH]; [reflexivity|].
    cbn. destruct (String.eqb_spec (Symbol r) symbol) as [E|_].
    - exfalso. apply (Hdf r); [left; reflexivity|exact E].
    - apply IH. intros r' Hr'. apply Hdf. right. exact Hr'. }
  assert (Hsym : forall df,
             (forall r, In r (rows df) -> Symbol r <> symbol) ->
             exists e, price_of df symbol market = Raise e).
  { intros df Hdf. unfold price_of. rewrite (Hfilter df Hdf).
    destruct (assoc market (columns df)); eauto. }
  assert (Hcol : forall df,
             assoc market (columns df) = None ->
             exists e, price_of df symbol market = Raise e).
  { intros df Hdf. unfold price_of. rewrite Hdf. eauto. }
  intros H. unfold calculate_trade_profit_on, trade.
  destruct (empty binance_prices || empty kraken_prices); [reflexivity|].
  destruct H as [H|[H|[H|H]]].
  - destruct (Hsym _ H) as [e ->]. reflexivity.
  - destruct (Hsym _ H) as [e ->].
    destruct (price_of binance_prices symbol market); reflexivity.
  - destruct (Hcol _ H) as [e ->]. reflexivity.
  - destruct (Hcol _ H) as [e ->].
    destruct (price_of binance_prices symbol market); reflexivity.
Qed.
End Trade.

(** Decimal literals below stand for the nearest binary64 number, as they
    do in Python. *)
Set Warnings "-inexact-float".

(** C6, at an input where the claim fails: BNB/USDT is quoted on Binance
    and not on Kraken, so the Kraken cell is NaN; the simulator returns a
    record whose sell price, amounts and profit are NaN instead of the
    empty result. *)
Theorem C6_missing_price_gives_nan_record :
  let b := (ArbitrageCalculator.fetch_all_prices Examples.trade_world).1 in
  let k := (ArbitrageCalculator.fetch_all_prices Examples.trade_world).2 in
  ArbitrageCalculator.price_of b "BNB" "USDT"
  = PyFloat.Ok (Pandas.F64 600) /\
  ArbitrageCalculator.price_of k "BNB" "USDT"
  = PyFloat.Ok (Pandas.F64 nan) /\
  ArbitrageCalculator.calculate_trade_profit
    Examples.trade_world "BNB" "USDT" 100 "Binance" "Kraken"
  = Some {| TradeSimulation.symbol := "BNB";
            TradeSimulation.market := "USDT";
            TradeSimulation.initial_investment := 100;
            TradeSimulation.buy_exchange := "Binance";
            TradeSimulation.buy_price := 600;
            TradeSimulation.crypto_amount := (100 / 600)%float;
            TradeSimulation.sell_exchange := "Kraken";
            TradeSimulation.sell_price := nan;
            TradeSimulation.sell_amount := nan;
            TradeSimulation.final_amount := nan;
            TradeSimulation.profit := nan;
            TradeSimulation.profit_percentage := nan;
            TradeSimulation.profitable := false |}.
Proof. vm_compute. repeat split; reflexivity. Qed.

(** C7: every record the simulator returns satisfies
    [crypto_amount = initial_investment / buy_price],
    [sell_amount = crypto_amount * sell_price], [final_amount = sell_amount],
    [profit = final_amount - initial_investment] and
    [profitable = (profit > 0)], so a zero profit is not profitable; and
    whenever the record is computed for amount 100 from buy price 50000
    and sell price 50100, it holds [crypto_amount = 0.002],
    [sell_amount = 100.2], [profitable = true], and a profit and a profit
    percentage that are 0.2 within floating-point tolerance (they differ
    from 0.2 by less than 1e-14).  On the example tickers that record is
    returned, with [profit = 0.20000000000000284] and
    [profit_percentage = 0.20000000000000281]. *)
Theorem C7_trade_arithmetic :
  (forall (binance_prices kraken_prices : Pandas.DataFrame)
          (symbol market : string) (amount : float)
          (buy_exchange sell_exchange : string) (r : TradeSimulation.t),
      ArbitrageCalculator.calculate_trade_profit_on
        binance_prices kraken_prices
        symbol market amount buy_exchange sell_exchange = Some r ->
      TradeSimulation.initial_investment r = amount /\
      TradeSimulation.crypto_amount r
      = (TradeSimulation.initial_investment r
         / TradeSimulation.buy_price r)%float /\
      TradeSimulation.sell_amount r
      = (TradeSimulation.crypto_amount r
         * TradeSimulation.sell_price r)%float /\
      TradeSimulation.final_amount r = TradeSimulation.sell_amount r /\
      TradeSimulation.profit r
      = (TradeSimulation.final_amount r
         - TradeSimulation.initial_investment r)%float /\
      TradeSimulation.profit_percentage r
      = (TradeSimulation.profit r
         / TradeSimulation.initial_investment r * 100)%float /\
      TradeSimulation.profitable r = (0 <? TradeSimulation.profit r)%float /\
      ((TradeSimulation.profit r =? 0)%float = true ->
       TradeSimulation.profitable r = false)) /\
  (forall (binance_prices kraken_prices : Pandas.DataFrame)
          (symbol market buy_exchange sell_exchange : string)
          (r : TradeSimulation.t),
      ArbitrageCalculator.calculate_trade_profit_on
        binance_prices kraken_prices
        symbol market 100 buy_exchange sell_exchange = Some r ->
      TradeSimulation.buy_price r = 50000%float ->
      TradeSimulation.sell_price r = 50100%float ->
      TradeSimulation.crypto_amount r = 0.002%float /\
      TradeSimulation.sell_amount r = 100.2%float /\
      TradeSimulation.final_amount r = 100.2%float /\
      (PrimFloat.abs (TradeSimulation.profit r - 0.2) <? 1e-14)%float = true /\
      (PrimFloat.abs (TradeSimulation.profit_percentage r - 0.2)
       <? 1e-14)%float = true /\
      TradeSimulation.profitable r = true) /\
  ArbitrageCalculator.calculate_trade_profit
    Examples.trade_world "BTC" "USDT" 100 "Binance" "Kraken"
  = Some {| TradeSimulation.symbol := "BTC";
            TradeSimulation.market := "USDT";
            TradeSimulation.initial_investment := 100;
            TradeSimulation.buy_exchange := "Binance";
            TradeSimulation.buy_price := 50000;
            TradeSimulation.crypto_amount := 0.002;
            TradeSimulation.sell_exchange := "Kraken";
            TradeSimulation.sell_price := 50100;
            TradeSimulation.sell_amount := 100.2;
            TradeSimulation.final_amount := 100.2;
            TradeSimulation.profit := 0.20000000000000284;
            TradeSimulation.profit_percentage := 0.20000000000000281;
            TradeSimulation.profitable := true |}.
Proof.
  split; [|split; [|vm_compute; reflexivity]].
  - intros b k symbol market amount be se r Hr.
    apply trade_profit_some in Hr.
    destruct Hr as (cb & ck & pb & ps & _ & _ & _ & _ & ->). cbn.
    repeat split; try reflexivity. apply eqb_zero_not_above.
  - intros b k symbol market be se r Hr.
    apply trade_profit_some in Hr.
    destruct Hr as (cb & ck & pb & ps & _ & _ & _ & _ & ->).
    cbn [TradeSimulation.buy_price TradeSimulation.sell_price
         TradeSimulation.crypto_amount TradeSimulation.sell_amount
         TradeSimulation.final_amount TradeSimulation.profit
         TradeSimulation.profit_percentage TradeSimulation.profitable].
    intros -> ->. vm_compute. repeat split; reflexivity.
Qed.

(** C10: the exchange names are not checked.  When the symbol and market
    are found with a number on both sides, a record is returned for any
    two strings, and each side that is not exactly ["Binance"] is priced
    at the Kraken price. *)
Theorem C10_exchange_names_not_validated
        (binance_prices kraken_prices : Pandas.DataFrame)
        (symbol market : string) (amount : float)
        (buy_exchange sell_exchange : string)
        (binance_price kraken_price : float) :
  Pandas.empty binance_prices = false ->
  Pandas.empty kraken_prices = false ->
  ArbitrageCalculator.price_of binance_prices symbol market
  = PyFloat.Ok (Pandas.F64 binance_price) ->
  ArbitrageCalculator.price_of kraken_prices symbol market
  = PyFloat.Ok (Pandas.F64 kraken_price) ->
  exists r,
    ArbitrageCalculator.calculate_trade_profit_on
      binance_prices kraken_prices
      symbol market amount buy_exchange sell_exchange = Some r /\
    TradeSimulation.buy_exchange r = buy_exchange /\
    TradeSimulation.sell_exchange r = sell_exchange /\
    (buy_exchange <> "Binance" ->
     TradeSimulation.buy_price r = kraken_price) /\
    (buy_exchange = "Binance" ->
     TradeSimulation.buy_price r = binance_price) /\
    (sell_exchange <> "Binance" ->
     TradeSimulation.sell_price r = kraken_price) /\
    (sell_exchange = "Binance" ->
     TradeSimulation.sell_price r = binance_price).
Proof.
  intros Hb Hk Hpb Hpk.
  destruct (trade_profit_numbers binance_prices kraken_prices symbol market
              amount buy_exchange sell_exchange _ _ Hb Hk Hpb Hpk)
    as (r & Hr & Hbe & Hse & Hbp & Hsp).
  exists r. repeat split; try assumption.
  - intros Hne. apply String.eqb_neq in Hne. rewrite Hne in Hbp. exact Hbp.
  - intros He. apply String.eqb_eq in He. rewrite He in Hbp. exact Hbp.
  - intros Hne. apply String.eqb_neq in Hne. rewrite Hne in Hsp. exact Hsp.
  - intros He. apply String.eqb_eq in He. rewrite He in Hsp. exact Hsp.
Qed.

Lemma C10_witness :
  let b := (ArbitrageCalculator.fetch_all_prices Examples.trade_world).1 in
  let k := (ArbitrageCalculator.fetch_all_prices Examples.trade_world).2 in
  exists r,
    ArbitrageCalculator.calculate_trade_profit_on
      b k "BTC" "USDT" 100 "Bybit" "Bybit" = Some r /\
    TradeSimulation.buy_exchange r = "Bybit" /\
    TradeSimulation.sell_exchange r = "Bybit" /\
    ("Bybit" <> "Binance" -> TradeSimulation.buy_price r = 50100%float) /\
    ("Bybit" = "Binance" -> TradeSimulation.buy_price r = 50000%float) /\
    ("Bybit" <> "Binance" -> TradeSimulation.sell_price r = 50100%float) /\
    ("Bybit" = "Binance" -> TradeSimulation.sell_price r = 50000%float).
Proof.
  apply (C10_exchange_names_not_validated
           (ArbitrageCalculator.fetch_all_prices Examples.trade_world).1
           (ArbitrageCalculator.fetch_all_prices Examples.trade_world).2
           "BTC" "USDT" 100%float "Bybit" "Bybit" 50000%float 50100%float);
    vm_compute; reflexivity.
Defined.

(** ** The low-price screener *)

Lemma row_min_is_min a b :
  PyFloat.is_nan a = false -> PyFloat.is_nan b = false ->
  ArbitrageCalculator.row_min a b = PyFloat.min a b.
Proof.
  intros Ha Hb. unfold ArbitrageCalculator.row_min, PyFloat.min.
  destruct (a <=? b)%float eqn:Hle; destruct (b <? a)%float eqn:Hlt;
    try reflexivity; exfalso.
  - apply leb_true_iff in Hle. apply ltb_true_iff in Hlt.
    destruct Hle as (_ & _ & Hle). destruct Hlt as (_ & _ & Hlt).
    apply lex3_le_iff in Hle. apply lex3_lt_iff in Hlt. lia.
  - pose proof (ltb_false_leb b a Hb Ha Hlt). congruence.
Qed.

Lemma ltb_leb_false x y : (x <? y)%float = true -> (y <=? x)%float = false.
Proof.
  intros Hlt. destruct (y <=? x)%float eqn:Hle; [|reflexivity].
  apply leb_true_iff in Hle. apply ltb_true_iff in Hlt.
  destruct Hle as (_ & _ & Hle). destruct Hlt as (_ & _ & Hlt).
  apply lex3_le_iff in Hle. apply lex3_lt_iff in Hlt. lia.
Qed.

Section Screener.
Import PyFloat Pandas ArbitrageCalculator.
Context {S : SortValues}.
Variables binance_prices kraken_prices : DataFrame.

(** Every returned row was built from a merged row that passed the
    masks. *)
Lemma gainer_from_row g :
  In g (get_low_price_gainers_on binance_prices kraken_prices) ->
  exists row,
    In row (merge binance_prices kraken_prices) /\
    LowPriceGainer.Symbol g = Symbol row.1 /\
    get_left binance_prices kraken_prices row "USDT"
    = F64 (LowPriceGainer.Binance_Price g) /\
    get_right binance_prices kraken_prices row "USDT"
    = F64 (LowPriceGainer.Kraken_Price g) /\
    is_nan (LowPriceGainer.Binance_Price g) = false /\
    is_nan (LowPriceGainer.Kraken_Price g) = false /\
    ((LowPriceGainer.Binance_Price g <? 1)%float = true \/
     (LowPriceGainer.Kraken_Price g <? 1)%float = true) /\
    LowPriceGainer.Price_Diff_Pct g
    = (PrimFloat.abs (LowPriceGainer.Binance_Price g
                      - LowPriceGainer.Kraken_Price g)
       / row_min (LowPriceGainer.Binance_Price g)
                 (LowPriceGainer.Kraken_Price g) * 100)%float /\
    LowPriceGainer.Avg_Price g
    = row_mean (LowPriceGainer.Binance_Price g)
               (LowPriceGainer.Kraken_Price g).
Proof.
  unfold get_low_price_gainers_on.
  destruct (empty binance_prices || empty kraken_prices); [intros []|].
  destruct (negb (merged_has binance_prices kraken_prices "USDT"));
    [intros []|].
  cbv zeta.
  match goal with
  | |- context [match ?l with [] => [] | _ :: _ => _ end] =>
      set (low := l)
  end.
  assert (Hlow : forall row, In row low ->
                             In row (merge binance_prices kraken_prices) /\
                             (lt_one (get_left binance_prices kraken_prices
                                               row "USDT")
                              || lt_one (get_right binance_prices
                                                   kraken_prices row "USDT"))
                             && negb (isna (get_left binance_prices
                                                     kraken_prices row "USDT"))
                             && negb (isna (get_right binance_prices
                                                      kraken_prices row
                                                      "USDT")) = true).
  { intros row Hrow. apply filter_In in Hrow. exact Hrow. }
  destruct low as [|r0 low'] eqn:Elow; [intros []|].
  intros Hg.
  eapply Permutation_in in Hg; [|symmetry; apply sort_values_perm].
  apply in_map_iff in Hg. destruct Hg as (row & <- & Hrow).
  destruct (Hlow row Hrow) as [Hin Hmask].
  rewrite !andb_true_iff, orb_true_iff, !negb_true_iff in Hmask.
  destruct Hmask as [[Hlt Hnb] Hnk].
  destruct (get_left binance_prices kraken_prices row "USDT")
    as [|bp] eqn:Eb; [discriminate|].
  destruct (get_right binance_prices kraken_prices row "USDT")
    as [|kp] eqn:Ek; [discriminate|].
  exists row. cbn in *. rewrite Eb, Ek. cbn. auto 12.
Qed.
End Screener.

(** C8: every row [get_low_price_gainers] returns carries a USDT price from
    both exchanges, at least one of them below 1, so never both at 1 or
    above; [Avg_Price] is the mean of the two and [Price_Diff_Pct] is
    [abs(binance - kraken) / min(binance, kraken) * 100], the value the
    opportunity scorer computes whenever its division does not raise. *)
Theorem C8_low_price_rows
        (S : Pandas.SortValues)
        (binance_prices kraken_prices : Pandas.DataFrame)
        (g : LowPriceGainer.t) :
  In g (ArbitrageCalculator.get_low_price_gainers_on
          binance_prices kraken_prices) ->
  (exists row,
      In row (Pandas.merge binance_prices kraken_prices) /\
      LowPriceGainer.Symbol g = Pandas.Symbol row.1 /\
      Pandas.get_left binance_prices kraken_prices row "USDT"
      = Pandas.F64 (LowPriceGainer.Binance_Price g) /\
      Pandas.get_right binance_prices kraken_prices row "USDT"
      = Pandas.F64 (LowPriceGainer.Kraken_Price g)) /\
  PyFloat.is_nan (LowPriceGainer.Binance_Price g) = false /\
  PyFloat.is_nan (LowPriceGainer.Kraken_Price g) = false /\
  ((LowPriceGainer.Binance_Price g <? 1)%float = true \/
   (LowPriceGainer.Kraken_Price g <? 1)%float = true) /\
  ((1 <=? LowPriceGainer.Binance_Price g)%float
   && (1 <=? LowPriceGainer.Kraken_Price g)%float) = false /\
  LowPriceGainer.Avg_Price g
  = ((LowPriceGainer.Binance_Price g + LowPriceGainer.Kraken_Price g)
     / 2)%float /\
  LowPriceGainer.Price_Diff_Pct g
  = (PyFloat.abs (LowPriceGainer.Binance_Price g
                  - LowPriceGainer.Kraken_Price g)
     / PyFloat.min (LowPriceGainer.Binance_Price g)
                   (LowPriceGainer.Kraken_Price g) * 100)%float /\
  (forall q,
      PyFloat.truediv
        (PyFloat.abs (LowPriceGainer.Binance_Price g
                      - LowPriceGainer.Kraken_Price g))
        (PyFloat.min (LowPriceGainer.Binance_Price g)
                     (LowPriceGainer.Kraken_Price g)) = PyFloat.Ok q ->
      LowPriceGainer.Price_Diff_Pct g = (q * 100)%float).
Proof.
  intros Hg. apply gainer_from_row in Hg.
  destruct Hg as (row & Hrow & Hsym & Hl & Hr & Hb & Hk & Hlt & Hpct & Havg).
  rewrite (row_min_is_min _ _ Hb Hk) in Hpct.
  split; [exists row; auto|].
  repeat (split; [assumption|]).
  split; [|split; [exact Havg|split; [exact Hpct|]]].
  - destruct Hlt as [Hlt|Hlt]; apply ltb_leb_false in Hlt; rewrite Hlt;
      [reflexivity|apply andb_false_r].
  - intros q. unfold PyFloat.truediv.
    destruct (PyFloat.min _ _ =? 0)%float; [discriminate|].
    intros [= <-]. exact Hpct.
Qed.

Lemma C8_witness :
  let b := (ArbitrageCalculator.fetch_all_prices Examples.low_price_world).1 in
  let k := (ArbitrageCalculator.fetch_all_prices Examples.low_price_world).2 in
  let g := {| LowPriceGainer.Symbol := "XRP";
              LowPriceGainer.Binance_Price := 0.5;
              LowPriceGainer.Kraken_Price := 0.25;
              LowPriceGainer.Price_Diff_Pct := 100;
              LowPriceGainer.Avg_Price := 0.375 |} in
  (exists row,
      In row (Pandas.merge b k) /\
      "XRP" = Pandas.Symbol row.1 /\
      Pandas.get_left b k row "USDT" = Pandas.F64 0.5 /\
      Pandas.get_right b k row "USDT" = Pandas.F64 0.25) /\
  PyFloat.is_nan 0.5 = false /\
  PyFloat.is_nan 0.25 = false /\
  ((0.5 <? 1)%float = true \/ (0.25 <? 1)%float = true) /\
  ((1 <=? 0.5)%float && (1 <=? 0.25)%float) = false /\
  0.375%float = ((0.5 + 0.25) / 2)%float /\
  100%float
  = (PyFloat.abs (0.5 - 0.25) / PyFloat.min 0.5 0.25 * 100)%float /\
  (forall q,
      PyFloat.truediv (PyFloat.abs (0.5 - 0.25)) (PyFloat.min 0.5 0.25)
      = PyFloat.Ok q ->
      100%float = (q * 100)%float).
Proof.
  apply (C8_low_price_rows
           stable_sort_values
           (ArbitrageCalculator.fetch_all_prices Examples.low_price_world).1
           (ArbitrageCalculator.fetch_all_prices Examples.low_price_world).2
           {| LowPriceGainer.Symbol := "XRP";
              LowPriceGainer.Binance_Price := 0.5;
              LowPriceGainer.Kraken_Price := 0.25;
              LowPriceGainer.Price_Diff_Pct := 100;
              LowPriceGainer.Avg_Price := 0.375 |}).
  vm_compute. left. reflexivity.
Defined.

(** ** No asset is priced against itself *)

Lemma assoc_dict_set_ne {V : Type} (k k' : string) (v : V)
      (d : list (string * V)) :
  k <> k' -> Pandas.assoc k (Pandas.dict_set k' v d) = Pandas.assoc k d.
Proof.
  intros Hne. induction d as [|[k0 v0] d IH]; cbn.
  - apply String.eqb_neq in Hne. rewrite Hne. reflexivity.
  - destruct (String.eqb_spec k' k0) as [->|Hk0]; cbn.
    + apply String.eqb_neq in Hne. rewrite Hne. reflexivity.
    + destruct (String.eqb k k0); [reflexivity|exact IH].
Qed.

Section FetcherRows.
Import PyFloat Pandas Fetcher.
Variable names : string -> string -> list (string * bool).
Variable all_prices : gmap string float.

(** [fill_row] never sets the key of the market named like the crypto:
    the loop skips it. *)
Lemma fill_row_skips_self crypto markets row :
  fill_row names all_prices crypto markets = Ok row ->
  row.1 = crypto /\ assoc crypto row.2 = None.
Proof.
  unfold fill_row.
  apply (for_each_inv _ (fun row => row.1 = crypto /\
                                    assoc crypto row.2 = None));
    [|split; reflexivity].
  intros s market s' _ [Hs1 Hs2].
  destruct (String.eqb_spec crypto market) as [->|Hne].
  - intros [= <-]. auto.
  - destruct (lookup_price all_prices (names crypto market)) as [v|e];
      cbn [bind]; [|discriminate].
    intros [= <-]. cbn. split; [exact Hs1|].
    rewrite assoc_dict_set_ne by exact Hne. exact Hs2.
Qed.

Lemma collect_skips_self cryptos markets data :
  collect names all_prices cryptos markets = Ok data ->
  Forall (fun r : record => assoc r.1 r.2 = None) data.
Proof.
  unfold collect. apply for_each_inv; [|constructor].
  intros s crypto s' _ Hs.
  destruct (fill_row names all_prices crypto markets) as [row|e] eqn:E;
    cbn [bind]; [|discriminate].
  intros [= <-]. apply Forall_app. split; [exact Hs|].
  constructor; [|constructor].
  apply fill_row_skips_self in E. destruct E as [-> E]. exact E.
Qed.

Lemma fetched_skips_self cryptos markets :
  skips_self (get_top_crypto_prices names all_prices cryptos markets).
Proof.
  unfold get_top_crypto_prices, skips_self.
  destruct (collect names all_prices cryptos markets) as [data|e] eqn:E;
    [|intros r []].
  apply collect_skips_self in E. rewrite List.Forall_forall in E.
  cbn. intros r Hr. apply in_map_iff in Hr. destruct Hr as (rec & <- & Hrec).
  cbn. rewrite (E rec Hrec). reflexivity.
Qed.
End FetcherRows.

Section ScreenerSelf.
Import PyFloat Pandas ArbitrageCalculator.
Context {S : SortValues}.

Lemma gainer_not_self binance_prices kraken_prices g :
  skips_self binance_prices ->
  In g (get_low_price_gainers_on binance_prices kraken_prices) ->
  LowPriceGainer.Symbol g <> "USDT".
Proof.
  intros Hskip Hg Hsym. apply gainer_from_row in Hg.
  destruct Hg as (row & Hrow & Hs & Hl & _ & Hb & _).
  apply merge_In in Hrow. destruct Hrow as (Hin & _ & _).
  specialize (Hskip _ Hin). rewrite <- Hs, Hsym in Hskip.
  unfold get_left, at_col in Hl.
  destruct (merged_has binance_prices kraken_prices "USDT");
    [|discriminate].
  destruct (assoc "USDT" (columns binance_prices)) as [[]|];
    try discriminate.
  injection Hl as Hl. rewrite <- Hl in Hb. congruence.
Qed.
End ScreenerSelf.

(** C9: no record returned by [calculate_arbitrage_opportunities] has its
    symbol equal to its market, and no row returned by
    [get_low_price_gainers], whose market is USDT, has the symbol USDT. *)
Theorem C9_no_self_pairing (S : Pandas.SortValues) :
  (forall (now : nat -> float)
          (binance_prices kraken_prices : Pandas.DataFrame)
          (self : ArbitrageCalculator.t) (o : Opportunity.t),
      In o (ArbitrageCalculator.calculate_arbitrage_opportunities_on
              now binance_prices kraken_prices self).1 ->
      Opportunity.Symbol o <> Opportunity.Market o) /\
  (forall (w : World) (self : ArbitrageCalculator.t) (o : Opportunity.t),
      In o (ArbitrageCalculator.calculate_arbitrage_opportunities w self).1 ->
      Opportunity.Symbol o <> Opportunity.Market o) /\
  (forall (w : World) (g : LowPriceGainer.t),
      In g (ArbitrageCalculator.get_low_price_gainers w) ->
      LowPriceGainer.Symbol g <> "USDT").
Proof.
  assert (Hon : forall now b k self o,
             In o (ArbitrageCalculator.calculate_arbitrage_opportunities_on
                     now b k self).1 ->
             Opportunity.Symbol o <> Opportunity.Market o).
  { intros now b k self o Ho. apply returned_scored in Ho.
    destruct Ho as (row & market & _ & _ & bp & kp & _ & _ & _ & _ & Hne & _
                    & Hs & Hm & _).
    rewrite Hs, Hm. exact Hne. }
  split; [exact Hon|split].
  - intros w self o.
    unfold ArbitrageCalculator.calculate_arbitrage_opportunities.
    destruct (ArbitrageCalculator.fetch_all_prices w) as [b k]. apply Hon.
  - intros w g. unfold ArbitrageCalculator.get_low_price_gainers.
    destruct (ArbitrageCalculator.fetch_all_prices w) as [b k] eqn:E.
    apply gainer_not_self.
    unfold ArbitrageCalculator.fetch_all_prices in E. injection E as <- _.
    apply fetched_skips_self.
Qed.

Lemma C9_witness :
  Opportunity.Symbol Examples.gap_record
  <> Opportunity.Market Examples.gap_record /\
  "XRP" <> "USDT".
Proof.
  destruct (C9_no_self_pairing stable_sort_values) as (_ & Hopp & Hgain).
  split.
  - apply (Hopp Examples.gap_world ArbitrageCalculator.init
                Examples.gap_record).
    vm_compute. left. reflexivity.
  - apply (Hgain Examples.low_price_world
                 {| LowPriceGainer.Symbol := "XRP";
                    LowPriceGainer.Binance_Price := 0.5;
                    LowPriceGainer.Kraken_Price := 0.25;
                    LowPriceGainer.Price_Diff_Pct := 100;
                    LowPriceGainer.Avg_Price := 0.375 |}).
    vm_compute. left. reflexivity.
Defined.

Lemma C7_witness :
  let r := {| TradeSimulation.symbol := "BTC";
              TradeSimulation.market := "USDT";
              TradeSimulation.initial_investment := 100;
              TradeSimulation.buy_exchange := "Binance";
              TradeSimulation.buy_price := 50000;
              TradeSimulation.crypto_amount := 0.002;
              TradeSimulation.sell_exchange := "Kraken";
              TradeSimulation.sell_price := 50100;
              TradeSimulation.sell_amount := 100.2;
              TradeSimulation.final_amount := 100.2;
              TradeSimulation.profit := 0.20000000000000284;
              TradeSimulation.profit_percentage := 0.20000000000000281;
              TradeSimulation.profitable := true |} in
  (TradeSimulation.initial_investment r = 100%float /\
   TradeSimulation.crypto_amount r
   = (TradeSimulation.initial_investment r
      / TradeSimulation.buy_price r)%float /\
   TradeSimulation.sell_amount r
   = (TradeSimulation.crypto_amount r * TradeSimulation.sell_price r)%float /\
   TradeSimulation.final_amount r = TradeSimulation.sell_amount r /\
   TradeSimulation.profit r
   = (TradeSimulation.final_amount r
      - TradeSimulation.initial_investment r)%float /\
   TradeSimulation.profit_percentage r
   = (TradeSimulation.profit r
      / TradeSimulation.initial_investment r * 100)%float /\
   TradeSimulation.profitable r = (0 <? TradeSimulation.profit r)%float /\
   ((TradeSimulation.profit r =? 0)%float = true ->
    TradeSimulation.profitable r = false)) /\
  (TradeSimulation.crypto_amount r = 0.002%float /\
   TradeSimulation.sell_amount r = 100.2%float /\
   TradeSimulation.final_amount r = 100.2%float /\
   (PrimFloat.abs (TradeSimulation.profit r - 0.2) <? 1e-14)%float = true /\
   (PrimFloat.abs (TradeSimulation.profit_percentage r - 0.2)
    <? 1e-14)%float = true /\
   TradeSimulation.profitable r = true).
Proof.
  destruct C7_trade_arithmetic as (Hall & Hexample & _).
  split.
  - apply (Hall (ArbitrageCalculator.fetch_all_prices Examples.trade_world).1
                (ArbitrageCalculator.fetch_all_prices Examples.trade_world).2
                "BTC" "USDT" 100%float "Binance" "Kraken").
    vm_compute. reflexivity.
  - apply (Hexample
             (ArbitrageCalculator.fetch_all_prices Examples.trade_world).1
             (ArbitrageCalculator.fetch_all_prices Examples.trade_world).2
             "BTC" "USDT" "Binance" "Kraken").
    + vm_compute. reflexivity.
    + reflexivity.
    + reflexivity.
Defined.

(** * Further properties of the code *)

(** ** Loops, continued *)

Section ForEachMore.
Import PyFloat.
Context {A S : Type}.

(** A loop with an element on which the body raises from every state does
    not end normally. *)
Lemma for_each_raises (body : S -> A -> res S) (l : list A) (x : A) :
  In x l -> (forall s, exists e, body s x = Raise e) ->
  forall s, exists e, for_each body l s = Raise e.
Proof.
  intros Hx Hbody. induction l as [|y l IH]; [destruct Hx|].
  intros s. cbn. destruct Hx as [->|Hx].
  - destruct (Hbody s) as [e ->]. eauto.
  - destruct (body s y) as [s'|e]; [apply IH, Hx|eauto].
Qed.

(** Bodies that agree on the elements of the list give the same loop. *)
Lemma for_each_ext (body body' : S -> A -> res S) (l : list A) :
  (forall s x, In x l -> body s x = body' s x) ->
  forall s, for_each body l s = for_each body' l s.
Proof.
  induction l as [|x l IH]; intros Heq s; cbn; [reflexivity|].
  rewrite <- (Heq s x) by (left; reflexivity).
  destruct (body s x); [|reflexivity].
  apply IH. intros s0 y Hy. apply Heq. right. exact Hy.
Qed.
End ForEachMore.

(** ** Dicts and column names *)

Section Dicts.
Import Pandas.
Context {V : Type}.

Lemma assoc_dict_set_eq (k : string) (v : V) (d : list (string * V)) :
  assoc k (dict_set k v d) = Some v.
Proof.
  induction d as [|[k0 v0] d IH]; cbn.
  - rewrite String.eqb_refl. reflexivity.
  - destruct (String.eqb_spec k k0) as [->|Hne]; cbn.
    + rewrite String.eqb_refl. reflexivity.
    + apply String.eqb_neq in Hne. rewrite Hne. exact IH.
Qed.

Lemma keys_dict_set (m k : string) (v : V) (d : list (string * V)) :
  In m (map fst (dict_set k v d)) <-> m = k \/ In m (map fst d).
Proof.
  induction d as [|[k0 v0] d IH]; cbn.
  - intuition.
  - destruct (String.eqb_spec k k0) as [->|Hne]; cbn.
    + intuition.
    + rewrite IH. intuition.
Qed.

Lemma assoc_Some_key (m : string) (v : V) (d : list (string * V)) :
  assoc m d = Some v -> In m (map fst d).
Proof.
  induction d as [|[k0 v0] d IH]; cbn; [discriminate|].
  destruct (String.eqb_spec m k0) as [->|_]; auto.
Qed.

Lemma assoc_self_map (f : string -> V) (m : string) (l : list string) :
  In m l -> assoc m (map (fun k => (k, f k)) l) = Some (f m).
Proof.
  induction l as [|k l IH]; cbn; [intros []|].
  destruct (String.eqb_spec m k) as [->|Hne]; [reflexivity|].
  intros [->|Hm]; [congruence|auto].
Qed.

Lemma assoc_self_map_key (f : string -> V) (m : string) (l : list string)
      (v : V) :
  assoc m (map (fun k => (k, f k)) l) = Some v -> In m l.
Proof.
  intros H. apply assoc_Some_key in H.
  rewrite map_map in H. cbn in H. rewrite map_id in H. exact H.
Qed.
End Dicts.

Lemma existsb_eqb_In (k : string) (l : list string) :
  List.existsb (String.eqb k) l = true <-> In k l.
Proof.
  rewrite existsb_exists. split.
  - intros (x & Hx & He). apply String.eqb_eq in He. congruence.
  - intros Hk. exists k. split; [exact Hk|apply String.eqb_refl].
Qed.

(** The columns of [pd.DataFrame(data)] are the keys of the dicts. *)
Lemma union_keys_In (data : list Pandas.record) (m : string) :
  In m (Pandas.union_keys data) <->
  exists rec, In rec data /\ In m (map fst rec.2).
Proof.
  unfold Pandas.union_keys.
  assert (Hinner : forall (kvs : list (string * option float)) acc,
             In m (fold_left
                     (fun acc kv =>
                        if List.existsb (String.eqb kv.1) acc
                        then acc else acc ++ [kv.1]) kvs acc) <->
             In m acc \/ In m (map fst kvs)).
  { induction kvs as [|[k v] kvs IH]; intros acc; cbn.
    - intuition.
    - rewrite IH. cbn.
      destruct (List.existsb (String.eqb k) acc) eqn:E.
      + apply existsb_eqb_In in E. intuition (subst; auto).
      + rewrite in_app_iff. cbn. intuition. }
  assert (Houter : forall data acc,
             In m (fold_left
                     (fun acc (r : Pandas.record) =>
                        fold_left
                          (fun acc kv =>
                             if List.existsb (String.eqb kv.1) acc
                             then acc else acc ++ [kv.1]) r.2 acc)
                     data acc) <->
             In m acc \/ exists rec, In rec data /\ In m (map fst rec.2)).
  { clear data. induction data as [|r data IH]; intros acc; cbn.
    - split; [auto|]. intros [H|(rec & [] & _)]. exact H.
    - rewrite IH, Hinner. split.
      + intros [[H|H]|(rec & Hrec & H)]; eauto 6.
      + intros [H|(rec & [<-|Hrec] & H)]; eauto. }
  rewrite Houter. split; [intros [[]|H]; exact H|auto].
Qed.

(** ** The tables the fetchers build *)

Section FetcherTable.
Import PyFloat Pandas Fetcher.
Variable names : string -> string -> list (string * bool).
Variable all_prices : gmap string float.

(** The [for market in markets] loop, from any row built so far: every
    market other than the crypto gets the value looked up for it, the other
    keys stay, and no key outside [markets] appears. *)
Lemma fill_row_from crypto markets row0 row :
  for_each
    (fun (row : record) (market : string) =>
       if String.eqb crypto market then Ok row
       else
         let* v := lookup_price all_prices (names crypto market) in
         Ok (row.1, dict_set market v row.2))
    markets row0 = Ok row ->
  row.1 = row0.1 /\
  (forall m, In m markets -> m <> crypto ->
             exists v, lookup_price all_prices (names crypto m) = Ok v /\
                       assoc m row.2 = Some v) /\
  (forall m, ~ In m markets -> assoc m row.2 = assoc m row0.2) /\
  (forall m, In m (map fst row.2) -> In m (map fst row0.2) \/ In m markets).
Proof.
  revert row0. induction markets as [|m0 ms IH]; intros row0; cbn.
  - intros [= <-]. repeat split; auto. intros m [].
  - destruct (String.eqb_spec crypto m0) as [Heq|Hne].
    + intros Hrun. destruct (IH _ Hrun) as (H1 & H2 & H3 & H4).
      split; [exact H1|]. split; [|split].
      * intros m [<-|Hm] Hmc; [congruence|auto].
      * intros m Hm. apply H3. tauto.
      * intros m Hm. destruct (H4 m Hm); auto.
    + destruct (lookup_price all_prices (names crypto m0)) as [v0|e] eqn:E;
        cbn [bind]; [|discriminate].
      intros Hrun. destruct (IH _ Hrun) as (H1 & H2 & H3 & H4).
      cbn in H1, H3, H4. split; [exact H1|]. split; [|split].
      * intros m Hm Hmc.
        destruct (in_dec string_dec m ms) as [Hin|Hnin]; [auto|].
        destruct Hm as [<-|Hm]; [|contradiction].
        exists v0. split; [exact E|].
        rewrite (H3 _ Hnin). apply assoc_dict_set_eq.
      * intros m Hm. rewrite H3 by tauto.
        apply assoc_dict_set_ne. intros ->. apply Hm. left. reflexivity.
      * intros m Hm. destruct (H4 m Hm) as [Hk|Hk]; [|auto].
        apply keys_dict_set in Hk. destruct Hk as [->|Hk]; auto.
Qed.

Lemma fill_row_spec crypto markets row :
  fill_row names all_prices crypto markets = Ok row ->
  row.1 = crypto /\
  (forall m, In m markets -> m <> crypto ->
             exists v, lookup_price all_prices (names crypto m) = Ok v /\
                       assoc m row.2 = Some v) /\
  (forall m, In m (map fst row.2) -> In m markets).
Proof.
  unfold fill_row. intros H. apply fill_row_from in H.
  destruct H as (H1 & H2 & _ & H4). repeat split; auto.
  intros m Hm. destruct (H4 m Hm) as [[]|]; assumption.
Qed.

(** The [for crypto in cryptos] loop appends one filled row per crypto. *)
Lemma collect_from cryptos markets data0 data :
  for_each
    (fun (data : list record) (crypto : string) =>
       let* row := fill_row names all_prices crypto markets in
       Ok (data ++ [row]))
    cryptos data0 = Ok data ->
  exists new,
    data = data0 ++ new /\
    Forall2 (fun crypto rec =>
               fill_row names all_prices crypto markets = Ok rec)
            cryptos new.
Proof.
  revert data0. induction cryptos as [|c cs IH]; intros data0; cbn.
  - intros [= <-]. exists []. split; [symmetry; apply app_nil_r|constructor].
  - destruct (fill_row names all_prices c markets) as [row|e] eqn:E;
      cbn [bind]; [|discriminate].
    intros Hrun. destruct (IH _ Hrun) as (new & -> & Hnew).
    exists (row :: new). split; [rewrite <- app_assoc; reflexivity|].
    constructor; assumption.
Qed.

Lemma collect_spec cryptos markets data :
  collect names all_prices cryptos markets = Ok data ->
  Forall2 (fun crypto rec =>
             fill_row names all_prices crypto markets = Ok rec)
          cryptos data.
Proof.
  unfold collect. intros H. apply collect_from in H.
  destruct H as (new & -> & H). exact H.
Qed.

(** A failed lookup anywhere in the two loops leaves no table. *)
Lemma lookup_raise_empties cryptos markets crypto market e :
  In crypto cryptos -> In market markets -> crypto <> market ->
  lookup_price all_prices (names crypto market) = Raise e ->
  get_top_crypto_prices names all_prices cryptos markets = empty_frame.
Proof.
  intros Hc Hm Hne Hraise. unfold get_top_crypto_prices.
  assert (Hfill : exists e', fill_row names all_prices crypto markets
                             = Raise e').
  { unfold fill_row. apply (for_each_raises _ _ market Hm).
    intros s. apply String.eqb_neq in Hne. rewrite Hne, Hraise. cbn. eauto. }
  destruct Hfill as [e' Hfill].
  assert (Hcollect : exists e'', collect names all_prices cryptos markets
                                 = Raise e'').
  { unfold collect. apply (for_each_raises _ _ crypto Hc).
    intros s. rewrite Hfill. cbn. eauto. }
  destruct Hcollect as [e'' ->]. reflexivity.
Qed.

(** What a cell of the built table holds: the number looked up for the
    row's symbol and the market, or a missing value when nothing was
    found. *)
Lemma cell_of_lookup cryptos markets r market :
  In r (rows (get_top_crypto_prices names all_prices cryptos markets)) ->
  In market markets -> Symbol r <> market ->
  exists v,
    lookup_price all_prices (names (Symbol r) market) = Ok v /\
    match v with
    | Some p =>
        at_col (get_top_crypto_prices names all_prices cryptos markets)
               r market = Some (F64 p)
    | None =>
        exists c,
          at_col (get_top_crypto_prices names all_prices cryptos markets)
                 r market = Some c /\ isna c = true
    end.
Proof.
  unfold get_top_crypto_prices.
  destruct (collect names all_prices cryptos markets) as [data|e] eqn:E;
    [|intros []].
  apply collect_spec in E. cbn [rows from_records].
  intros Hr Hm Hne. apply in_map_iff in Hr. destruct Hr as (rec & <- & Hrec).
  assert (Hfill : exists crypto,
             fill_row names all_prices crypto markets = Ok rec).
  { clear -E Hrec. induction E as [|c rec' cs data Hc _ IH]; [destruct Hrec|].
    destruct Hrec as [<-|Hrec]; eauto. }
  destruct Hfill as [crypto Hfill]. apply fill_row_spec in Hfill.
  destruct Hfill as (H1 & H2 & _). cbn [Symbol to_row] in *.
  rewrite H1 in *.
  destruct (H2 market Hm) as (v & Hv & Hassoc); [congruence|].
  exists v. split; [exact Hv|].
  assert (Hcol : assoc market (columns (from_records data))
                 = Some (infer_dtype data market)).
  { cbn. apply assoc_self_map. apply union_keys_In.
    exists rec. split; [exact Hrec|]. eapply assoc_Some_key, Hassoc. }
  unfold at_col. rewrite Hcol. cbn [price to_row]. rewrite Hassoc.
  destruct v as [p|].
  - assert (Hd : infer_dtype data market = float64).
    { unfold infer_dtype.
      match goal with
      | |- context [List.forallb ?f data] =>
          destruct (List.forallb f data) eqn:Hall; [|reflexivity]
      end.
      rewrite forallb_forall in Hall. specialize (Hall rec Hrec).
      rewrite Hassoc in Hall. discriminate. }
    rewrite Hd. reflexivity.
  - destruct (infer_dtype data market); eexists; split; reflexivity.
Qed.

(** The built table is the empty one or has one row per crypto, in the
    order asked, and no column outside [markets]. *)
Lemma fetched_shape cryptos markets :
  (get_top_crypto_prices names all_prices cryptos markets = empty_frame \/
   map Symbol (rows (get_top_crypto_prices names all_prices cryptos markets))
   = cryptos) /\
  (forall m,
      In m (map fst (columns (get_top_crypto_prices
                                names all_prices cryptos markets))) ->
      In m markets).
Proof.
  unfold get_top_crypto_prices.
  destruct (collect names all_prices cryptos markets) as [data|e] eqn:E;
    [|split; [left; reflexivity|intros m []]].
  apply collect_spec in E. split.
  - right. cbn. rewrite map_map. cbn.
    induction E as [|c rec cs data Hc _ IH]; [reflexivity|].
    cbn. apply fill_row_spec in Hc. destruct Hc as [-> _]. f_equal. exact IH.
  - cbn. rewrite map_map. cbn. rewrite map_id. intros m Hm.
    apply union_keys_In in Hm. destruct Hm as (rec & Hrec & Hm).
    assert (Hfill : exists crypto,
               fill_row names all_prices crypto markets = Ok rec).
    { clear -E Hrec.
      induction E as [|c rec' cs data Hc _ IH]; [destruct Hrec|].
      destruct Hrec as [<-|Hrec]; eauto. }
    destruct Hfill as [crypto Hfill]. apply fill_row_spec in Hfill.
    destruct Hfill as (_ & _ & Hkeys). auto.
Qed.
End FetcherTable.

(** X1: the table each fetcher builds is either the empty table (an
    exception was caught) or has exactly one row per requested crypto, in
    the order asked; its price columns are among the requested markets. *)
Theorem X1_fetched_table_shape
        (all_prices : gmap string float) (cryptos markets : list string) :
  Forall
    (fun df : Pandas.DataFrame =>
       (df = Pandas.empty_frame \/
        map Pandas.Symbol (Pandas.rows df) = cryptos) /\
       (forall m, In m (map fst (Pandas.columns df)) -> In m markets))
    [Fetcher.BinanceFetcher.get_top_crypto_prices all_prices cryptos markets;
     Fetcher.KrakenFetcher.get_top_crypto_prices all_prices cryptos markets;
     Fetcher.BybitFetcher.get_top_crypto_prices all_prices cryptos markets].
Proof.
  constructor; [apply fetched_shape|].
  constructor; [apply fetched_shape|].
  constructor; [apply fetched_shape|constructor].
Qed.

(** X2: a reverse pair quoted at zero, consulted because the direct pair is
    not quoted, makes the whole table empty: the division raises and
    [get_top_crypto_prices] returns [pd.DataFrame()], whatever the other
    tickers are. *)
Theorem X2_zero_reverse_price_empties_table
        (all_prices : gmap string float) (cryptos markets : list string)
        (crypto market : string) (q : float) :
  In crypto cryptos -> In market markets -> crypto <> market ->
  (q =? 0)%float = true ->
  (all_prices !! (crypto +:+ market) = None ->
   all_prices !! (market +:+ crypto) = Some q ->
   Fetcher.BinanceFetcher.get_top_crypto_prices all_prices cryptos markets
   = Pandas.empty_frame) /\
  (all_prices !! (crypto +:+ "/" +:+ market) = None ->
   all_prices !! (market +:+ "/" +:+ crypto) = Some q ->
   Fetcher.KrakenFetcher.get_top_crypto_prices all_prices cryptos markets
   = Pandas.empty_frame /\
   Fetcher.BybitFetcher.get_top_crypto_prices all_prices cryptos markets
   = Pandas.empty_frame).
Proof.
  intros Hc Hm Hne Hq.
  split; intros Hd Hr; [|split];
    apply (lookup_raise_empties _ _ _ _ crypto market
                                PyFloat.ZeroDivisionError Hc Hm Hne);
    cbn; rewrite Hd, Hr; cbn; unfold PyFloat.truediv; rewrite Hq;
    reflexivity.
Qed.

Lemma X2_witness :
  Fetcher.BinanceFetcher.get_top_crypto_prices
    (binance_tickers Examples.outage_world) Config.TOP_CRYPTOS Config.MARKETS
  = Pandas.empty_frame.
Proof.
  apply (X2_zero_reverse_price_empties_table
           (binance_tickers Examples.outage_world)
           Config.TOP_CRYPTOS Config.MARKETS "BTC" "USDT" 0%float).
  - left. reflexivity.
  - left. reflexivity.
  - discriminate.
  - reflexivity.
  - vm_compute. reflexivity.
  - vm_compute. reflexivity.
Defined.

(** X3: in the table the Binance fetcher builds, the cell of a symbol and
    a market holds the price of the direct pair when it is quoted, else the
    inverse of the reverse pair's price when that one is quoted, else a
    missing value; a later row or market never overwrites it. *)
Theorem X3_binance_cell
        (all_prices : gmap string float) (cryptos markets : list string)
        (r : Pandas.Row) (market : string) :
  let df :=
    Fetcher.BinanceFetcher.get_top_crypto_prices all_prices cryptos markets in
  In r (Pandas.rows df) -> In market markets -> Pandas.Symbol r <> market ->
  match all_prices !! (Pandas.Symbol r +:+ market),
        all_prices !! (market +:+ Pandas.Symbol r) with
  | Some p, _ => Pandas.at_col df r market = Some (Pandas.F64 p)
  | None, Some q =>
      Pandas.at_col df r market = Some (Pandas.F64 (1 / q)) /\
      (q =? 0)%float = false
  | None, None =>
      exists c, Pandas.at_col df r market = Some c /\ Pandas.isna c = true
  end.
Proof.
  intros df Hr Hm Hne.
  destruct (cell_of_lookup Fetcher.binance_names all_prices cryptos markets
                           r market Hr Hm Hne) as (v & Hv & Hcell).
  cbn in Hv. unfold PyFloat.truediv in Hv.
  destruct (all_prices !! (Pandas.Symbol r +:+ market)) as [p|].
  - injection Hv as <-. exact Hcell.
  - destruct (all_prices !! (market +:+ Pandas.Symbol r)) as [q|].
    + destruct (q =? 0)%float; [discriminate|].
      cbn in Hv. injection Hv as <-. split; [exact Hcell|reflexivity].
    + injection Hv as <-. exact Hcell.
Qed.

Lemma X3_witness :
  let df :=
    Fetcher.BinanceFetcher.get_top_crypto_prices
      (binance_tickers Examples.trade_world)
      Config.TOP_CRYPTOS Config.MARKETS in
  Pandas.at_col df (Examples.btc_row Examples.trade_world).1 "USDT"
  = Some (Pandas.F64 50000).
Proof.
  apply (X3_binance_cell (binance_tickers Examples.trade_world)
                         Config.TOP_CRYPTOS Config.MARKETS
                         (Examples.btc_row Examples.trade_world).1 "USDT").
  - vm_compute. left. reflexivity.
  - left. reflexivity.
  - vm_compute. discriminate.
Defined.

(** X4: the Kraken fetcher tries, in this order, the direct pair, the
    reverse pair (inverted), and the same two with BTC written XBT; the
    cell holds the first one quoted, and a missing value when none is. *)
Theorem X4_kraken_cell
        (all_prices : gmap string float) (cryptos markets : list string)
        (r : Pandas.Row) (market : string) :
  let df :=
    Fetcher.KrakenFetcher.get_top_crypto_prices all_prices cryptos markets in
  let xbt (s : string) := if String.eqb s "BTC" then "XBT" else s in
  let symbol := Pandas.Symbol r in
  In r (Pandas.rows df) -> In market markets -> symbol <> market ->
  match all_prices !! (symbol +:+ "/" +:+ market),
        all_prices !! (market +:+ "/" +:+ symbol),
        all_prices !! (xbt symbol +:+ "/" +:+ xbt market),
        all_prices !! (xbt market +:+ "/" +:+ xbt symbol) with
  | Some p, _, _, _ => Pandas.at_col df r market = Some (Pandas.F64 p)
  | None, Some q, _, _ =>
      Pandas.at_col df r market = Some (Pandas.F64 (1 / q))
  | None, None, Some p, _ =>
      Pandas.at_col df r market = Some (Pandas.F64 p)
  | None, None, None, Some q =>
      Pandas.at_col df r market = Some (Pandas.F64 (1 / q))
  | None, None, None, None =>
      exists c, Pandas.at_col df r market = Some c /\ Pandas.isna c = true
  end.
Proof.
  intros df xbt symbol Hr Hm Hne.
  destruct (cell_of_lookup Fetcher.kraken_names all_prices cryptos markets
                           r market Hr Hm Hne) as (v & Hv & Hcell).
  cbn in Hv. unfold PyFloat.truediv in Hv. fold symbol in Hv.
  change (if String.eqb symbol "BTC" then "XBT" else symbol)
    with (xbt symbol) in Hv.
  change (if String.eqb market "BTC" then "XBT" else market)
    with (xbt market) in Hv.
  destruct (all_prices !! (symbol +:+ "/" +:+ market)) as [p|];
    [injection Hv as <-; exact Hcell|].
  destruct (all_prices !! (market +:+ "/" +:+ symbol)) as [q|].
  { destruct (q =? 0)%float; [discriminate|].
    cbn in Hv. injection Hv as <-. exact Hcell. }
  destruct (all_prices !! (xbt symbol +:+ "/" +:+ xbt market)) as [p|];
    [injection Hv as <-; exact Hcell|].
  destruct (all_prices !! (xbt market +:+ "/" +:+ xbt symbol)) as [q|].
  { destruct (q =? 0)%float; [discriminate|].
    cbn in Hv. injection Hv as <-. exact Hcell. }
  injection Hv as <-. exact Hcell.
Qed.

Lemma X4_witness :
  let df :=
    Fetcher.KrakenFetcher.get_top_crypto_prices
      (kraken_tickers Examples.trade_world)
      Config.TOP_CRYPTOS Config.MARKETS in
  Pandas.at_col df (Examples.btc_row Examples.trade_world).2 "USDT"
  = Some (Pandas.F64 50100).
Proof.
  apply (X4_kraken_cell (kraken_tickers Examples.trade_world)
                        Config.TOP_CRYPTOS Config.MARKETS
                        (Examples.btc_row Examples.trade_world).2 "USDT").
  - vm_compute. left. reflexivity.
  - left. reflexivity.
  - vm_compute. discriminate.
Defined.

(** ** More on binary64 comparisons *)

(** Two specification floats with the same key are the same float, or two
    zeros. *)
Lemma sf_key_inj a b :
  sf_is_nan a = false -> sf_is_nan b = false -> sf_key a = sf_key b ->
  a = b \/ (sf_zero_or_nan a = true /\ sf_zero_or_nan b = true).
Proof.
  destruct a as [[]|[]| |[] ma ea], b as [[]|[]| |[] mb eb];
    cbn; intros _ _ H; try discriminate; auto;
    injection H as H1 H2; left; f_equal; lia.
Qed.

(** Two floats that compare equal are the same float or two zeros. *)
Lemma eqb_true_cases x y :
  (x =? y)%float = true ->
  x = y \/ ((x =? 0)%float = true /\ (y =? 0)%float = true).
Proof.
  intros H. apply eqb_true_iff in H. destruct H as (Hx & Hy & H).
  rewrite is_nan_spec in Hx, Hy.
  assert (Hk : fkey x = fkey y).
  { apply lex3_eq_iff in H. destruct H as (H1 & H2 & H3).
    destruct (fkey x) as [[? ?] ?], (fkey y) as [[? ?] ?]. cbn in *.
    congruence. }
  destruct (sf_key_inj _ _ Hx Hy Hk) as [He|[Hzx Hzy]].
  - left. apply Prim2SF_inj, He.
  - right. rewrite !FloatAxioms.eqb_spec.
    change (Prim2SF 0) with (S754_zero false).
    destruct (Prim2SF x) as [[]|[]| |[] ? ?]; try discriminate;
      destruct (Prim2SF y) as [[]|[]| |[] ? ?]; try discriminate;
      split; reflexivity.
Qed.

(** Below or equal, and not equal: strictly below. *)
Lemma leb_neq_ltb x y :
  (x <=? y)%float = true -> (x =? y)%float = false -> (x <? y)%float = true.
Proof.
  intros Hle Hne. apply leb_true_iff in Hle. destruct Hle as (Hx & Hy & Hle).
  apply ltb_true_iff. repeat split; try assumption.
  destruct (lex3 (fkey x) (fkey y)) eqn:E; [|reflexivity|congruence].
  assert (He : (x =? y)%float = true) by (apply eqb_true_iff; auto).
  congruence.
Qed.

(** NaN goes through division, multiplication and subtraction, and is not
    above zero. *)
Lemma div_nan x y :
  PyFloat.is_nan x = true \/ PyFloat.is_nan y = true ->
  PyFloat.is_nan (x / y) = true.
Proof.
  rewrite !is_nan_spec, div_spec.
  destruct (Prim2SF x), (Prim2SF y); cbn; intros [H|H];
    try discriminate; reflexivity.
Qed.

Lemma mul_nan x y :
  PyFloat.is_nan x = true \/ PyFloat.is_nan y = true ->
  PyFloat.is_nan (x * y) = true.
Proof.
  rewrite !is_nan_spec, mul_spec.
  destruct (Prim2SF x), (Prim2SF y); cbn; intros [H|H];
    try discriminate; reflexivity.
Qed.

Lemma sub_nan x y :
  PyFloat.is_nan x = true \/ PyFloat.is_nan y = true ->
  PyFloat.is_nan (x - y) = true.
Proof.
  rewrite !is_nan_spec, sub_spec.
  destruct (Prim2SF x), (Prim2SF y); cbn; intros [H|H];
    try discriminate; reflexivity.
Qed.

Lemma nan_not_above x y :
  PyFloat.is_nan y = true -> (x <? y)%float = false.
Proof.
  intros Hy. destruct (x <? y)%float eqn:E; [|reflexivity].
  apply ltb_not_nan in E. destruct E. congruence.
Qed.

(** ** More on the returned records *)

(** X5: in every returned record the buy price is strictly below the sell
    price, the gap is strictly above zero, and the two exchanges are
    Binance and Kraken, one each. *)
Theorem X5_strict_prices_distinct_exchanges
        (S : Pandas.SortValues) (now : nat -> float)
        (binance_prices kraken_prices : Pandas.DataFrame)
        (self : ArbitrageCalculator.t) (o : Opportunity.t) :
  In o (ArbitrageCalculator.calculate_arbitrage_opportunities_on
          now binance_prices kraken_prices self).1 ->
  (Opportunity.Buy_Price o <? Opportunity.Sell_Price o)%float = true /\
  (0 <? Opportunity.Price_Diff_Pct o)%float = true /\
  (Opportunity.Buy_Exchange o = "Binance" /\
   Opportunity.Sell_Exchange o = "Kraken"
   \/
   Opportunity.Buy_Exchange o = "Kraken" /\
   Opportunity.Sell_Exchange o = "Binance").
Proof.
  intros Ho. apply returned_scored in Ho.
  destruct Ho as (row & market & _ & _ & bp & kp & _ & _ & Hb & Hk & _
                  & Hz & _ & _ & Hpct & Hpos & Hdir).
  split; [|split; [exact Hpos|]].
  - destruct Hdir as [(Hlt & _ & _ & -> & ->)|(Hlt & _ & _ & -> & ->)];
      [exact Hlt|].
    apply leb_neq_ltb; [apply ltb_false_leb; assumption|].
    destruct (kp =? bp)%float eqn:He; [exfalso|reflexivity].
    apply eqb_true_cases in He. destruct He as [->|[Hzk Hzb]].
    + rewrite Hpct, gap_of_tie in Hpos. discriminate.
    + unfold PyFloat.min in Hz. destruct (kp <? bp)%float; congruence.
  - destruct Hdir as [(_ & -> & -> & _)|(_ & -> & -> & _)]; auto.
Qed.

Lemma X5_witness :
  (Opportunity.Buy_Price Examples.gap_record
   <? Opportunity.Sell_Price Examples.gap_record)%float = true /\
  (0 <? Opportunity.Price_Diff_Pct Examples.gap_record)%float = true /\
  (Opportunity.Buy_Exchange Examples.gap_record = "Binance" /\
   Opportunity.Sell_Exchange Examples.gap_record = "Kraken"
   \/
   Opportunity.Buy_Exchange Examples.gap_record = "Kraken" /\
   Opportunity.Sell_Exchange Examples.gap_record = "Binance").
Proof.
  apply (X5_strict_prices_distinct_exchanges
           stable_sort_values Examples.clock
           (ArbitrageCalculator.fetch_all_prices Examples.gap_world).1
           (ArbitrageCalculator.fetch_all_prices Examples.gap_world).2
           ArbitrageCalculator.init Examples.gap_record).
  vm_compute. left. reflexivity.
Defined.

(** ** One record per symbol and market *)

Section OnePerPair.
Import PyFloat Pandas Config ArbitrageCalculator.
Variable now : nat -> float.
Variables binance_prices kraken_prices : DataFrame.

Lemma score_market_pair row acc market acc' :
  score_market now binance_prices kraken_prices row acc market = Ok acc' ->
  acc' = acc \/
  exists o, acc' = acc ++ [o] /\ pair_of o = (Symbol row.1, market).
Proof.
  intros H. destruct (score_market_ok _ _ _ _ _ _ _ H)
    as [->|(o & -> & Ho & _)]; [auto|].
  right. exists o. split; [reflexivity|].
  destruct Ho as (bp & kp & _ & _ & _ & _ & _ & _ & Hs & Hm & _).
  unfold pair_of. congruence.
Qed.

(** The loop over the markets, for one row: what it appends is about the
    row's symbol and distinct markets of the list. *)
Lemma score_markets_pairs row markets acc acc' :
  List.NoDup markets ->
  for_each (score_market now binance_prices kraken_prices row) markets acc
  = Ok acc' ->
  exists new,
    acc' = acc ++ new /\ List.NoDup (map pair_of new) /\
    (forall o, In o new ->
               Opportunity.Symbol o = Symbol row.1 /\
               In (Opportunity.Market o) markets).
Proof.
  intros Hnd. revert acc.
  induction markets as [|m ms IH]; intros acc; cbn.
  - intros [= <-]. exists []. rewrite app_nil_r.
    split; [reflexivity|]. split; [constructor|]. intros o [].
  - destruct (score_market now binance_prices kraken_prices row acc m)
      as [acc1|e] eqn:E; [|discriminate].
    apply List.NoDup_cons_iff in Hnd. destruct Hnd as [Hm Hnd].
    intros Hrun. destruct (IH Hnd _ Hrun) as (new & -> & Hnew & Hin).
    destruct (score_market_pair _ _ _ _ E) as [->|(o & -> & Ho)].
    + exists new. split; [reflexivity|]. split; [exact Hnew|].
      intros o Ho. destruct (Hin o Ho). split; [|right]; assumption.
    + exists (o :: new). rewrite <- app_assoc. split; [reflexivity|].
      split.
      * cbn. constructor; [|exact Hnew].
        rewrite in_map_iff. intros (o' & Heq & Ho').
        rewrite Ho in Heq. unfold pair_of in Heq. injection Heq as _ Hmk.
        apply Hm. rewrite <- Hmk. apply Hin, Ho'.
      * unfold pair_of in Ho. injection Ho as Hs Hmk.
        intros o' [<-|Ho']; [auto|].
        destruct (Hin o' Ho'); auto.
Qed.

(** The loop over the merged rows: with one row per symbol, what it
    appends has one record per symbol and market. *)
Lemma score_rows_pairs merged_df acc acc' :
  List.NoDup MARKETS ->
  List.NoDup (map (fun row : Row * Row => Symbol row.1) merged_df) ->
  for_each
    (fun opportunities row =>
       for_each (score_market now binance_prices kraken_prices row)
                MARKETS opportunities)
    merged_df acc = Ok acc' ->
  exists new,
    acc' = acc ++ new /\ List.NoDup (map pair_of new) /\
    (forall o, In o new ->
               In (Opportunity.Symbol o)
                  (map (fun row : Row * Row => Symbol row.1) merged_df) /\
               In (Opportunity.Market o) MARKETS).
Proof.
  intros Hmk. revert acc.
  induction merged_df as [|row rows IH]; intros acc Hnd; cbn [for_each].
  - intros [= <-]. exists []. rewrite app_nil_r.
    split; [reflexivity|]. split; [constructor|]. intros o [].
  - destruct (for_each _ MARKETS acc) as [acc1|e] eqn:E; [|discriminate].
    cbn in Hnd. apply List.NoDup_cons_iff in Hnd. destruct Hnd as [Hs Hnd].
    intros Hrun. destruct (IH _ Hnd Hrun) as (new & -> & Hnew & Hin).
    destruct (score_markets_pairs _ _ _ _ Hmk E) as (new1 & -> & Hnew1 & Hin1).
    exists (new1 ++ new). rewrite <- app_assoc. split; [reflexivity|].
    split.
    + rewrite map_app. apply List.NoDup_app; [exact Hnew1|exact Hnew|].
      intros p Hp1 Hp. apply in_map_iff in Hp1, Hp.
      destruct Hp1 as (o1 & <- & Ho1). destruct Hp as (o & Heq & Ho).
      unfold pair_of in Heq. injection Heq as Hsym _.
      apply Hs. destruct (Hin1 o1 Ho1) as [<- _]. rewrite <- Hsym.
      apply Hin, Ho.
    + intros o Ho. apply in_app_or in Ho. destruct Ho as [Ho|Ho].
      * destruct (Hin1 o Ho) as [-> ?]. split; [left; reflexivity|auto].
      * destruct (Hin o Ho). split; [right|]; auto.
Qed.
End OnePerPair.

(** Joining two tables with one row per symbol gives one row per symbol,
    each symbol being one of the left table. *)
Lemma merge_symbols_NoDup (left right : Pandas.DataFrame) :
  List.NoDup (map Pandas.Symbol (Pandas.rows left)) ->
  List.NoDup (map Pandas.Symbol (Pandas.rows right)) ->
  List.NoDup (map (fun row : Pandas.Row * Pandas.Row => Pandas.Symbol row.1)
             (Pandas.merge left right)).
Proof.
  unfold Pandas.merge. intros Hl Hr.
  induction (Pandas.rows left) as [|l ls IH]; cbn; [constructor|].
  cbn in Hl. apply List.NoDup_cons_iff in Hl. destruct Hl as [Hl Hls].
  rewrite map_app. apply List.NoDup_app; [|apply IH, Hls|].
  - rewrite map_map. cbn. clear -Hr.
    induction (Pandas.rows right) as [|r rs IHr]; cbn; [constructor|].
    cbn in Hr. apply List.NoDup_cons_iff in Hr. destruct Hr as [Hr Hrs].
    destruct (String.eqb_spec (Pandas.Symbol l) (Pandas.Symbol r))
      as [He|_]; [|apply IHr, Hrs].
    cbn. constructor; [|apply IHr, Hrs].
    rewrite in_map_iff. intros (r' & _ & Hr').
    apply filter_In in Hr'. destruct Hr' as [Hr' He'].
    apply String.eqb_eq in He'. apply Hr. rewrite <- He, He'.
    apply in_map, Hr'.
  - intros s Hs1 Hs2. rewrite map_map in Hs1. cbn in Hs1.
    apply in_map_iff in Hs1. destruct Hs1 as (r & <- & _).
    apply in_map_iff in Hs2. destruct Hs2 as (row & Hrow & Hin).
    apply in_flat_map in Hin. destruct Hin as (l' & Hl' & Hin).
    apply in_map_iff in Hin. destruct Hin as (r' & <- & _). cbn in Hrow.
    apply Hl. rewrite <- Hrow. apply in_map, Hl'.
Qed.

Lemma merge_symbols_left (left right : Pandas.DataFrame) (s : string) :
  In s (map (fun row : Pandas.Row * Pandas.Row => Pandas.Symbol row.1)
            (Pandas.merge left right)) ->
  In s (map Pandas.Symbol (Pandas.rows left)).
Proof.
  intros H. apply in_map_iff in H. destruct H as (row & <- & Hrow).
  apply merge_In in Hrow. apply in_map. tauto.
Qed.

Lemma TOP_CRYPTOS_NoDup : List.NoDup Config.TOP_CRYPTOS.
Proof.
  unfold Config.TOP_CRYPTOS.
  repeat (constructor; [cbn; intuition discriminate|]). constructor.
Qed.

Lemma MARKETS_NoDup : List.NoDup Config.MARKETS.
Proof.
  unfold Config.MARKETS.
  repeat (constructor; [cbn; intuition discriminate|]). constructor.
Qed.

(** The rows of a fetched table carry distinct symbols, all of them tracked
    cryptos. *)
Lemma fetched_symbols names (all_prices : gmap string float) :
  List.NoDup (map Pandas.Symbol
             (Pandas.rows (Fetcher.get_top_crypto_prices
                             names all_prices
                             Config.TOP_CRYPTOS Config.MARKETS))) /\
  (forall s,
      In s (map Pandas.Symbol
                (Pandas.rows (Fetcher.get_top_crypto_prices
                                names all_prices
                                Config.TOP_CRYPTOS Config.MARKETS))) ->
      In s Config.TOP_CRYPTOS).
Proof.
  destruct (fetched_shape names all_prices Config.TOP_CRYPTOS Config.MARKETS)
    as [[->| ->] _].
  - split; [constructor|intros s []].
  - split; [apply TOP_CRYPTOS_NoDup|auto].
Qed.

(** X6: whatever the two exchanges answer, the returned table has at most
    one record per symbol and market, every record is about a tracked
    crypto and a configured market different from it, and so there are at
    most 19 records. *)
Theorem X6_one_record_per_pair
        (S : Pandas.SortValues) (w : World) (self : ArbitrageCalculator.t) :
  let out :=
    (ArbitrageCalculator.calculate_arbitrage_opportunities w self).1 in
  List.NoDup (map pair_of out) /\
  (forall o, In o out ->
             In (Opportunity.Symbol o) Config.TOP_CRYPTOS /\
             In (Opportunity.Market o) Config.MARKETS /\
             Opportunity.Symbol o <> Opportunity.Market o) /\
  length out <= 19.
Proof.
  cbv zeta. unfold ArbitrageCalculator.calculate_arbitrage_opportunities.
  unfold ArbitrageCalculator.fetch_all_prices.
  set (b := Fetcher.BinanceFetcher.get_top_crypto_prices _ _ _).
  set (k := Fetcher.KrakenFetcher.get_top_crypto_prices _ _ _).
  destruct (ArbitrageCalculator.calculate_arbitrage_opportunities_on
              (time_time w) b k self) as [out self'] eqn:E.
  cbn [fst].
  assert (Hnd : List.NoDup (map pair_of out) /\
                forall o, In o out ->
                          In (Opportunity.Symbol o) Config.TOP_CRYPTOS /\
                          In (Opportunity.Market o) Config.MARKETS).
  { destruct (calculate_cases _ _ _ _ _ _ E)
      as [[-> _]|(opps & best & rest & _ & _ & Hscan & _ & Hout & _)].
    { split; [constructor|intros o []]. }
    unfold ArbitrageCalculator.score_rows in Hscan.
    apply score_rows_pairs in Hscan;
      [|apply MARKETS_NoDup
       |apply merge_symbols_NoDup; apply fetched_symbols].
    destruct Hscan as (new & Hnew & Hnd & Hin). cbn in Hnew. subst new.
    assert (Hp : Permutation opps out)
      by (rewrite Hout; apply Pandas.sort_values_perm).
    split.
    - eapply Permutation_NoDup; [apply Permutation_map, Hp|exact Hnd].
    - intros o Ho. apply (Permutation_in _ (Permutation_sym Hp)) in Ho.
      destruct (Hin o Ho) as [Hs Hm]. split; [|exact Hm].
      apply merge_symbols_left in Hs.
      destruct (fetched_symbols Fetcher.binance_names (binance_tickers w))
        as [_ Htop].
      apply Htop, Hs. }
  destruct Hnd as [Hnd Hin].
  assert (Hne : forall o, In o out ->
                          Opportunity.Symbol o <> Opportunity.Market o).
  { intros o Ho.
    assert (Ho' : In o (ArbitrageCalculator.calculate_arbitrage_opportunities_on
                          (time_time w) b k self).1)
      by (rewrite E; exact Ho).
    apply returned_scored in Ho'.
    destruct Ho' as (row & market & _ & _ & bp & kp & _ & _ & _ & _ & Hne
                     & _ & Hs & Hm & _).
    rewrite Hs, Hm. exact Hne. }
  split; [exact Hnd|]. split.
  - intros o Ho. destruct (Hin o Ho). auto.
  - rewrite <- (length_map pair_of).
    change 19 with
      (length (List.filter
                 (fun p : string * string => negb (String.eqb p.1 p.2))
                 (list_prod Config.TOP_CRYPTOS Config.MARKETS))).
    apply NoDup_incl_length; [exact Hnd|].
    intros p Hp. apply in_map_iff in Hp. destruct Hp as (o & <- & Ho).
    apply filter_In. destruct (Hin o Ho) as [Hs Hm]. split.
    + apply in_prod; assumption.
    + cbn. apply negb_true_iff, String.eqb_neq, Hne, Ho.
Qed.

(** X7: one pair whose prices are both present and whose smaller price is
    zero makes the whole call return nothing and leaves the stored last
    opportunity alone, whatever the other pairs show. *)
Theorem X7_zero_price_aborts_the_scan
        (S : Pandas.SortValues) (now : nat -> float)
        (binance_prices kraken_prices : Pandas.DataFrame)
        (self : ArbitrageCalculator.t)
        (row : Pandas.Row * Pandas.Row) (market : string) (bp kp : float) :
  In row (Pandas.merge binance_prices kraken_prices) ->
  In market Config.MARKETS ->
  Pandas.Symbol row.1 <> market ->
  Pandas.get_left binance_prices kraken_prices row market = Pandas.F64 bp ->
  Pandas.get_right binance_prices kraken_prices row market = Pandas.F64 kp ->
  PyFloat.is_nan bp = false -> PyFloat.is_nan kp = false ->
  (PyFloat.min bp kp =? 0)%float = true ->
  ArbitrageCalculator.calculate_arbitrage_opportunities_on
    now binance_prices kraken_prices self = ([], self).
Proof.
  intros Hrow Hm Hsym Hl Hr Hb Hk Hz.
  destruct (ArbitrageCalculator.score_rows
              now binance_prices kraken_prices
              (Pandas.merge binance_prices kraken_prices))
    as [opps|e] eqn:Hscan.
  - assert (Hok : scan_succeeds now binance_prices kraken_prices)
      by (exists opps; exact Hscan).
    rewrite scan_succeeds_iff_no_zero_price in Hok.
    rewrite (Hok row market bp kp) in Hz by assumption. discriminate.
  - eapply returned_nothing_on_raise, Hscan.
Qed.

Lemma X7_witness :
  ArbitrageCalculator.calculate_arbitrage_opportunities_on
    (S := stable_sort_values) Examples.clock
    (ArbitrageCalculator.fetch_all_prices Examples.zero_price_world).1
    (ArbitrageCalculator.fetch_all_prices Examples.zero_price_world).2
    Examples.seen
  = ([], Examples.seen).
Proof.
  apply (X7_zero_price_aborts_the_scan
           stable_sort_values Examples.clock
           (ArbitrageCalculator.fetch_all_prices Examples.zero_price_world).1
           (ArbitrageCalculator.fetch_all_prices Examples.zero_price_world).2
           Examples.seen
           (Examples.btc_row Examples.zero_price_world) "USDT"
           0%float 100%float).
  - vm_compute. left. reflexivity.
  - left. reflexivity.
  - vm_compute. discriminate.
  - vm_compute. reflexivity.
  - vm_compute. reflexivity.
  - reflexivity.
  - reflexivity.
  - reflexivity.
Defined.

(** X8: over any sequence of calls, the stored last opportunity is the
    first record of the latest call that returned records, and what it was
    before when no call did: every non-empty result overwrites it, an empty
    one keeps it. *)
Theorem X8_last_opportunity_lifecycle
        (S : Pandas.SortValues) (ws : list World)
        (self : ArbitrageCalculator.t) :
  ArbitrageCalculator.get_last_opportunity (run_cycles ws self).2
  = fold_left
      (fun last out =>
         match out with
         | best :: _ => Some best
         | [] => last
         end)
      (run_cycles ws self).1
      (ArbitrageCalculator.get_last_opportunity self).
Proof.
  revert self. induction ws as [|w ws IH]; intros self; [reflexivity|].
  cbn [run_cycles].
  pose proof (calculate_world_state S w self) as Hw.
  destruct (ArbitrageCalculator.calculate_arbitrage_opportunities w self)
    as [out self1].
  specialize (IH self1).
  destruct (run_cycles ws self1) as [outs self2].
  cbn [fst snd fold_left] in *. rewrite IH. f_equal.
  destruct out as [|best rest].
  - rewrite Hw. reflexivity.
  - unfold ArbitrageCalculator.get_last_opportunity. rewrite Hw. reflexivity.
Qed.

(** X9: the records of a result carry the first clock readings of the
    call, one reading per record: a record is stamped when it is appended,
    before the sort. *)
Theorem X9_timestamps_are_the_first_readings
        (S : Pandas.SortValues) (now : nat -> float)
        (binance_prices kraken_prices : Pandas.DataFrame)
        (self : ArbitrageCalculator.t) :
  let out := (ArbitrageCalculator.calculate_arbitrage_opportunities_on
                now binance_prices kraken_prices self).1 in
  Permutation (map Opportunity.Timestamp out)
              (map now (seq 0 (length out))).
Proof.
  cbv zeta.
  destruct (ArbitrageCalculator.calculate_arbitrage_opportunities_on
              now binance_prices kraken_prices self) as [out self'] eqn:E.
  cbn [fst].
  destruct (calculate_cases _ _ _ _ _ _ E)
    as [[-> _]|(opps & best & rest & _ & _ & Hscan & _ & Hout & _)];
    [reflexivity|].
  assert (Hstamps : map Opportunity.Timestamp opps
                    = map now (seq 0 (length opps))).
  { revert Hscan. unfold ArbitrageCalculator.score_rows.
    set (stamped := fun acc : list Opportunity.t =>
                      map Opportunity.Timestamp acc
                      = map now (seq 0 (length acc))).
    apply (for_each_inv _ stamped); [|reflexivity].
    intros acc row acc' _ Hacc. apply (for_each_inv _ stamped); [|exact Hacc].
    unfold stamped. intros acc1 market acc2 _ Hacc1 Hstep.
    destruct (score_market_ok _ _ _ _ _ _ _ Hstep) as [->|(o & -> & _ & Ho)];
      [exact Hacc1|].
    rewrite map_app, length_app, Nat.add_1_r, seq_S, map_app, Hacc1.
    cbn. rewrite Ho. reflexivity. }
  assert (Hp : Permutation opps out)
    by (rewrite Hout; apply Pandas.sort_values_perm).
  rewrite <- (Permutation_length Hp), <- Hstamps.
  apply Permutation_map, Permutation_sym, Hp.
Qed.

(** ** The screener and the scorer on the same tables *)

Section ScreenerRows.
Import PyFloat Pandas ArbitrageCalculator.
Context {S : SortValues}.
Variables binance_prices kraken_prices : DataFrame.

(** A merged row with both USDT prices present and one of them below 1 is
    in the screener's result. *)
Lemma row_gives_gainer row bp kp :
  In row (merge binance_prices kraken_prices) ->
  get_left binance_prices kraken_prices row "USDT" = F64 bp ->
  get_right binance_prices kraken_prices row "USDT" = F64 kp ->
  is_nan bp = false -> is_nan kp = false ->
  (bp <? 1)%float = true \/ (kp <? 1)%float = true ->
  In {| LowPriceGainer.Symbol := Symbol row.1;
        LowPriceGainer.Binance_Price := bp;
        LowPriceGainer.Kraken_Price := kp;
        LowPriceGainer.Price_Diff_Pct :=
          (PrimFloat.abs (bp - kp) / row_min bp kp * 100)%float;
        LowPriceGainer.Avg_Price := row_mean bp kp |}
     (get_low_price_gainers_on binance_prices kraken_prices).
Proof.
  intros Hrow Hl Hr Hb Hk Hlt.
  destruct (merge_nonempty _ _ _ Hrow) as [Hbe Hke].
  assert (Hhas : merged_has binance_prices kraken_prices "USDT" = true).
  { unfold get_left in Hl.
    destruct (merged_has binance_prices kraken_prices "USDT");
      [reflexivity|discriminate]. }
  unfold get_low_price_gainers_on. rewrite Hbe, Hke, Hhas. cbn [orb negb].
  cbv zeta.
  match goal with
  | |- context [match ?l with [] => [] | _ :: _ => _ end] =>
      set (low := l)
  end.
  assert (Hlow : In row low).
  { apply filter_In. split; [exact Hrow|].
    rewrite Hl, Hr. cbn [lt_one isna]. rewrite Hb, Hk.
    destruct Hlt as [-> | ->]; rewrite ?orb_true_r; reflexivity. }
  destruct low as [|r0 low'] eqn:Elow; [destruct Hlow|].
  eapply Permutation_in; [apply sort_values_perm|].
  apply in_map_iff. exists row. split; [|exact Hlow].
  rewrite Hl, Hr. reflexivity.
Qed.
End ScreenerRows.

(** X10: a returned opportunity in the USDT market whose buy price is below
    1 is also a row of [get_low_price_gainers] on the same tables, with the
    same two prices and the same [Price_Diff_Pct]. *)
Theorem X10_cheap_opportunity_is_a_gainer
        (S : Pandas.SortValues) (now : nat -> float)
        (binance_prices kraken_prices : Pandas.DataFrame)
        (self : ArbitrageCalculator.t) (o : Opportunity.t) :
  In o (ArbitrageCalculator.calculate_arbitrage_opportunities_on
          now binance_prices kraken_prices self).1 ->
  Opportunity.Market o = "USDT" ->
  (Opportunity.Buy_Price o <? 1)%float = true ->
  exists g,
    In g (ArbitrageCalculator.get_low_price_gainers_on
            binance_prices kraken_prices) /\
    LowPriceGainer.Symbol g = Opportunity.Symbol o /\
    LowPriceGainer.Price_Diff_Pct g = Opportunity.Price_Diff_Pct o /\
    (Opportunity.Buy_Exchange o = "Binance" /\
     LowPriceGainer.Binance_Price g = Opportunity.Buy_Price o /\
     LowPriceGainer.Kraken_Price g = Opportunity.Sell_Price o
     \/
     Opportunity.Buy_Exchange o = "Kraken" /\
     LowPriceGainer.Kraken_Price g = Opportunity.Buy_Price o /\
     LowPriceGainer.Binance_Price g = Opportunity.Sell_Price o).
Proof.
  intros Ho Hmk Hcheap. apply returned_scored in Ho.
  destruct Ho as (row & market & Hrow & _ & bp & kp & Hl & Hr & Hb & Hk & _
                  & _ & Hs & Hm & Hpct & _ & Hdir).
  rewrite Hmk in Hm. subst market.
  assert (Hlt : (bp <? 1)%float = true \/ (kp <? 1)%float = true).
  { destruct Hdir as [(_ & _ & _ & Hbuy & _)|(_ & _ & _ & Hbuy & _)];
      rewrite Hbuy in Hcheap; auto. }
  eexists. split; [exact (row_gives_gainer _ _ row bp kp Hrow Hl Hr Hb Hk Hlt)|].
  cbn. split; [symmetry; exact Hs|]. split.
  - rewrite Hpct, (row_min_is_min _ _ Hb Hk). reflexivity.
  - destruct Hdir as [(_ & He & _ & Hbuy & Hsell)|(_ & He & _ & Hbuy & Hsell)];
      [left|right]; auto.
Qed.

Lemma X10_witness :
  exists g,
    In g (ArbitrageCalculator.get_low_price_gainers_on
            (S := stable_sort_values)
            (ArbitrageCalculator.fetch_all_prices Examples.low_price_world).1
            (ArbitrageCalculator.fetch_all_prices Examples.low_price_world).2)
    /\ LowPriceGainer.Symbol g = "XRP"
    /\ LowPriceGainer.Price_Diff_Pct g = 100%float
    /\ ("Kraken" = "Binance" /\
        LowPriceGainer.Binance_Price g = 0.25%float /\
        LowPriceGainer.Kraken_Price g = 0.5%float
        \/
        "Kraken" = "Kraken" /\
        LowPriceGainer.Kraken_Price g = 0.25%float /\
        LowPriceGainer.Binance_Price g = 0.5%float).
Proof.
  apply (X10_cheap_opportunity_is_a_gainer
           stable_sort_values Examples.clock
           (ArbitrageCalculator.fetch_all_prices Examples.low_price_world).1
           (ArbitrageCalculator.fetch_all_prices Examples.low_price_world).2
           ArbitrageCalculator.init
           {| Opportunity.Symbol := "XRP";
              Opportunity.Market := "USDT";
              Opportunity.Buy_Exchange := "Kraken";
              Opportunity.Sell_Exchange := "Binance";
              Opportunity.Buy_Price := 0.25;
              Opportunity.Sell_Price := 0.5;
              Opportunity.Price_Diff_Pct := 100;
              Opportunity.Timestamp := 1700000000 |}).
  - vm_compute. left. reflexivity.
  - reflexivity.
  - reflexivity.
Defined.

(** ** More on the trade simulator *)

(** X11: a record computed from a NaN price, or a NaN amount, has a NaN
    profit and a NaN profit percentage and is never flagged profitable. *)
Theorem X11_nan_is_never_profitable
        (binance_prices kraken_prices : Pandas.DataFrame)
        (symbol market : string) (amount : float)
        (buy_exchange sell_exchange : string) (r : TradeSimulation.t) :
  ArbitrageCalculator.calculate_trade_profit_on
    binance_prices kraken_prices
    symbol market amount buy_exchange sell_exchange = Some r ->
  PyFloat.is_nan (TradeSimulation.buy_price r) = true \/
  PyFloat.is_nan (TradeSimulation.sell_price r) = true \/
  PyFloat.is_nan amount = true ->
  PyFloat.is_nan (TradeSimulation.profit r) = true /\
  PyFloat.is_nan (TradeSimulation.profit_percentage r) = true /\
  TradeSimulation.profitable r = false.
Proof.
  intros Hr Hnan. apply trade_profit_some in Hr.
  destruct Hr as (cb & ck & pb & ps & _ & _ & _ & _ & ->). cbn in *.
  assert (Hprofit : PyFloat.is_nan (amount / pb * ps - amount) = true).
  { destruct Hnan as [H|[H|H]].
    - apply sub_nan. left. apply mul_nan. left. apply div_nan. auto.
    - apply sub_nan. left. apply mul_nan. auto.
    - apply sub_nan. auto. }
  split; [exact Hprofit|]. split.
  - apply mul_nan. left. apply div_nan. auto.
  - apply nan_not_above, Hprofit.
Qed.

Lemma X11_witness :
  PyFloat.is_nan nan = true /\ PyFloat.is_nan nan = true /\ false = false.
Proof.
  apply (X11_nan_is_never_profitable
           (ArbitrageCalculator.fetch_all_prices Examples.trade_world).1
           (ArbitrageCalculator.fetch_all_prices Examples.trade_world).2
           "BNB" "USDT" 100%float "Binance" "Kraken"
           {| TradeSimulation.symbol := "BNB";
              TradeSimulation.market := "USDT";
              TradeSimulation.initial_investment := 100;
              TradeSimulation.buy_exchange := "Binance";
              TradeSimulation.buy_price := 600;
              TradeSimulation.crypto_amount := (100 / 600)%float;
              TradeSimulation.sell_exchange := "Kraken";
              TradeSimulation.sell_price := nan;
              TradeSimulation.sell_amount := nan;
              TradeSimulation.final_amount := nan;
              TradeSimulation.profit := nan;
              TradeSimulation.profit_percentage := nan;
              TradeSimulation.profitable := false |}).
  - vm_compute. reflexivity.
  - right. left. reflexivity.
Defined.

(** A NaN price on either side leaves a profit that is not above zero. *)
Lemma nan_price_not_profitable (amount buy_price sell_price : float) :
  PyFloat.is_nan buy_price = true \/ PyFloat.is_nan sell_price = true ->
  (0 <? amount / buy_price * sell_price - amount)%float = false.
Proof.
  intros H. apply nan_not_above. apply sub_nan. left. apply mul_nan.
  destruct H as [H|H]; [left; apply div_nan|]; auto.
Qed.

(** X12: the trade the dashboard simulates always sells on the exchange it
    does not buy on.  When a record comes back, neither table holds [None]
    for the coin and market: the buy price is the value of Binance's table
    and the sell price the value of Kraken's when buying on Binance, the
    other way round otherwise.  Either value may still be NaN, the cell of
    a pair the exchange does not quote; a record flagged profitable has a
    real number on both sides. *)
Theorem X12_dashboard_trade_uses_both_exchanges
        (w : World) (selected_coin selected_market : string)
        (trade_amount : float) (buy_exchange : string)
        (r : TradeSimulation.t) :
  App.trade_result w selected_coin selected_market trade_amount buy_exchange
  = Some r ->
  let b := (ArbitrageCalculator.fetch_all_prices w).1 in
  let k := (ArbitrageCalculator.fetch_all_prices w).2 in
  TradeSimulation.buy_exchange r = buy_exchange /\
  TradeSimulation.sell_exchange r = App.sell_exchange buy_exchange /\
  TradeSimulation.sell_exchange r <> TradeSimulation.buy_exchange r /\
  (buy_exchange = "Binance" /\
   ArbitrageCalculator.price_of b selected_coin selected_market
   = PyFloat.Ok (Pandas.F64 (TradeSimulation.buy_price r)) /\
   ArbitrageCalculator.price_of k selected_coin selected_market
   = PyFloat.Ok (Pandas.F64 (TradeSimulation.sell_price r))
   \/
   buy_exchange <> "Binance" /\
   ArbitrageCalculator.price_of k selected_coin selected_market
   = PyFloat.Ok (Pandas.F64 (TradeSimulation.buy_price r)) /\
   ArbitrageCalculator.price_of b selected_coin selected_market
   = PyFloat.Ok (Pandas.F64 (TradeSimulation.sell_price r))) /\
  (TradeSimulation.profitable r = true ->
   PyFloat.is_nan (TradeSimulation.buy_price r) = false /\
   PyFloat.is_nan (TradeSimulation.sell_price r) = false).
Proof.
  unfold App.trade_result, ArbitrageCalculator.calculate_trade_profit.
  destruct (ArbitrageCalculator.fetch_all_prices w) as [b k]. cbn [fst snd].
  intros Hr. apply trade_profit_some in Hr.
  destruct Hr as (cb & ck & pb & ps & Hcb & Hck & Hbuy & Hsell & ->).
  cbn. unfold App.sell_exchange in *.
  assert (Hreal : (0 <? trade_amount / pb * ps - trade_amount)%float = true ->
                  PyFloat.is_nan pb = false /\ PyFloat.is_nan ps = false).
  { intros Hpos.
    destruct (PyFloat.is_nan pb) eqn:Eb.
    - rewrite (nan_price_not_profitable trade_amount pb ps) in Hpos by auto.
      discriminate.
    - destruct (PyFloat.is_nan ps) eqn:Es; [|auto].
      rewrite (nan_price_not_profitable trade_amount pb ps) in Hpos by auto.
      discriminate. }
  destruct (String.eqb_spec buy_exchange "Binance") as [->|Hne].
  - cbn in Hsell. subst cb ck.
    repeat split; [discriminate| |apply Hreal; assumption..]. left. auto.
  - cbn in Hsell. subst cb ck.
    repeat split; [congruence| |apply Hreal; assumption..]. right. auto.
Qed.

Lemma X12_witness :
  let b := (ArbitrageCalculator.fetch_all_prices Examples.trade_world).1 in
  let k := (ArbitrageCalculator.fetch_all_prices Examples.trade_world).2 in
  "Binance" = "Binance" /\
  "Kraken" = App.sell_exchange "Binance" /\
  "Kraken" <> "Binance" /\
  ("Binance" = "Binance" /\
   ArbitrageCalculator.price_of b "BTC" "USDT"
   = PyFloat.Ok (Pandas.F64 50000) /\
   ArbitrageCalculator.price_of k "BTC" "USDT"
   = PyFloat.Ok (Pandas.F64 50100)
   \/
   "Binance" <> "Binance" /\
   ArbitrageCalculator.price_of k "BTC" "USDT"
   = PyFloat.Ok (Pandas.F64 50000) /\
   ArbitrageCalculator.price_of b "BTC" "USDT"
   = PyFloat.Ok (Pandas.F64 50100)) /\
  (true = true ->
   PyFloat.is_nan 50000 = false /\ PyFloat.is_nan 50100 = false).
Proof.
  apply (X12_dashboard_trade_uses_both_exchanges
           Examples.trade_world "BTC" "USDT" 100%float "Binance"
           {| TradeSimulation.symbol := "BTC";
              TradeSimulation.market := "USDT";
              TradeSimulation.initial_investment := 100;
              TradeSimulation.buy_exchange := "Binance";
              TradeSimulation.buy_price := 50000;
              TradeSimulation.crypto_amount := 0.002;
              TradeSimulation.sell_exchange := "Kraken";
              TradeSimulation.sell_price := 50100;
              TradeSimulation.sell_amount := 100.2;
              TradeSimulation.final_amount := 100.2;
              TradeSimulation.profit := 0.20000000000000284;
              TradeSimulation.profit_percentage := 0.20000000000000281;
              TradeSimulation.profitable := true |}).
  vm_compute. reflexivity.
Defined.

(** X13: an unknown coin or an unconfigured market never gives a trade
    record: the lookup fails in the fetched tables, whatever the exchanges
    answered, and the empty result comes back. *)
Theorem X13_untracked_coin_or_market_gives_nothing
        (w : World) (symbol market : string) (amount : float)
        (buy_exchange sell_exchange : string) :
  ~ In symbol Config.TOP_CRYPTOS \/ ~ In market Config.MARKETS ->
  ArbitrageCalculator.calculate_trade_profit
    w symbol market amount buy_exchange sell_exchange = None.
Proof.
  intros H.
  unfold ArbitrageCalculator.calculate_trade_profit,
    ArbitrageCalculator.fetch_all_prices.
  apply trade_profit_unresolved. destruct H as [H|H].
  - left. intros r Hr Heq. apply H.
    destruct (fetched_symbols Fetcher.binance_names (binance_tickers w))
      as [_ Htop].
    apply Htop. rewrite <- Heq. apply in_map, Hr.
  - right. right. left.
    match goal with
    | |- ?lhs = None => destruct lhs as [d|] eqn:E; [|reflexivity]
    end.
    exfalso. apply H. apply assoc_Some_key in E.
    apply (fetched_shape Fetcher.binance_names (binance_tickers w)
                         Config.TOP_CRYPTOS Config.MARKETS).
    exact E.
Qed.

Lemma X13_witness :
  ArbitrageCalculator.calculate_trade_profit
    Examples.trade_world "LUNA" "USDT" 100%float "Binance" "Kraken" = None.
Proof.
  apply (X13_untracked_coin_or_market_gives_nothing
           Examples.trade_world "LUNA" "USDT" 100%float "Binance" "Kraken").
  left. cbn. intros H. repeat (destruct H as [H|H]; [discriminate|]).
  exact H.
Defined.

(** ** The pair Kraken's detail page settles on *)

Section KrakenPair.
Import Fetcher.KrakenFetcher.
Variable fetch_ticker : nat -> string -> bool.

(** One loop over the market alternatives makes its [i]-th call on the
    [i]-th pair and stops at the first one answered. *)
Lemma first_pair_spec base market_alternatives calls :
  let tried := map (fun m => base +:+ "/" +:+ m) market_alternatives in
  match first_pair fetch_ticker calls base market_alternatives with
  | (Some found, _) =>
      exists n,
        nth_error tried n = Some found /\
        fetch_ticker (calls + n) found = true /\
        forall i c, i < n -> nth_error tried i = Some c ->
                    fetch_ticker (calls + i) c = false
  | (None, calls') =>
      calls' = calls + length market_alternatives /\
      forall i c, nth_error tried i = Some c ->
                  fetch_ticker (calls + i) c = false
  end.
Proof.
  cbv zeta. revert calls.
  induction market_alternatives as [|m rest IH]; intros calls; cbn.
  - split; [lia|]. intros [|i] c; discriminate.
  - destruct (fetch_ticker calls (base +:+ "/" +:+ m)) eqn:E.
    + exists 0. cbn. rewrite Nat.add_0_r. split; [reflexivity|].
      split; [exact E|]. intros i c Hi. lia.
    + specialize (IH (S calls)).
      destruct (first_pair fetch_ticker (S calls) base rest)
        as [[found|] calls'].
      * destruct IH as (n & Hn & Hf & Hlt). exists (S n).
        split; [exact Hn|]. split.
        { rewrite Nat.add_succ_r. exact Hf. }
        intros [|i] c Hi Hc; cbn in Hc.
        { injection Hc as <-. rewrite Nat.add_0_r. exact E. }
        rewrite Nat.add_succ_r. apply Hlt; [lia|exact Hc].
      * destruct IH as [-> Hall]. split; [lia|].
        intros [|i] c Hc; cbn in Hc.
        { injection Hc as <-. rewrite Nat.add_0_r. exact E. }
        rewrite Nat.add_succ_r. apply Hall. exact Hc.
Qed.
End KrakenPair.

Lemma nth_error_app_l {A : Type} (l1 l2 : list A) (i : nat) (x : A) :
  nth_error l1 i = Some x -> nth_error (l1 ++ l2) i = Some x.
Proof.
  revert i. induction l1 as [|y l1 IH]; intros [|i]; cbn;
    try discriminate; auto.
Qed.

Lemma nth_error_app_r {A : Type} (l1 l2 : list A) (i : nat) :
  nth_error (l1 ++ l2) (length l1 + i) = nth_error l2 i.
Proof. induction l1 as [|y l1 IH]; cbn; auto. Qed.

Lemma nth_error_app_cases {A : Type} (l1 l2 : list A) (i : nat) (x : A) :
  nth_error (l1 ++ l2) i = Some x ->
  nth_error l1 i = Some x \/
  exists j, i = length l1 + j /\ nth_error l2 j = Some x.
Proof.
  revert i. induction l1 as [|y l1 IH]; intros i; cbn.
  - intros H. right. exists i. auto.
  - destruct i as [|i]; cbn; [auto|].
    intros H. destruct (IH _ H) as [H1|(j & -> & Hj)]; [auto|].
    right. exists j. auto.
Qed.

Lemma nth_error_bound {A : Type} (l : list A) (i : nat) (x : A) :
  nth_error l i = Some x -> i < length l.
Proof.
  revert i. induction l as [|y l IH]; intros [|i]; cbn;
    try discriminate; [lia|].
  intros H. apply IH in H. lia.
Qed.

(** X14: [get_detailed_coin_info] asks Kraken for the pairs of
    [pairs_tried] in that order, one call each, and settles on the first
    one answered; it gives up exactly when every one of these calls
    fails. *)
Theorem X14_kraken_pair_is_the_first_answered
        (fetch_ticker : nat -> string -> bool) (symbol market : string) :
  match Fetcher.KrakenFetcher.trading_pair fetch_ticker symbol market with
  | Some found =>
      exists n,
        nth_error (Fetcher.KrakenFetcher.pairs_tried symbol market) n
        = Some found /\
        fetch_ticker n found = true /\
        forall i c,
          i < n ->
          nth_error (Fetcher.KrakenFetcher.pairs_tried symbol market) i
          = Some c ->
          fetch_ticker i c = false
  | None =>
      forall i c,
        nth_error (Fetcher.KrakenFetcher.pairs_tried symbol market) i
        = Some c ->
        fetch_ticker i c = false
  end.
Proof.
  unfold Fetcher.KrakenFetcher.trading_pair,
    Fetcher.KrakenFetcher.pairs_tried.
  set (symbol_for_kraken := if String.eqb symbol "BTC" then "XBT" else symbol).
  set (alternatives :=
         if String.eqb market "USDT" then ["USDT"; "USD"] else [market]).
  cbv zeta.
  set (l1 := map (fun m => symbol_for_kraken +:+ "/" +:+ m) alternatives).
  set (l2 := map (fun m => symbol +:+ "/" +:+ m) alternatives).
  assert (Hlen : length l1 = length alternatives)
    by (unfold l1; apply List.length_map).
  pose proof (first_pair_spec fetch_ticker symbol_for_kraken alternatives 0)
    as H1.
  cbv zeta in H1. fold l1 in H1.
  destruct (Fetcher.KrakenFetcher.first_pair
              fetch_ticker 0 symbol_for_kraken alternatives)
    as [[found|] calls].
  - destruct H1 as (n & Hn & Hf & Hlt). exists n.
    split; [apply nth_error_app_l, Hn|]. split; [exact Hf|].
    intros i c Hi Hc. apply (Hlt i c Hi).
    apply nth_error_app_cases in Hc. destruct Hc as [Hc|(j & -> & _)];
      [exact Hc|].
    apply nth_error_bound in Hn. lia.
  - destruct H1 as [Hcalls Hall1]. cbn in Hcalls. subst calls.
    pose proof (first_pair_spec fetch_ticker symbol alternatives
                                (length alternatives)) as H2.
    cbv zeta in H2. fold l2 in H2.
    destruct (Fetcher.KrakenFetcher.first_pair
                fetch_ticker (length alternatives) symbol alternatives)
      as [[found|] calls2]; cbn [fst].
    + destruct H2 as (n & Hn & Hf & Hlt).
      exists (length alternatives + n). split.
      { rewrite <- Hlen. rewrite nth_error_app_r. exact Hn. }
      split; [exact Hf|].
      intros i c Hi Hc. apply nth_error_app_cases in Hc.
      destruct Hc as [Hc|(j & -> & Hj)]; [apply (Hall1 i c Hc)|].
      rewrite Hlen. apply Hlt; [lia|exact Hj].
    + destruct H2 as [_ Hall2]. intros i c Hc.
      apply nth_error_app_cases in Hc.
      destruct Hc as [Hc|(j & -> & Hj)]; [apply (Hall1 i c Hc)|].
      rewrite Hlen. apply Hall2, Hj.
Qed.

(** ** An exchange that does not answer *)

Section ForEachSame.
Import PyFloat.
Context {A S : Type}.

(** A body that leaves the state alone on every element leaves it alone
    over the loop. *)
Lemma for_each_same (body : S -> A -> res S) (l : list A) (s : S) :
  (forall x, In x l -> body s x = Ok s) -> for_each body l s = Ok s.
Proof.
  induction l as [|x l IH]; intros H; cbn; [reflexivity|].
  rewrite (H x) by (left; reflexivity). apply IH.
  intros y Hy. apply H. right. exact Hy.
Qed.
End ForEachSame.

Lemma filter_none {A : Type} (f : A -> bool) (l : list A) :
  (forall x, In x l -> f x = false) -> List.filter f l = [].
Proof.
  induction l as [|x l IH]; intros H; cbn; [reflexivity|].
  rewrite (H x) by (left; reflexivity). apply IH.
  intros y Hy. apply H. right. exact Hy.
Qed.

Lemma assoc_dict_set_inv {V : Type} (m k : string) (v x : V)
      (d : list (string * V)) :
  Pandas.assoc m (Pandas.dict_set k v d) = Some x ->
  x = v \/ Pandas.assoc m d = Some x.
Proof.
  destruct (String.eqb_spec m k) as [->|Hne].
  - rewrite assoc_dict_set_eq. intros [= <-]. left. reflexivity.
  - rewrite assoc_dict_set_ne by exact Hne. auto.
Qed.

Section Silent.
Import PyFloat Pandas Fetcher.
Variable names : string -> string -> list (string * bool).

Lemma lookup_price_silent (tried : list (string * bool)) :
  lookup_price ∅ tried = Ok None.
Proof.
  induction tried as [|nb tried IH]; cbn; [reflexivity|].
  rewrite lookup_empty. exact IH.
Qed.

(** With no ticker at all every value a row gets is [None]. *)
Lemma fill_row_silent crypto markets row :
  fill_row names ∅ crypto markets = Ok row ->
  forall m x, assoc m row.2 = Some x -> x = None.
Proof.
  unfold fill_row.
  apply (for_each_inv _ (fun row : record =>
                           forall m x, assoc m row.2 = Some x -> x = None)).
  - intros s market s' _ Hs.
    destruct (String.eqb crypto market); [intros [= <-]; exact Hs|].
    rewrite lookup_price_silent. cbn [bind]. intros [= <-]. cbn.
    intros m x Hx. apply assoc_dict_set_inv in Hx.
    destruct Hx as [->|Hx]; [reflexivity|eauto].
  - cbn. discriminate.
Qed.

(** The table built from no ticker holds no number. *)
Lemma silent_table cryptos markets r m :
  In r (rows (get_top_crypto_prices names ∅ cryptos markets)) ->
  is_nan (price r m) = true.
Proof.
  unfold get_top_crypto_prices.
  destruct (collect names ∅ cryptos markets) as [data|e] eqn:E;
    [|intros []].
  assert (Hdata : Forall (fun rec : record =>
                            forall m x, assoc m rec.2 = Some x -> x = None)
                         data).
  { revert E. unfold collect. apply for_each_inv; [|constructor].
    intros s crypto s' _ Hs.
    destruct (fill_row names ∅ crypto markets) as [row|e] eqn:Erow;
      cbn [bind]; [|discriminate].
    intros [= <-]. apply Forall_app. split; [exact Hs|].
    constructor; [|constructor]. exact (fill_row_silent _ _ _ Erow). }
  rewrite List.Forall_forall in Hdata.
  cbn. intros Hr. apply in_map_iff in Hr. destruct Hr as (rec & <- & Hrec).
  cbn. destruct (assoc m rec.2) as [[f|]|] eqn:Em; [|reflexivity..].
  apply (Hdata rec Hrec) in Em. discriminate.
Qed.
End Silent.

Section NothingToCompare.
Import PyFloat Pandas ArbitrageCalculator.
Context {S : SortValues}.
Variables binance_prices kraken_prices : DataFrame.

Lemma no_number_left row m :
  (forall r m, In r (rows binance_prices) -> is_nan (price r m) = true) ->
  In row (merge binance_prices kraken_prices) ->
  isna (get_left binance_prices kraken_prices row m) = true.
Proof.
  intros H Hrow. apply merge_In in Hrow. destruct Hrow as (Hl & _ & _).
  unfold get_left, at_col.
  destruct (merged_has binance_prices kraken_prices m); [|reflexivity].
  destruct (assoc m (columns binance_prices)) as [[|]|]; cbn; auto.
Qed.

Lemma no_number_right row m :
  (forall r m, In r (rows kraken_prices) -> is_nan (price r m) = true) ->
  In row (merge binance_prices kraken_prices) ->
  isna (get_right binance_prices kraken_prices row m) = true.
Proof.
  intros H Hrow. apply merge_In in Hrow. destruct Hrow as (_ & Hr & _).
  unfold get_right, at_col.
  destruct (merged_has binance_prices kraken_prices m); [|reflexivity].
  destruct (assoc m (columns kraken_prices)) as [[|]|]; cbn; auto.
Qed.

Hypothesis one_side_missing :
  forall row m,
    In row (merge binance_prices kraken_prices) ->
    isna (get_left binance_prices kraken_prices row m) = true \/
    isna (get_right binance_prices kraken_prices row m) = true.

(** When no merged row has both prices, the scan returns nothing and
    keeps what it remembered. *)
Lemma scan_nothing_to_compare now self :
  calculate_arbitrage_opportunities_on
    now binance_prices kraken_prices self = ([], self).
Proof.
  unfold calculate_arbitrage_opportunities_on.
  destruct (empty binance_prices || empty kraken_prices); [reflexivity|].
  cbv zeta. unfold score_rows.
  assert (Hrows : forall l acc,
             incl l (merge binance_prices kraken_prices) ->
             for_each
               (fun opportunities row =>
                  for_each (score_market now binance_prices kraken_prices row)
                           Config.MARKETS opportunities)
               l acc = Ok acc).
  { intros l acc Hl. apply for_each_same. intros row Hrow.
    apply for_each_same. intros market _.
    apply score_market_absent. right. apply one_side_missing.
    apply Hl, Hrow. }
  rewrite Hrows by apply incl_refl. reflexivity.
Qed.

Lemma screen_nothing_to_compare :
  get_low_price_gainers_on binance_prices kraken_prices = [].
Proof.
  unfold get_low_price_gainers_on.
  destruct (empty binance_prices || empty kraken_prices); [reflexivity|].
  destruct (merged_has binance_prices kraken_prices "USDT");
    [|reflexivity].
  cbn [negb]. cbv zeta. rewrite filter_none; [reflexivity|].
  intros row Hrow.
  destruct (one_side_missing row "USDT" Hrow) as [-> | ->]; cbn [negb];
    rewrite ?andb_false_r; reflexivity.
Qed.
End NothingToCompare.

(** X15: when one exchange does not answer and its ticker dict is empty,
    the scan returns no opportunity and leaves the remembered one as it
    was, and the screener returns no row, whatever the other exchange
    quotes. *)
Theorem X15_silent_exchange_gives_nothing
        (S : Pandas.SortValues) (w : World) (self : ArbitrageCalculator.t) :
  binance_tickers w = ∅ \/ kraken_tickers w = ∅ ->
  ArbitrageCalculator.calculate_arbitrage_opportunities w self = ([], self)
  /\ ArbitrageCalculator.get_low_price_gainers w = [].
Proof.
  intros H.
  unfold ArbitrageCalculator.calculate_arbitrage_opportunities,
    ArbitrageCalculator.get_low_price_gainers,
    ArbitrageCalculator.fetch_all_prices.
  set (b := Fetcher.BinanceFetcher.get_top_crypto_prices
              (binance_tickers w) Config.TOP_CRYPTOS Config.MARKETS).
  set (k := Fetcher.KrakenFetcher.get_top_crypto_prices
              (kraken_tickers w) Config.TOP_CRYPTOS Config.MARKETS).
  assert (Hmissing : forall row m,
             In row (Pandas.merge b k) ->
             Pandas.isna (Pandas.get_left b k row m) = true \/
             Pandas.isna (Pandas.get_right b k row m) = true).
  { intros row m Hrow. destruct H as [H|H]; [left|right].
    - apply no_number_left; [|exact Hrow].
      intros r m' Hr. unfold b in Hr. rewrite H in Hr.
      exact (silent_table _ _ _ r m' Hr).
    - apply no_number_right; [|exact Hrow].
      intros r m' Hr. unfold k in Hr. rewrite H in Hr.
      exact (silent_table _ _ _ r m' Hr). }
  split.
  - apply scan_nothing_to_compare, Hmissing.
  - apply screen_nothing_to_compare, Hmissing.
Qed.

Lemma X15_witness :
  ArbitrageCalculator.calculate_arbitrage_opportunities
    (S := stable_sort_values) Examples.silent_binance_world Examples.seen
  = ([], Examples.seen)
  /\ ArbitrageCalculator.get_low_price_gainers
       (S := stable_sort_values) Examples.silent_binance_world = [].
Proof.
  apply (X15_silent_exchange_gives_nothing
           stable_sort_values Examples.silent_binance_world Examples.seen).
  left. reflexivity.
Defined.

(** ** One screener row per coin *)

Lemma NoDup_map_filter {A B : Type} (g : A -> B) (f : A -> bool)
      (l : list A) :
  List.NoDup (map g l) -> List.NoDup (map g (List.filter f l)).
Proof.
  induction l as [|x l IH]; cbn; [auto|].
  intros H. apply List.NoDup_cons_iff in H. destruct H as [Hx Hl].
  destruct (f x); cbn; [|auto].
  apply List.NoDup_cons_iff. split; [|auto].
  intros Hin. apply Hx. apply in_map_iff in Hin.
  destruct Hin as (y & Hy & Hyl). apply filter_In in Hyl.
  apply in_map_iff. exists y. tauto.
Qed.

Lemma gainers_symbols_NoDup (S : Pandas.SortValues)
      (binance_prices kraken_prices : Pandas.DataFrame) :
  List.NoDup (map (fun row : Pandas.Row * Pandas.Row => Pandas.Symbol row.1)
                  (Pandas.merge binance_prices kraken_prices)) ->
  List.NoDup (map LowPriceGainer.Symbol
                  (ArbitrageCalculator.get_low_price_gainers_on
                     binance_prices kraken_prices)).
Proof.
  intros Hnd. unfold ArbitrageCalculator.get_low_price_gainers_on.
  destruct (Pandas.empty binance_prices || Pandas.empty kraken_prices);
    [constructor|].
  destruct (Pandas.merged_has binance_prices kraken_prices "USDT");
    [|constructor].
  cbn [negb]. cbv zeta.
  match goal with
  | |- context [match ?l with [] => [] | _ :: _ => _ end] =>
      set (low := l)
  end.
  assert (Hlow : List.NoDup
                   (map (fun row : Pandas.Row * Pandas.Row =>
                           Pandas.Symbol row.1) low))
    by (apply NoDup_map_filter, Hnd).
  clearbody low. destruct low as [|r0 low']; [constructor|].
  eapply Permutation_NoDup.
  - apply Permutation_map. apply Pandas.sort_values_perm.
  - rewrite map_map. exact Hlow.
Qed.

(** X16: the screener lists a coin at most once, lists tracked coins only,
    and so returns at most ten rows, whatever the exchanges answer. *)
Theorem X16_one_gainer_row_per_tracked_coin
        (S : Pandas.SortValues) (w : World) :
  let out := ArbitrageCalculator.get_low_price_gainers w in
  List.NoDup (map LowPriceGainer.Symbol out) /\
  (forall g, In g out -> In (LowPriceGainer.Symbol g) Config.TOP_CRYPTOS) /\
  length out <= 10.
Proof.
  cbv zeta.
  unfold ArbitrageCalculator.get_low_price_gainers,
    ArbitrageCalculator.fetch_all_prices.
  set (b := Fetcher.BinanceFetcher.get_top_crypto_prices
              (binance_tickers w) Config.TOP_CRYPTOS Config.MARKETS).
  set (k := Fetcher.KrakenFetcher.get_top_crypto_prices
              (kraken_tickers w) Config.TOP_CRYPTOS Config.MARKETS).
  destruct (fetched_symbols Fetcher.binance_names (binance_tickers w))
    as [Hb Hbtop].
  destruct (fetched_symbols Fetcher.kraken_names (kraken_tickers w))
    as [Hk _].
  assert (Hnd : List.NoDup
                  (map LowPriceGainer.Symbol
                       (ArbitrageCalculator.get_low_price_gainers_on b k)))
    by (apply gainers_symbols_NoDup, merge_symbols_NoDup; assumption).
  assert (Htop : forall g,
             In g (ArbitrageCalculator.get_low_price_gainers_on b k) ->
             In (LowPriceGainer.Symbol g) Config.TOP_CRYPTOS).
  { intros g Hg. apply gainer_from_row in Hg.
    destruct Hg as (row & Hrow & -> & _).
    apply Hbtop. apply (merge_symbols_left b k).
    apply in_map_iff. exists row. auto. }
  split; [exact Hnd|]. split; [exact Htop|].
  rewrite <- (List.length_map LowPriceGainer.Symbol).
  change 10 with (length Config.TOP_CRYPTOS).
  apply NoDup_incl_length; [exact Hnd|].
  intros s Hs. apply in_map_iff in Hs. destruct Hs as (g & <- & Hg). auto.
Qed.

(** ** The columns of a fetched table *)

Lemma Forall2_In_l {A B : Type} (R : A -> B -> Prop) (l : list A)
      (l' : list B) (x : A) :
  Forall2 R l l' -> In x l -> exists y, In y l' /\ R x y.
Proof.
  induction 1 as [|a b l l' Hab _ IH]; [intros []|].
  intros [->|Hx].
  - exists b. split; [left; reflexivity|exact Hab].
  - destruct (IH Hx) as (y & Hy & Hxy). exists y. split; [right|]; auto.
Qed.

(** A table that is not empty has the price column of every market that
    some listed crypto is priced in. *)
Lemma fetched_columns names (all_prices : gmap string float)
      (cryptos markets : list string) (crypto market : string) :
  In crypto cryptos -> In market markets -> crypto <> market ->
  Pandas.empty (Fetcher.get_top_crypto_prices
                  names all_prices cryptos markets) = false ->
  exists d,
    Pandas.assoc market
                 (Pandas.columns (Fetcher.get_top_crypto_prices
                                    names all_prices cryptos markets))
    = Some d.
Proof.
  intros Hc Hm Hne. unfold Fetcher.get_top_crypto_prices.
  destruct (Fetcher.collect names all_prices cryptos markets)
    as [data|e] eqn:E; [|cbn; discriminate].
  intros _. apply collect_spec in E.
  destruct (Forall2_In_l _ _ _ _ E Hc) as (rec & Hrec & Hfill).
  apply fill_row_spec in Hfill. destruct Hfill as (_ & Hval & _).
  destruct (Hval market Hm) as (v & _ & Hv); [congruence|].
  exists (Pandas.infer_dtype data market). cbn.
  apply assoc_self_map. apply union_keys_In. exists rec.
  split; [exact Hrec|]. exact (assoc_Some_key _ _ _ Hv).
Qed.

(** X17: when both fetched tables have rows, each has the price column of
    every configured market, so the merged table has both suffixed columns
    of that market: the screener's missing-column exit is never taken and
    selecting these columns does not fail. *)
Theorem X17_fetched_tables_have_every_market
        (w : World) (market : string) :
  In market Config.MARKETS ->
  Pandas.empty (ArbitrageCalculator.fetch_all_prices w).1 = false ->
  Pandas.empty (ArbitrageCalculator.fetch_all_prices w).2 = false ->
  Pandas.merged_has (ArbitrageCalculator.fetch_all_prices w).1
                    (ArbitrageCalculator.fetch_all_prices w).2
                    market = true.
Proof.
  intros Hm Hb Hk. unfold ArbitrageCalculator.fetch_all_prices in *.
  cbn [fst snd] in *.
  set (other := if String.eqb market "BTC" then "ETH" else "BTC").
  assert (Hother : In other Config.TOP_CRYPTOS /\ other <> market).
  { unfold other. destruct (String.eqb_spec market "BTC") as [->|Hne].
    - split; [cbn; tauto|discriminate].
    - split; [cbn; tauto|congruence]. }
  destruct Hother as [Hin Hne].
  destruct (fetched_columns Fetcher.binance_names (binance_tickers w)
                            Config.TOP_CRYPTOS Config.MARKETS other market
                            Hin Hm Hne Hb) as [db Hdb].
  destruct (fetched_columns Fetcher.kraken_names (kraken_tickers w)
                            Config.TOP_CRYPTOS Config.MARKETS other market
                            Hin Hm Hne Hk) as [dk Hdk].
  unfold Pandas.merged_has.
  unfold Fetcher.BinanceFetcher.get_top_crypto_prices,
    Fetcher.KrakenFetcher.get_top_crypto_prices.
  rewrite Hdb, Hdk. reflexivity.
Qed.

Lemma X17_witness :
  Pandas.merged_has
    (ArbitrageCalculator.fetch_all_prices Examples.gap_world).1
    (ArbitrageCalculator.fetch_all_prices Examples.gap_world).2
    "BTC" = true.
Proof.
  apply (X17_fetched_tables_have_every_market Examples.gap_world "BTC").
  - cbn. tauto.
  - reflexivity.
  - reflexivity.
Defined.
